(** * Tree detection backend: a shallow embedding of [python_backend]

    The development follows the two source files:

    - [tree_detector_core.py]: [detect_trees_in_image] and [populate_cluster];
    - [main.py]: the [/detect-trees] endpoint [detect_trees] and the
      [/generate-model] endpoint [generate_model], whose collaborators
      ([model_generator_core], the file system, the clock) are the fields of
      a [Backend].

    Python [float]s are IEEE binary64 numbers, here Rocq's primitive floats, so
    every arithmetic step rounds exactly as the interpreter does and concrete
    runs are obtained by evaluation; the one step that is not correctly
    rounded, the C library's [pow] behind [x ** 2], is a parameter ([LibM]).
    Python [int]s are [Z]; where numpy and the OpenCV binding store them in 64
    and 32 bits the narrowing is written out.  Exceptions are an explicit
    [result]; the process-wide numpy generator is a state threaded through
    the calls that draw from it.  Request bodies are [json] values and Python
    [str]s are strings. *)

From Stdlib Require Import ZArith List Bool Floats Lia.
From Stdlib Require Uint63.
From Stdlib Require String DecimalString.
Import ListNotations.
Import String.StringSyntax.
Delimit Scope string_scope with string.

Set Warnings "-inexact-float".
Set Warnings "-register-all".
Local Open Scope Z_scope.

(* ================================================================== *)
(** ** Exceptions and results *)

Inductive exception : Type :=
| ZeroDivisionError
| OverflowError
| ValueError
| cv2_error.

Inductive result (A : Type) : Type :=
| Ok (a : A)
| Raise (e : exception).

Arguments Ok {A} a.
Arguments Raise {A} e.

Definition result_bind {A B} (r : result A) (k : A -> result B) : result B :=
  match r with
  | Ok a => k a
  | Raise e => Raise e
  end.

(** A computation that reads and advances the generator state [S] and may
    raise.  The state reached when the exception was raised is kept: the
    generator is global and is not rolled back. *)
Definition M (S A : Type) : Type := S -> result A * S.

Definition ret {S A} (a : A) : M S A := fun s => (Ok a, s).

Definition bind {S A B} (c : M S A) (k : A -> M S B) : M S B :=
  fun s =>
    match c s with
    | (Ok a, s') => k a s'
    | (Raise e, s') => (Raise e, s')
    end.

Definition lift {S A} (r : result A) : M S A := fun s => (r, s).

Declare Scope py_scope.
Delimit Scope py_scope with py.
Notation "x <- c ;; k" := (bind c (fun x => k))
  (at level 61, c at next level, right associativity) : py_scope.
Notation "x <~ r ;; k" := (result_bind r (fun x => k))
  (at level 61, r at next level, right associativity) : py_scope.

(* ================================================================== *)
(** ** Python numbers *)

(** The C library behind [float.__pow__].  Its [pow] is accurate to less than
    one unit in the last place but not correctly rounded, so [x ** 2] can be
    either neighbour of the exact square; what is proved holds for any [pow]. *)
Class LibM : Type := {
  (** [pow(x, 2.0)]: the only exponent the backend uses *)
  pow_2 : float -> float
}.

Module Py.

(** [float(n)] for an [int]: the nearest binary64 number, ties to even.
    Every integer converted in this program is a pixel coordinate or a sum
    of a few products of them, far below the 2^1024 at which Python raises
    instead of rounding. *)
Definition float_of_int (n : Z) : float :=
  SF2Prim (binary_normalize prec emax n 0 false).

Definition is_nan (x : float) : bool := negb (PrimFloat.eqb x x).

Definition is_finite (x : float) : bool :=
  PrimFloat.ltb (PrimFloat.abs x) PrimFloat.infinity.

(** [a / b] on floats: a zero divisor raises, whatever the dividend. *)
Definition truediv (a b : float) : result float :=
  if PrimFloat.eqb b 0%float then Raise ZeroDivisionError
  else Ok (PrimFloat.div a b).

(** [x ** 2], as [float_pow] computes it for the exponent [2.0]: a NaN is
    returned as it is, an infinity gives [inf], a zero gives [0.0]; a negative
    base is replaced by its absolute value (the exponent is even); [1.0] gives
    [1.0]; every other base goes to the C library's [pow], and an infinite
    result is an [OverflowError]. *)
Definition pow2 {libm : LibM} (x : float) : result float :=
  if is_nan x then Ok x
  else if negb (is_finite x) then Ok (PrimFloat.abs x)
  else if PrimFloat.eqb x 0%float then Ok 0%float
  else
    let iv := PrimFloat.abs x in
    if PrimFloat.eqb iv 1%float then Ok 1%float
    else
      let ix := pow_2 iv in
      if PrimFloat.eqb (PrimFloat.abs ix) PrimFloat.infinity
      then Raise OverflowError
      else Ok ix.

(** Magnitude of a finite non-zero float [m * 2^e], truncated. *)
Definition trunc_mag (m : positive) (e : Z) : Z :=
  match e with
  | Zneg p => Zpos m / 2 ^ Zpos p
  | _ => Zpos m * 2 ^ e
  end.

(** [int(x)]: truncation toward zero; infinities and NaN raise. *)
Definition int (x : float) : result Z :=
  match Prim2SF x with
  | S754_zero _ => Ok 0
  | S754_finite s m e => Ok (if s then - trunc_mag m e else trunc_mag m e)
  | S754_infinity _ => Raise OverflowError
  | S754_nan => Raise ValueError
  end.

(** Quotient of non-negative [n] by positive [d], rounded to nearest, ties
    to even. *)
Definition div_half_even (n d : Z) : Z :=
  let q := n / d in
  match (2 * (n mod d) ?= d) with
  | Lt => q
  | Gt => q + 1
  | Eq => if Z.even q then q else q + 1
  end.

(** The integer nearest to [100 * m * 2^e], ties to even. *)
Definition hundredths (m : positive) (e : Z) : Z :=
  match e with
  | Zneg p => div_half_even (100 * Zpos m) (2 ^ Zpos p)
  | _ => 100 * Zpos m * 2 ^ e
  end.

(** [round(x, 2)]: the exact value of [x] rounded half-even to two decimals,
    then the binary64 number nearest to that decimal; the sign of [x] is
    kept on a zero result; infinities and NaN are returned unchanged. *)
Definition round2 (x : float) : float :=
  match Prim2SF x with
  | S754_finite s m e =>
      match hundredths m e with
      | Z0 => SF2Prim (S754_zero s)
      | n =>
          let '(mz, ez, lz) := SFdiv_core_binary prec emax n 0 100 0 in
          SF2Prim (binary_round_aux prec emax s mz ez lz)
      end
  | _ => x
  end.

End Py.

Module math.

(** [math.pi] *)
Definition pi : float := 0x1.921fb54442d18p+1%float.

(** [math.sqrt]: a negative argument is a domain error. *)
Definition sqrt (x : float) : result float :=
  if PrimFloat.ltb x 0%float then Raise ValueError else Ok (PrimFloat.sqrt x).

End math.

(* ================================================================== *)
(** ** Images and OpenCV primitives *)

(** A pixel is its three 8-bit channels in storage order (B, G, R before the
    conversion; H, S, V after it). *)
Definition Pixel : Type := Z * Z * Z.
Definition Image : Type := list (list Pixel).

(** An 8-bit single-channel image holding 0 or 255. *)
Definition Mask : Type := list (list Z).

Definition Point : Type := Z * Z.
Definition Contour : Type := list Point.

(** [img.shape[:2]] *)
Definition shape (img : Image) : Z * Z :=
  (Z.of_nat (length img), Z.of_nat (length (hd [] img))).

Module cv2.

(** What the binding makes of an int64 bound: OpenCV has no 64-bit integer
    matrices, so the array is cast to 32-bit integers, keeping the low 32
    bits. *)
Definition narrow_int32 (n : Z) : Z := (n + 2 ^ 31) mod 2 ^ 32 - 2 ^ 31.

Definition narrow_bounds (b : Pixel) : Pixel :=
  let '(b0, b1, b2) := b in (narrow_int32 b0, narrow_int32 b1, narrow_int32 b2).

(** The comparison of [cv2.inRange] on one pixel: 255 when every channel
    lies between its bounds, both included; otherwise 0.  (On 8-bit channels
    the library's clamping of the bounds to [[0, 255]] does not change the
    outcome.) *)
Definition inRange_pixel (lowerb upperb : Pixel) (p : Pixel) : Z :=
  let '(l0, l1, l2) := lowerb in
  let '(u0, u1, u2) := upperb in
  let '(p0, p1, p2) := p in
  if (l0 <=? p0) && (p0 <=? u0) && (l1 <=? p1) && (p1 <=? u1)
     && (l2 <=? p2) && (p2 <=? u2)
  then 255 else 0.

(** [cv2.inRange(src, lowerb, upperb)] for two int64 arrays of three
    elements. *)
Definition inRange (src : Image) (lowerb upperb : Pixel) : Mask :=
  map (map (inRange_pixel (narrow_bounds lowerb) (narrow_bounds upperb))) src.

(** Twice the signed area of the polygon: the sum over its edges
    [(prev, p)] of [prev.x * p.y - prev.y * p.x], the walk starting from the
    edge that closes the contour. *)
Fixpoint edge_sum (f : Point -> Point -> Z) (prev : Point) (pts : Contour) : Z :=
  match pts with
  | [] => 0
  | p :: rest => f prev p + edge_sum f p rest
  end.

Definition cross (prev p : Point) : Z := fst prev * snd p - snd prev * fst p.

Definition closing_sum (f : Point -> Point -> Z) (contour : Contour) : Z :=
  edge_sum f (last contour (0, 0)) contour.

(** [cv2.contourArea(contour)], not oriented.  The sum is accumulated in
    binary64 by the library; on pixel coordinates every partial sum is an
    integer below 2^53, so it is the exact integer sum. *)
Definition contourArea (contour : Contour) : float :=
  PrimFloat.mul (Py.float_of_int (Z.abs (closing_sum cross contour))) 0.5%float.

(** The three spatial moments the detector reads. *)
Record Moments : Type := { m00 : float; m10 : float; m01 : float }.

Definition db1_6 : float := 0.16666666666666666%float.

(** [cv2.moments(contour)]: Green's formula over the edges, the sums being
    exact integers as in [contourArea], then scaled by the library's
    constants 1/2 and 1/6 with the sign that makes [m00] positive.  A
    degenerate contour (zero signed area) has all moments zero. *)
Definition moments (contour : Contour) : Moments :=
  let a00 := closing_sum cross contour in
  let a10 := closing_sum (fun prev p => cross prev p * (fst prev + fst p)) contour in
  let a01 := closing_sum (fun prev p => cross prev p * (snd prev + snd p)) contour in
  if a00 =? 0 then {| m00 := 0; m10 := 0; m01 := 0 |}
  else
    let sgn := if 0 <? a00 then 1%float else (-1)%float in
    {| m00 := PrimFloat.mul (Py.float_of_int a00) (PrimFloat.mul sgn 0.5%float);
       m10 := PrimFloat.mul (Py.float_of_int a10) (PrimFloat.mul sgn db1_6);
       m01 := PrimFloat.mul (Py.float_of_int a01) (PrimFloat.mul sgn db1_6) |}.

(** [cv2.boundingRect(contour)] = [(x, y, w, h)]. *)
Definition boundingRect (contour : Contour) : Z * Z * Z * Z :=
  match contour with
  | [] => (0, 0, 0, 0)
  | p :: rest =>
      let xmin := fold_left Z.min (map fst rest) (fst p) in
      let xmax := fold_left Z.max (map fst rest) (fst p) in
      let ymin := fold_left Z.min (map snd rest) (snd p) in
      let ymax := fold_left Z.max (map snd rest) (snd p) in
      (xmin, ymin, xmax - xmin + 1, ymax - ymin + 1)
  end.

(** [cv2.pointPolygonTest(contour, pt, False)] at an integer point (the
    detector passes [float(test_x), float(test_y)], which are whole numbers):
    the edge walk of the library's integer branch.  The state is the number
    of crossings so far, or [None] once the point was found on an edge. *)
Definition ppt_edge (ip v0 v : Point) (counter : Z) : option Z :=
  let '(ipx, ipy) := ip in
  let '(v0x, v0y) := v0 in
  let '(vx, vy) := v in
  if ((v0y <=? ipy) && (vy <=? ipy))
     || ((ipy <? v0y) && (ipy <? vy))
     || ((v0x <? ipx) && (vx <? ipx))
  then
    if (ipy =? vy)
       && ((ipx =? vx)
           || ((ipy =? v0y)
               && (((v0x <=? ipx) && (ipx <=? vx)) || ((vx <=? ipx) && (ipx <=? v0x)))))
    then None
    else Some counter
  else
    let dist := (ipy - v0y) * (vx - v0x) - (ipx - v0x) * (vy - v0y) in
    if dist =? 0 then None
    else
      let dist := if vy <? v0y then - dist else dist in
      Some (if 0 <? dist then counter + 1 else counter).

Fixpoint ppt_walk (ip v0 : Point) (pts : Contour) (counter : Z) : option Z :=
  match pts with
  | [] => Some counter
  | v :: rest =>
      match ppt_edge ip v0 v counter with
      | None => None
      | Some counter' => ppt_walk ip v rest counter'
      end
  end.

(** +1 inside, 0 on an edge or a vertex, -1 outside. *)
Definition pointPolygonTest (contour : Contour) (pt : Point) : Z :=
  match contour with
  | [] => -1
  | _ =>
      match ppt_walk pt (last contour (0, 0)) contour 0 with
      | None => 0
      | Some counter => if Z.even counter then -1 else 1
      end
  end.

End cv2.

(** The OpenCV steps that are taken as given: the colour conversion, the
    border following, and what [cv2.inRange] does with bounds that numpy
    could not store as int64 (the arrays are then of another dtype, which the
    binding may refuse).  Everything proved about the detector holds for any
    implementation of them. *)
Class ImageOps : Type := {
  (** [cv2.cvtColor(img, cv2.COLOR_BGR2HSV)] *)
  cvtColor : Image -> Image;
  (** [cv2.findContours(mask, cv2.RETR_EXTERNAL, cv2.CHAIN_APPROX_SIMPLE)] *)
  findContours : Mask -> list Contour;
  (** [cv2.inRange(hsv, lower_bound, upper_bound)] when a bound lies outside
      int64 *)
  inRange_wide : Image -> Pixel -> Pixel -> result Mask
}.

(* ================================================================== *)
(** ** The numpy generator *)

(** The state behind [np.random]: what [np.random.seed] installs, and the two
    draws the detector uses.  No function of the backend receives it as an
    argument; it is process-wide, so the model threads it through [M]. *)
Class RandomKit (S : Type) : Type := {
  (** the state [np.random.seed(n)] installs *)
  rk_seed : Z -> S;
  (** an integer of [[0, max]] *)
  rk_interval : Z -> S -> Z * S;
  (** a float of [[0, 1)] *)
  rk_double : S -> float * S
}.

Module np_random.

Definition seed {S} {RK : RandomKit S} (n : Z) : M S unit :=
  fun _ => (Ok tt, rk_seed n).

(** [np.random.randint(low, high)]: an integer of [[low, high)]. *)
Definition randint {S} {RK : RandomKit S} (low high : Z) : M S Z :=
  fun s =>
    if low <? high
    then let '(k, s') := rk_interval (high - 1 - low) s in (Ok (low + k), s')
    else (Raise ValueError, s).

(** [np.random.uniform(low, high)] *)
Definition uniform {S} {RK : RandomKit S} (low high : float) : M S float :=
  fun s =>
    let range := PrimFloat.sub high low in
    if Py.is_finite range
    then let '(u, s') := rk_double s in
         (Ok (PrimFloat.add low (PrimFloat.mul range u)), s')
    else (Raise OverflowError, s).

End np_random.

(* ================================================================== *)
(** ** tree_detector_core.py *)

Record Range : Type := { r_min : Z; r_max : Z }.

Record HsvThresholds : Type := {
  hue : Range;
  saturation : Range;
  value : Range
}.

Record DetectionParams : Type := {
  min_diameter : float;
  max_diameter : float;
  cluster_threshold : float
}.

Record RealDimensions : Type := {
  real_width : float;
  real_height : float
}.

Module PopulatedTree.
Record t : Type := {
  positionPx : Point;
  positionM : float * float;
  estimatedDiameterM : float
}.
End PopulatedTree.

Module TreeCluster.
Record t : Type := {
  areaM2 : float;
  centroidPx : Point;
  centroidM : float * float;
  polygonPx : list Point;
  polygonM : list (float * float);
  populatedTrees : list PopulatedTree.t
}.
End TreeCluster.

Module IndividualTree.
Record t : Type := {
  centroidPx : Point;
  centroidM : float * float;
  areaM2 : float;
  estimatedDiameterM : float;
  polygonPx : list Point;
  polygonM : list (float * float)
}.
End IndividualTree.

(** The result dictionary; the [timestamp] string of its metadata is the wall
    clock at return and is left out. *)
Record Metadata : Type := {
  imageDimensionsPx : Z * Z;
  realDimensionsM : RealDimensions;
  metersPerPixel : float * float;
  hsvRange : Pixel * Pixel;
  detectionParameters : DetectionParams
}.

Record Summary : Type := {
  individualTreesCount : Z;
  treeClustersCount : Z;
  totalPopulatedTrees : Z
}.

Record DetectionResult : Type := {
  metadata : Metadata;
  summary : Summary;
  individualTrees : list IndividualTree.t;
  treeClusters : list TreeCluster.t
}.

Definition round_point (p : float * float) : float * float :=
  (Py.round2 (fst p), Py.round2 (snd p)).

(** [math.sqrt((test_x - px)**2 + (test_y - py)**2)]: the argument is an exact
    integer and a sum of two squares, so the domain check of [math.sqrt] never
    fires. *)
Definition pixel_distance (a b : Point) : float :=
  PrimFloat.sqrt (Py.float_of_int ((fst a - fst b) ^ 2 + (snd a - snd b) ^ 2)).

(** The inner [for tree in populated_trees] loop with its [break]. *)
Definition too_close (min_spacing_px : float) (test : Point)
    (populated_trees : list PopulatedTree.t) : bool :=
  existsb (fun tree =>
             PrimFloat.ltb (pixel_distance test (PopulatedTree.positionPx tree))
                           min_spacing_px)
          populated_trees.

(** [avg_tree_area = math.pi * (avg_tree_diameter / 2) ** 2] *)
Definition avg_tree_area {libm : LibM} (min_diameter max_diameter : float)
    : result float :=
  let avg_tree_diameter :=
    PrimFloat.div (PrimFloat.add min_diameter max_diameter) 2%float in
  (sq <~ Py.pow2 (PrimFloat.div avg_tree_diameter 2%float) ;;
   Ok (PrimFloat.mul math.pi sq))%py.

(** [estimated_tree_count = max(1, int(area_m2 / avg_tree_area))] *)
Definition estimated_tree_count {libm : LibM}
    (area_m2 min_diameter max_diameter : float) : result Z :=
  (a <~ avg_tree_area min_diameter max_diameter ;;
   q <~ Py.truediv area_m2 a ;;
   n <~ Py.int q ;;
   Ok (Z.max 1 n))%py.

(** [min_spacing_px = min_diameter / ((mpp_x + mpp_y) / 2)] *)
Definition min_spacing_px (meters_per_pixel_x meters_per_pixel_y min_diameter : float)
    : result float :=
  let avg_meters_per_pixel :=
    PrimFloat.div (PrimFloat.add meters_per_pixel_x meters_per_pixel_y) 2%float in
  Py.truediv min_diameter avg_meters_per_pixel.

(** [area_m2 = area_pixels * meters_per_pixel_x * meters_per_pixel_y] *)
Definition region_area_m2 (area_pixels meters_per_pixel_x meters_per_pixel_y : float)
    : float :=
  PrimFloat.mul (PrimFloat.mul area_pixels meters_per_pixel_x) meters_per_pixel_y.

(** [2 * math.sqrt(area_m2 / math.pi)] *)
Definition estimated_diameter (area_m2 : float) : result float :=
  (root <~ math.sqrt (PrimFloat.div area_m2 math.pi) ;;
   Ok (PrimFloat.mul 2%float root))%py.

Section Detector.

Context {S : Type} {RK : RandomKit S} {ops : ImageOps} {libm : LibM}.

(** The [while] loop of [populate_cluster].  [remaining] is
    [max_attempts - attempts]: the loop stops when it reaches zero or when
    the list holds [count] trees.  The final value of [attempts] is returned
    with the list. *)
Fixpoint populate_while (contour : Contour) (x y w h : Z)
    (meters_per_pixel_x meters_per_pixel_y min_diameter max_diameter : float)
    (height : Z) (count : Z) (spacing : float)
    (remaining : nat) (attempts : Z) (populated_trees : list PopulatedTree.t)
    : M S (list PopulatedTree.t * Z) :=
  match remaining with
  | O => ret (populated_trees, attempts)
  | Datatypes.S remaining' =>
      if Z.of_nat (length populated_trees) <? count then
        let attempts := attempts + 1 in
        let continue :=
          populate_while contour x y w h meters_per_pixel_x meters_per_pixel_y
            min_diameter max_diameter height count spacing remaining' attempts in
        (test_x <- np_random.randint x (x + w) ;;
         test_y <- np_random.randint y (y + h) ;;
         if cv2.pointPolygonTest contour (test_x, test_y) <? 0 then
           continue populated_trees
         else if too_close spacing (test_x, test_y) populated_trees then
           continue populated_trees
         else
           let test_y_flipped := height - test_y in
           let position_m :=
             (PrimFloat.mul (Py.float_of_int test_x) meters_per_pixel_x,
              PrimFloat.mul (Py.float_of_int test_y_flipped) meters_per_pixel_y) in
           diameter_m <- np_random.uniform min_diameter max_diameter ;;
           continue
             (populated_trees ++
              [{| PopulatedTree.positionPx := (test_x, test_y);
                  PopulatedTree.positionM := round_point position_m;
                  PopulatedTree.estimatedDiameterM := Py.round2 diameter_m |}]))%py
      else ret (populated_trees, attempts)
  end.

Definition populate_attempts (contour : Contour) (area_m2 : float)
    (meters_per_pixel_x meters_per_pixel_y min_diameter max_diameter : float)
    (height : Z) : M S (list PopulatedTree.t * Z) :=
  let '(x, y, w, h) := cv2.boundingRect contour in
  (count <- lift (estimated_tree_count area_m2 min_diameter max_diameter) ;;
   spacing <- lift (min_spacing_px meters_per_pixel_x meters_per_pixel_y min_diameter) ;;
   let max_attempts := count * 10 in
   populate_while contour x y w h meters_per_pixel_x meters_per_pixel_y
     min_diameter max_diameter height count spacing
     (Z.to_nat max_attempts) 0 [])%py.

Definition populate_cluster (contour : Contour) (area_m2 : float)
    (meters_per_pixel_x meters_per_pixel_y min_diameter max_diameter : float)
    (height : Z) : M S (list PopulatedTree.t) :=
  (r <- populate_attempts contour area_m2 meters_per_pixel_x meters_per_pixel_y
          min_diameter max_diameter height ;;
   ret (fst r))%py.

(** The body of [for contour in contours]; [continue] returns the two lists
    unchanged. *)
Definition classify_contour (detection_params : DetectionParams)
    (height : Z) (meters_per_pixel_x meters_per_pixel_y : float)
    (min_area_pixels cluster_area_m2 : float)
    (acc : list IndividualTree.t * list TreeCluster.t) (contour : Contour)
    : M S (list IndividualTree.t * list TreeCluster.t) :=
  let '(individual_trees, tree_clusters) := acc in
  let area_pixels := cv2.contourArea contour in
  if PrimFloat.ltb area_pixels min_area_pixels then ret acc
  else
    let area_m2 := region_area_m2 area_pixels meters_per_pixel_x meters_per_pixel_y in
    let M := cv2.moments contour in
    if PrimFloat.eqb (cv2.m00 M) 0%float then ret acc
    else
      (qx <- lift (Py.truediv (cv2.m10 M) (cv2.m00 M)) ;;
       cx_px <- lift (Py.int qx) ;;
       qy <- lift (Py.truediv (cv2.m01 M) (cv2.m00 M)) ;;
       cy_px <- lift (Py.int qy) ;;
       let cy_px_flipped := height - cy_px in
       let cx_m := PrimFloat.mul (Py.float_of_int cx_px) meters_per_pixel_x in
       let cy_m := PrimFloat.mul (Py.float_of_int cy_px_flipped) meters_per_pixel_y in
       let polygon_px := contour in
       let polygon_m :=
         map (fun p => (PrimFloat.mul (Py.float_of_int (fst p)) meters_per_pixel_x,
                        PrimFloat.mul (Py.float_of_int (height - snd p))
                                      meters_per_pixel_y))
             polygon_px in
       if PrimFloat.ltb cluster_area_m2 area_m2 then
         populated_trees <-
           populate_cluster contour area_m2 meters_per_pixel_x meters_per_pixel_y
             (min_diameter detection_params) (max_diameter detection_params) height ;;
         ret (individual_trees,
              tree_clusters ++
              [{| TreeCluster.areaM2 := Py.round2 area_m2;
                  TreeCluster.centroidPx := (cx_px, cy_px);
                  TreeCluster.centroidM := round_point (cx_m, cy_m);
                  TreeCluster.polygonPx := polygon_px;
                  TreeCluster.polygonM := map round_point polygon_m;
                  TreeCluster.populatedTrees := populated_trees |}])
       else
         estimated_diameter_m <- lift (estimated_diameter area_m2) ;;
         if PrimFloat.leb (min_diameter detection_params) estimated_diameter_m
            && PrimFloat.leb estimated_diameter_m (max_diameter detection_params)
         then
           ret (individual_trees ++
                [{| IndividualTree.centroidPx := (cx_px, cy_px);
                    IndividualTree.centroidM := round_point (cx_m, cy_m);
                    IndividualTree.areaM2 := Py.round2 area_m2;
                    IndividualTree.estimatedDiameterM := Py.round2 estimated_diameter_m;
                    IndividualTree.polygonPx := polygon_px;
                    IndividualTree.polygonM := map round_point polygon_m |}],
                tree_clusters)
         else ret acc)%py.

Fixpoint for_contours (detection_params : DetectionParams)
    (height : Z) (meters_per_pixel_x meters_per_pixel_y : float)
    (min_area_pixels cluster_area_m2 : float)
    (contours : list Contour)
    (acc : list IndividualTree.t * list TreeCluster.t)
    : M S (list IndividualTree.t * list TreeCluster.t) :=
  match contours with
  | [] => ret acc
  | contour :: rest =>
      (acc' <- classify_contour detection_params height meters_per_pixel_x
                 meters_per_pixel_y min_area_pixels cluster_area_m2 acc contour ;;
       for_contours detection_params height meters_per_pixel_x meters_per_pixel_y
         min_area_pixels cluster_area_m2 rest acc')%py
  end.

(** [meters_per_pixel_x, meters_per_pixel_y]: the first two statements after
    reading the shape. *)
Definition meters_per_pixel (real_dimensions : RealDimensions) (width height : Z)
    : result (float * float) :=
  (mx <~ Py.truediv (real_width real_dimensions) (Py.float_of_int width) ;;
   my <~ Py.truediv (real_height real_dimensions) (Py.float_of_int height) ;;
   Ok (mx, my))%py.

(** [math.pi * ((d / 2) ** 2)] *)
Definition circle_area (diameter : float) : result float :=
  (sq <~ Py.pow2 (PrimFloat.div diameter 2%float) ;;
   Ok (PrimFloat.mul math.pi sq))%py.

(** [min_area_pixels = min_area_m2 / (meters_per_pixel_x * meters_per_pixel_y)] *)
Definition min_area_pixels (detection_params : DetectionParams)
    (meters_per_pixel_x meters_per_pixel_y : float) : result float :=
  (min_area_m2 <~ circle_area (min_diameter detection_params) ;;
   Py.truediv min_area_m2 (PrimFloat.mul meters_per_pixel_x meters_per_pixel_y))%py.

Definition lower_bound (t : HsvThresholds) : Pixel :=
  (r_min (hue t), r_min (saturation t), r_min (value t)).

Definition upper_bound (t : HsvThresholds) : Pixel :=
  (r_max (hue t), r_max (saturation t), r_max (value t)).

(** [np.array([a, b, c])] of three Python ints is an int64 array when each
    of them fits. *)
Definition fits_int64 (n : Z) : bool := (- 2 ^ 63 <=? n) && (n <? 2 ^ 63).

Definition int64_array (b : Pixel) : bool :=
  let '(b0, b1, b2) := b in fits_int64 b0 && fits_int64 b1 && fits_int64 b2.

(** The lines from [hsv = cv2.cvtColor(...)] to [mask = cv2.inRange(...)]. *)
Definition hsv_mask (img : Image) (hsv_thresholds : HsvThresholds) : result Mask :=
  let hsv := cvtColor img in
  let lower_bound := lower_bound hsv_thresholds in
  let upper_bound := upper_bound hsv_thresholds in
  if int64_array lower_bound && int64_array upper_bound
  then Ok (cv2.inRange hsv lower_bound upper_bound)
  else inRange_wide hsv lower_bound upper_bound.

Definition sum_populated (tree_clusters : list TreeCluster.t) : Z :=
  fold_right (fun c n => Z.of_nat (length (TreeCluster.populatedTrees c)) + n)
             0 tree_clusters.

Definition detect_trees_in_image (img : Image) (hsv_thresholds : HsvThresholds)
    (detection_params : DetectionParams) (real_dimensions : RealDimensions)
    : M S DetectionResult :=
  let '(height, width) := shape img in
  (mpp <- lift (meters_per_pixel real_dimensions width height) ;;
   let '(meters_per_pixel_x, meters_per_pixel_y) := mpp in
   mask <- lift (hsv_mask img hsv_thresholds) ;;
   let contours := findContours mask in
   min_area_pixels <-
     lift (min_area_pixels detection_params meters_per_pixel_x meters_per_pixel_y) ;;
   cluster_area_m2 <- lift (circle_area (cluster_threshold detection_params)) ;;
   lists <- for_contours detection_params height meters_per_pixel_x
              meters_per_pixel_y min_area_pixels cluster_area_m2 contours ([], []) ;;
   let '(individual_trees, tree_clusters) := lists in
   ret {| metadata :=
            {| imageDimensionsPx := (width, height);
               realDimensionsM := real_dimensions;
               metersPerPixel := (meters_per_pixel_x, meters_per_pixel_y);
               hsvRange := (lower_bound hsv_thresholds, upper_bound hsv_thresholds);
               detectionParameters := detection_params |};
          summary :=
            {| individualTreesCount := Z.of_nat (length individual_trees);
               treeClustersCount := Z.of_nat (length tree_clusters);
               totalPopulatedTrees := sum_populated tree_clusters |};
          individualTrees := individual_trees;
          treeClusters := tree_clusters |})%py.

End Detector.

(* ================================================================== *)
(** ** main.py: the [/detect-trees] endpoint *)

(** What the endpoint hands back: the JSON body of a 200 response, or the
    status code of the [HTTPException] it raises. *)
Inductive Response : Type :=
| JSONResponse (content : DetectionResult)
| HTTPException (status_code : Z).

Definition finite_point (p : float * float) : bool :=
  Py.is_finite (fst p) && Py.is_finite (snd p).

Definition finite_populated (t : PopulatedTree.t) : bool :=
  finite_point (PopulatedTree.positionM t)
  && Py.is_finite (PopulatedTree.estimatedDiameterM t).

Definition finite_individual (t : IndividualTree.t) : bool :=
  finite_point (IndividualTree.centroidM t)
  && Py.is_finite (IndividualTree.areaM2 t)
  && Py.is_finite (IndividualTree.estimatedDiameterM t)
  && forallb finite_point (IndividualTree.polygonM t).

Definition finite_cluster (c : TreeCluster.t) : bool :=
  Py.is_finite (TreeCluster.areaM2 c)
  && finite_point (TreeCluster.centroidM c)
  && forallb finite_point (TreeCluster.polygonM c)
  && forallb finite_populated (TreeCluster.populatedTrees c).

(** [JSONResponse] renders its content with [allow_nan=False]: a NaN or an
    infinity anywhere in the result is a [ValueError]. *)
Definition json_compliant (r : DetectionResult) : bool :=
  let m := metadata r in
  Py.is_finite (real_width (realDimensionsM m))
  && Py.is_finite (real_height (realDimensionsM m))
  && finite_point (metersPerPixel m)
  && Py.is_finite (min_diameter (detectionParameters m))
  && Py.is_finite (max_diameter (detectionParameters m))
  && Py.is_finite (cluster_threshold (detectionParameters m))
  && forallb finite_individual (individualTrees r)
  && forallb finite_cluster (treeClusters r).

Section Endpoint.

Context {S : Type} {RK : RandomKit S} {ops : ImageOps} {libm : LibM}.

(** [detect_trees], from the line after [img = cv2.imdecode(...)]: [img] is
    [None] when the buffer does not decode.  The [try] turns every exception
    of the detection into a 500 and lets the 400 through. *)
Definition detect_trees (img : option Image)
    (hue_min hue_max sat_min sat_max val_min val_max : Z)
    (min_diameter max_diameter cluster_threshold real_width real_height : float)
    : S -> Response * S :=
  fun s =>
    match img with
    | None => (HTTPException 400, s)
    | Some img =>
        let hsv_thresholds :=
          {| hue := {| r_min := hue_min; r_max := hue_max |};
             saturation := {| r_min := sat_min; r_max := sat_max |};
             value := {| r_min := val_min; r_max := val_max |} |} in
        let detection_params :=
          {| min_diameter := min_diameter;
             max_diameter := max_diameter;
             cluster_threshold := cluster_threshold |} in
        let real_dimensions :=
          {| real_width := real_width; real_height := real_height |} in
        match detect_trees_in_image img hsv_thresholds detection_params
                real_dimensions s with
        | (Ok result, s') =>
            if json_compliant result then (JSONResponse result, s')
            else (HTTPException 500, s')
        | (Raise _, s') => (HTTPException 500, s')
        end
    end.

End Endpoint.

(* ================================================================== *)
(** ** main.py: the [/generate-model] endpoint *)

(** A parsed JSON value, as the request body arrives. *)
Inductive json : Type :=
| JNull
| JBool (b : bool)
| JInt (n : Z)
| JFloat (x : float)
| JString (s : String.string)
| JArray (items : list json)
| JObject (members : list (String.string * json)).

(** A [Dict[str, Any]]: the members of a JSON object, each key once. *)
Definition Dict : Type := list (String.string * json).

(** Python's truth value of a parsed JSON value. *)
Definition truthy (v : json) : bool :=
  match v with
  | JNull => false
  | JBool b => b
  | JInt n => negb (n =? 0)
  | JFloat x => negb (PrimFloat.eqb x 0%float)
  | JString s => negb (String.eqb s String.EmptyString)
  | JArray items => match items with [] => false | _ :: _ => true end
  | JObject members => match members with [] => false | _ :: _ => true end
  end.

(** [d.get(key)]: [None] for a missing key. *)
Fixpoint dict_get (d : Dict) (key : String.string) : option json :=
  match d with
  | [] => None
  | (k, v) :: rest => if String.eqb k key then Some v else dict_get rest key
  end.

(** The truth value of [d.get(key)]; a missing key gives [None], which is
    false. *)
Definition get_truthy (d : Dict) (key : String.string) : bool :=
  match dict_get d key with
  | Some v => truthy v
  | None => false
  end.

(** The exceptions the three [except] clauses of [generate_model] tell apart. *)
Inductive py_exception : Type :=
| HTTPError (status_code : Z)
| FileNotFoundError
| OtherException.

Inductive outcome (A : Type) : Type :=
| Returned (a : A)
| Raised (e : py_exception).

Arguments Returned {A} a.
Arguments Raised {A} e.

(** A step that reads and changes the world [W] (files, clock) and may raise. *)
Definition IO (W A : Type) : Type := W -> outcome A * W.

Definition io_ret {W A} (a : A) : IO W A := fun w => (Returned a, w).

Definition io_raise {W A} (e : py_exception) : IO W A := fun w => (Raised e, w).

Definition io_bind {W A B} (c : IO W A) (k : A -> IO W B) : IO W B :=
  fun w =>
    match c w with
    | (Returned a, w') => k a w'
    | (Raised e, w') => (Raised e, w')
    end.

Definition io_read {W A} (f : W -> A) : IO W A := fun w => (Returned (f w), w).

Notation "x <-- c ;; k" := (io_bind c (fun x => k))
  (at level 61, c at next level, right associativity) : py_scope.

(** What [generate_model_metadata] returns, by the three keys the endpoint
    reads. *)
Record ModelMetadata : Type := {
  totalTrees : Z;
  totalVertices : Z;
  totalFaces : Z
}.

(** The collaborators of the endpoint: the two functions of
    [model_generator_core], which is not part of this development, and the
    operating-system calls. *)
Class Backend (W : Type) : Type := {
  generate_model_metadata : Dict -> IO W ModelMetadata;
  (** returns [(obj_content, mtl_content)] *)
  generate_obj_content : Dict -> IO W (String.string * String.string);
  (** [os.path.expanduser("~")] *)
  expanduser_home : W -> String.string;
  (** [os.path.join] *)
  path_join : String.string -> String.string -> String.string;
  (** [os.makedirs(path, exist_ok=True)] *)
  makedirs : String.string -> IO W unit;
  (** [datetime.now().strftime("%Y%m%d_%H%M%S")] *)
  now_strftime : W -> String.string;
  (** [with open(path, 'w') as f: f.write(content)] *)
  write_text : String.string -> String.string -> IO W unit;
  (** [os.path.getsize] *)
  getsize : String.string -> IO W Z;
  (** [os.path.abspath] *)
  abspath : W -> String.string -> String.string
}.

(** [str(n)] for an [int]. *)
Definition str (n : Z) : String.string :=
  DecimalString.NilZero.string_of_int (Z.to_int n).

(** The integer nearest to [10 * m * 2^e], ties to even. *)
Definition tenths (m : positive) (e : Z) : Z :=
  match e with
  | Zneg p => Py.div_half_even (10 * Zpos m) (2 ^ Zpos p)
  | _ => 10 * Zpos m * 2 ^ e
  end.

(** [f"{x:.1f}"] *)
Definition format_1f (x : float) : String.string :=
  match Prim2SF x with
  | S754_zero s => if s then "-0.0"%string else "0.0"%string
  | S754_infinity s => if s then "-inf"%string else "inf"%string
  | S754_nan => "nan"%string
  | S754_finite s m e =>
      let n := tenths m e in
      String.concat String.EmptyString
        [if s then "-"%string else String.EmptyString;
         str (n / 10); "."%string; str (n mod 10)]
  end.

(** The dictionary returned for a model saved to the Downloads folder. *)
Record SavedModel : Type := {
  filepath : String.string;
  filename : String.string;
  filesize_mb : float;
  total_trees : Z;
  message : String.string
}.

(** The [Response] that carries a model inline. *)
Record ObjDownload : Type := {
  content : String.string;
  media_type : String.string;
  content_disposition : String.string
}.

Inductive ModelReply : Type :=
| Inline (download : ObjDownload)
| Saved (saved : SavedModel).

Inductive ModelResponse : Type :=
| ModelOK (reply : ModelReply)
| ModelHTTPException (status_code : Z).

Section ModelEndpoint.

Context {W : Type} {backend : Backend W}.

Local Open Scope string_scope.

(** The body of the [try] of [generate_model]. *)
Definition generate_model_try (detection_data : Dict) : IO W ModelReply :=
  if negb (get_truthy detection_data "individualTrees")
     && negb (get_truthy detection_data "treeClusters")
  then io_raise (HTTPError 400)
  else
    (metadata <-- generate_model_metadata detection_data ;;
     let total_trees := totalTrees metadata in
     if 60000 <? total_trees then io_raise (HTTPError 400)
     else if 20000 <? total_trees then
       contents <-- generate_obj_content detection_data ;;
       let obj_content := fst contents in
       home <-- io_read expanduser_home ;;
       let downloads_dir := path_join home "Downloads" in
       _ <-- makedirs downloads_dir ;;
       timestamp <-- io_read now_strftime ;;
       let obj_filename :=
         String.concat "" ["trees_model_"; str total_trees; "trees_"; timestamp; ".obj"] in
       let obj_filepath := path_join downloads_dir obj_filename in
       _ <-- write_text obj_filepath obj_content ;;
       size <-- getsize obj_filepath ;;
       let file_size_mb := PrimFloat.div (Py.float_of_int size) (Py.float_of_int (1024 * 1024)) in
       absolute <-- io_read (fun w => abspath w obj_filepath) ;;
       io_ret (Saved {| filepath := absolute;
                        filename := obj_filename;
                        filesize_mb := Py.round2 file_size_mb;
                        total_trees := total_trees;
                        message :=
                          String.concat ""
                            ["Model saved to Downloads folder (";
                             format_1f file_size_mb; "MB)"] |})
     else
       contents <-- generate_obj_content detection_data ;;
       let obj_content := fst contents in
       io_ret (Inline {| content := obj_content;
                         media_type := "model/obj";
                         content_disposition :=
                           "attachment; filename=trees_model.obj" |}))%py.

(** The three [except] clauses: an [HTTPException] passes, a
    [FileNotFoundError] becomes 404, anything else 500. *)
Definition generate_model (detection_data : Dict) : W -> ModelResponse * W :=
  fun w =>
    match generate_model_try detection_data w with
    | (Returned reply, w') => (ModelOK reply, w')
    | (Raised (HTTPError status_code), w') => (ModelHTTPException status_code, w')
    | (Raised FileNotFoundError, w') => (ModelHTTPException 404, w')
    | (Raised OtherException, w') => (ModelHTTPException 500, w')
    end.

End ModelEndpoint.

(** *** The detection result as the JSON the front end posts back *)

Section DetectionJson.

Local Open Scope string_scope.

Definition json_point (p : Point) : json := JArray [JInt (fst p); JInt (snd p)].

Definition json_metric (p : float * float) : json :=
  JArray [JFloat (fst p); JFloat (snd p)].

Definition json_populated (t : PopulatedTree.t) : json :=
  JObject [("positionPx", json_point (PopulatedTree.positionPx t));
           ("positionM", json_metric (PopulatedTree.positionM t));
           ("estimatedDiameterM", JFloat (PopulatedTree.estimatedDiameterM t))].

Definition json_cluster (c : TreeCluster.t) : json :=
  JObject [("type", JString "cluster");
           ("areaM2", JFloat (TreeCluster.areaM2 c));
           ("centroidPx", json_point (TreeCluster.centroidPx c));
           ("centroidM", json_metric (TreeCluster.centroidM c));
           ("polygonPx", JArray (map json_point (TreeCluster.polygonPx c)));
           ("polygonM", JArray (map json_metric (TreeCluster.polygonM c)));
           ("populatedTrees",
            JArray (map json_populated (TreeCluster.populatedTrees c)))].

Definition json_individual (t : IndividualTree.t) : json :=
  JObject [("type", JString "individual");
           ("centroidPx", json_point (IndividualTree.centroidPx t));
           ("centroidM", json_metric (IndividualTree.centroidM t));
           ("areaM2", JFloat (IndividualTree.areaM2 t));
           ("estimatedDiameterM", JFloat (IndividualTree.estimatedDiameterM t));
           ("polygonPx", JArray (map json_point (IndividualTree.polygonPx t)));
           ("polygonM", JArray (map json_metric (IndividualTree.polygonM t)))].

Definition json_pixel (p : Pixel) : json :=
  let '(a, b, c) := p in JArray [JInt a; JInt b; JInt c].

Definition json_metadata (timestamp : String.string) (m : Metadata) : json :=
  JObject [("timestamp", JString timestamp);
           ("imageDimensionsPx",
            JObject [("width", JInt (fst (imageDimensionsPx m)));
                     ("height", JInt (snd (imageDimensionsPx m)))]);
           ("realDimensionsM",
            JObject [("width", JFloat (real_width (realDimensionsM m)));
                     ("height", JFloat (real_height (realDimensionsM m)))]);
           ("metersPerPixel",
            JObject [("x", JFloat (fst (metersPerPixel m)));
                     ("y", JFloat (snd (metersPerPixel m)))]);
           ("hsvRange",
            JObject [("lower", json_pixel (fst (hsvRange m)));
                     ("upper", json_pixel (snd (hsvRange m)))]);
           ("detectionParameters",
            JObject [("min_diameter",
                      JFloat (min_diameter (detectionParameters m)));
                     ("max_diameter",
                      JFloat (max_diameter (detectionParameters m)));
                     ("cluster_threshold",
                      JFloat (cluster_threshold (detectionParameters m)))])].

(** The dictionary [detect_trees_in_image] returns, as the body of the
    [/detect-trees] response; [timestamp] is the string the metadata carries. *)
Definition detection_json (timestamp : String.string) (r : DetectionResult) : Dict :=
  [("metadata", json_metadata timestamp (metadata r));
   ("summary",
    JObject [("individualTreesCount", JInt (individualTreesCount (summary r)));
             ("treeClustersCount", JInt (treeClustersCount (summary r)));
             ("totalPopulatedTrees", JInt (totalPopulatedTrees (summary r)))]);
   ("individualTrees", JArray (map json_individual (individualTrees r)));
   ("treeClusters", JArray (map json_cluster (treeClusters r)))].

End DetectionJson.

(* ================================================================== *)
(** ** Reference implementations of the assumed primitives

    Used to run the detector on concrete images. *)

Module reference.

(** OpenCV's 8-bit BGR to HSV conversion (hue range 180): fixed point with
    12 fractional bits and the two division tables. *)
Definition hsv_shift : Z := 12.

Definition sdiv_table (v : Z) : Z :=
  if v =? 0 then 0 else Py.div_half_even (255 * 2 ^ hsv_shift) v.

Definition hdiv_table180 (diff : Z) : Z :=
  if diff =? 0 then 0 else Py.div_half_even (180 * 2 ^ hsv_shift) (6 * diff).

Definition bgr2hsv (p : Pixel) : Pixel :=
  let '(b, g, r) := p in
  let v := Z.max (Z.max b g) r in
  let vmin := Z.min (Z.min b g) r in
  let diff := v - vmin in
  let s := Z.shiftr (diff * sdiv_table v + 2 ^ (hsv_shift - 1)) hsv_shift in
  let h :=
    if v =? r then g - b
    else if v =? g then b - r + 2 * diff
    else r - g + 4 * diff in
  let h := Z.shiftr (h * hdiv_table180 diff + 2 ^ (hsv_shift - 1)) hsv_shift in
  let h := if h <? 0 then h + 180 else h in
  (h, s, v).

(** Coordinates [(x, y)] of the set pixels of a mask, row by row. *)
Fixpoint row_points (y x : Z) (row : list Z) : list Point :=
  match row with
  | [] => []
  | m :: rest =>
      (if m =? 0 then [] else [(x, y)]) ++ row_points y (x + 1) rest
  end.

Fixpoint mask_points (y : Z) (mask : Mask) : list Point :=
  match mask with
  | [] => []
  | row :: rest => row_points y 0 row ++ mask_points (y + 1) rest
  end.

(** Border following restricted to masks whose foreground is empty or one
    solid axis-aligned block: the block's corners, from the top-left one
    and downwards first.  Other masks are outside its domain and get no
    contour. *)
Definition block_contours (mask : Mask) : list Contour :=
  match mask_points 0 mask with
  | [] => []
  | p :: rest =>
      let x0 := fold_left Z.min (map fst rest) (fst p) in
      let x1 := fold_left Z.max (map fst rest) (fst p) in
      let y0 := fold_left Z.min (map snd rest) (snd p) in
      let y1 := fold_left Z.max (map snd rest) (snd p) in
      if Z.of_nat (length (p :: rest)) =? (x1 - x0 + 1) * (y1 - y0 + 1) then
        if (x0 =? x1) && (y0 =? y1) then [[(x0, y0)]]
        else if x0 =? x1 then [[(x0, y0); (x0, y1)]]
        else if y0 =? y1 then [[(x0, y0); (x1, y0)]]
        else [[(x0, y0); (x0, y1); (x1, y1); (x1, y0)]]
      else []
  end.

(** A 64-bit linear congruential generator standing for the generator
    state; integers come from its high bits, floats from its top 53 bits. *)
Definition lcg_next (s : Z) : Z :=
  (6364136223846793005 * s + 1442695040888963407) mod 2 ^ 64.

Definition lcg_interval (max s : Z) : Z * Z :=
  if max <=? 0 then (0, s)
  else let s' := lcg_next s in ((s' / 2 ^ 33) mod (max + 1), s').

Definition lcg_double (s : Z) : float * Z :=
  let s' := lcg_next s in
  (PrimFloat.mul (Py.float_of_int (s' / 2 ^ 11)) 0x1p-53%float, s').

End reference.

#[export] Instance reference_ops : ImageOps := {|
  cvtColor := map (map reference.bgr2hsv);
  findContours := reference.block_contours;
  inRange_wide := fun _ _ _ => Raise cv2_error
|}.

(** A C library whose [pow(x, 2.0)] is the correctly rounded square.  On the
    bases of the sample inputs below (halves of the diameters 0.1 to 6) it
    returns what glibc 2.36 returns. *)
#[export] Instance rounded_square : LibM := {|
  pow_2 := fun x => PrimFloat.mul x x
|}.

(** The same library except at the base 3.0223985754337366, where it returns
    the double just below the rounded square, as glibc 2.36 does. *)
Definition lower_square : LibM := {|
  pow_2 := fun x =>
    if PrimFloat.eqb x 3.0223985754337366%float then 9.13489314878388%float
    else PrimFloat.mul x x
|}.

#[export] Instance lcg : RandomKit Z := {|
  rk_seed := fun n => n mod 2 ^ 64;
  rk_interval := reference.lcg_interval;
  rk_double := reference.lcg_double
|}.

(** The same generator with a counter of the draws made since seeding. *)
#[export] Instance counted_lcg : RandomKit (Z * Z) := {|
  rk_seed := fun n => (n mod 2 ^ 64, 0);
  rk_interval := fun max s =>
    let '(k, s') := reference.lcg_interval max (fst s) in (k, (s', snd s + 1));
  rk_double := fun s =>
    let '(u, s') := reference.lcg_double (fst s) in (u, (s', snd s + 1))
|}.

(** *** A backend of [/generate-model] in memory *)

(** The world of the reference backend: the files, by path, with the home
    directory and the clock reading. *)
Record Disk : Type := {
  disk_files : list (String.string * String.string);
  disk_home : String.string;
  disk_clock : String.string
}.

Module memory.

Local Open Scope string_scope.

Fixpoint read_file (fs : list (String.string * String.string)) (path : String.string)
    : option String.string :=
  match fs with
  | [] => None
  | (p, c) :: rest => if String.eqb p path then Some c else read_file rest path
  end.

Definition array_length (d : Dict) (key : String.string) : Z :=
  match dict_get d key with
  | Some (JArray items) => Z.of_nat (length items)
  | _ => 0
  end.

Definition populated_length (cluster : json) : Z :=
  match cluster with
  | JObject members => array_length members "populatedTrees"
  | _ => 0
  end.

(** One tree per individual tree and per populated tree. *)
Definition count_trees (d : Dict) : Z :=
  array_length d "individualTrees"
  + match dict_get d "treeClusters" with
    | Some (JArray clusters) => fold_right Z.add 0 (map populated_length clusters)
    | _ => 0
    end.

Definition template_path : String.string := "tree_model/Henkel_tree.obj".

Definition metadata_of (d : Dict) : IO Disk ModelMetadata :=
  fun w =>
    let n := count_trees d in
    (Returned {| totalTrees := n; totalVertices := 8 * n; totalFaces := 12 * n |}, w).

(** The model is the template followed by the number of instances; without
    the template file there is no model. *)
Definition obj_of (d : Dict) : IO Disk (String.string * String.string) :=
  fun w =>
    match read_file (disk_files w) template_path with
    | Some template =>
        (Returned (String.concat "" [template; " x"; str (count_trees d)],
                   "newmtl tree"), w)
    | None => (Raised FileNotFoundError, w)
    end.

Definition join (a b : String.string) : String.string :=
  String.concat "/" [a; b].

Definition mkdir (path : String.string) : IO Disk unit := fun w => (Returned tt, w).

Definition write_file (path content : String.string) : IO Disk unit :=
  fun w =>
    (Returned tt,
     {| disk_files := (path, content) :: disk_files w; disk_home := disk_home w; disk_clock := disk_clock w |}).

Definition size_of (path : String.string) : IO Disk Z :=
  fun w =>
    match read_file (disk_files w) path with
    | Some c => (Returned (Z.of_nat (String.length c)), w)
    | None => (Raised FileNotFoundError, w)
    end.

End memory.

#[export] Instance memory_backend : Backend Disk := {
  generate_model_metadata := memory.metadata_of;
  generate_obj_content := memory.obj_of;
  expanduser_home := disk_home;
  path_join := memory.join;
  makedirs := memory.mkdir;
  now_strftime := disk_clock;
  write_text := memory.write_file;
  getsize := memory.size_of;
  abspath := fun _ path => path
}.

(* ================================================================== *)
(** ** Vocabulary of the specification *)

(** The coordinate mapper as the specification words it:
    [toMeters(px, py) = (px * scaleX, (imageHeightPx - py) * scaleY)]. *)
Definition toMeters (imageHeightPx : Z) (scaleX scaleY : float) (p : Point)
    : float * float :=
  (PrimFloat.mul (Py.float_of_int (fst p)) scaleX,
   PrimFloat.mul (Py.float_of_int (imageHeightPx - snd p)) scaleY).

(** The element at row [y], column [x]. *)
Definition pixel_at {A} (img : list (list A)) (y x : nat) : option A :=
  match nth_error img y with
  | Some row => nth_error row x
  | None => None
  end.

Definition in_range (r : Range) (c : Z) : Prop := r_min r <= c <= r_max r.

(** The channel lies within the bounds as the binding narrows them. *)
Definition in_narrowed_range (r : Range) (c : Z) : Prop :=
  cv2.narrow_int32 (r_min r) <= c <= cv2.narrow_int32 (r_max r).

(** Both bounds fit numpy's int64. *)
Definition int64_range (r : Range) : Prop :=
  - 2 ^ 63 <= r_min r < 2 ^ 63 /\ - 2 ^ 63 <= r_max r < 2 ^ 63.

(** Both bounds are 32-bit integers. *)
Definition int32_range (r : Range) : Prop :=
  - 2 ^ 31 <= r_min r < 2 ^ 31 /\ - 2 ^ 31 <= r_max r < 2 ^ 31.

(** The candidate lies inside the polygon or on its boundary. *)
Definition inside (contour : Contour) (t : PopulatedTree.t) : Prop :=
  0 <= cv2.pointPolygonTest contour (PopulatedTree.positionPx t).

(** The test the sampler applies to a candidate [b] against an earlier tree
    [a]: their pixel distance is not below the spacing. *)
Definition not_closer (spacing : float) (a b : PopulatedTree.t) : Prop :=
  PrimFloat.ltb (pixel_distance (PopulatedTree.positionPx b) (PopulatedTree.positionPx a))
                spacing = false.

(** The same with the comparison the specification writes: distance >= spacing. *)
Definition at_least (spacing : float) (a b : PopulatedTree.t) : Prop :=
  PrimFloat.leb spacing
    (pixel_distance (PopulatedTree.positionPx b) (PopulatedTree.positionPx a)) = true.

(** Lists the sampling loop can hold: every tree was accepted against the
    trees before it. *)
Inductive placed (contour : Contour) (spacing : float) (height : Z)
    (mx my : float) : list PopulatedTree.t -> Prop :=
| placed_nil : placed contour spacing height mx my []
| placed_snoc l t :
    placed contour spacing height mx my l ->
    inside contour t ->
    too_close spacing (PopulatedTree.positionPx t) l = false ->
    PopulatedTree.positionM t
    = round_point (toMeters height mx my (PopulatedTree.positionPx t)) ->
    placed contour spacing height mx my (l ++ [t]).

(** The centroid the classifier reports for a contour: the truncated moment
    ratios. *)
Definition centroid_px (contour : Contour) : result Point :=
  let M := cv2.moments contour in
  (qx <~ Py.truediv (cv2.m10 M) (cv2.m00 M) ;;
   cx <~ Py.int qx ;;
   qy <~ Py.truediv (cv2.m01 M) (cv2.m00 M) ;;
   cy <~ Py.int qy ;;
   Ok (cx, cy))%py.

(** Two generators, in states related by [R], yield the same draws and stay
    related. *)
Definition draws_agree {S1 S2} (RK1 : RandomKit S1) (RK2 : RandomKit S2)
    (R : S1 -> S2 -> Prop) : Prop :=
  (forall max s1 s2, R s1 s2 ->
     fst (rk_interval max s1) = fst (rk_interval max s2)
     /\ R (snd (rk_interval max s1)) (snd (rk_interval max s2)))
  /\ (forall s1 s2, R s1 s2 ->
        fst (rk_double s1) = fst (rk_double s2)
        /\ R (snd (rk_double s1)) (snd (rk_double s2))).

(** Two computations return the same outcome from related states, and leave
    related states. *)
Definition agree {S1 S2 A} (R : S1 -> S2 -> Prop) (c1 : M S1 A) (c2 : M S2 A)
    : Prop :=
  forall s1 s2, R s1 s2 ->
    fst (c1 s1) = fst (c2 s2) /\ R (snd (c1 s1)) (snd (c2 s2)).

(** A number (not NaN) whose sign bit is [sx]. *)
Definition signed_as (sx : bool) (x : spec_float) : Prop :=
  match x with
  | S754_nan => False
  | S754_zero s | S754_infinity s | S754_finite s _ _ => s = sx
  end.

(** What the classifier established about a contour before reporting it, as
    an individual tree or as a cluster, with the fields it reported. *)
Record reported (contours : list Contour) (height : Z) (mx my min_area_px : float)
    (contour : Contour) (centroidPx : Point) (centroidM : float * float)
    (areaM2 : float) (polygonM : list (float * float)) : Prop := {
  rep_source : In contour contours;
  rep_not_noise : PrimFloat.ltb (cv2.contourArea contour) min_area_px = false;
  rep_centroidPx : centroid_px contour = Ok centroidPx;
  rep_centroidM : centroidM = round_point (toMeters height mx my centroidPx);
  rep_areaM2 : areaM2 = Py.round2 (region_area_m2 (cv2.contourArea contour) mx my);
  rep_polygonM : polygonM = map (fun p => round_point (toMeters height mx my p)) contour
}.

Definition cluster_from {S} {RK : RandomKit S} {libm : LibM}
    (contours : list Contour)
    (detection_params : DetectionParams) (height : Z)
    (mx my min_area_px cluster_area_m2 : float) (c : TreeCluster.t) : Prop :=
  let area_m2 := region_area_m2 (cv2.contourArea (TreeCluster.polygonPx c)) mx my in
  reported contours height mx my min_area_px (TreeCluster.polygonPx c)
    (TreeCluster.centroidPx c) (TreeCluster.centroidM c) (TreeCluster.areaM2 c)
    (TreeCluster.polygonM c)
  /\ PrimFloat.ltb cluster_area_m2 area_m2 = true
  /\ exists s s' : S,
       populate_cluster (TreeCluster.polygonPx c) area_m2 mx my
         (min_diameter detection_params) (max_diameter detection_params) height s
       = (Ok (TreeCluster.populatedTrees c), s').

Definition individual_from (contours : list Contour)
    (detection_params : DetectionParams) (height : Z)
    (mx my min_area_px cluster_area_m2 : float) (t : IndividualTree.t) : Prop :=
  let area_m2 := region_area_m2 (cv2.contourArea (IndividualTree.polygonPx t)) mx my in
  reported contours height mx my min_area_px (IndividualTree.polygonPx t)
    (IndividualTree.centroidPx t) (IndividualTree.centroidM t) (IndividualTree.areaM2 t)
    (IndividualTree.polygonM t)
  /\ PrimFloat.ltb cluster_area_m2 area_m2 = false
  /\ exists d,
       estimated_diameter area_m2 = Ok d
       /\ IndividualTree.estimatedDiameterM t = Py.round2 d
       /\ PrimFloat.leb (min_diameter detection_params) d = true
       /\ PrimFloat.leb d (max_diameter detection_params) = true.

(** *** Vocabulary of the further properties *)

(** [l] is [l'] with some elements left out, the others in their order. *)
Inductive subsequence {A : Type} : list A -> list A -> Prop :=
| subsequence_nil l : subsequence [] l
| subsequence_take a l l' : subsequence l l' -> subsequence (a :: l) (a :: l')
| subsequence_skip a l l' : subsequence l l' -> subsequence l (a :: l').

(** What the contour loop made of a contour. *)
Inductive fate : Type := Dropped | AsTree | AsCluster.

Definition fate_eqb (a b : fate) : bool :=
  match a, b with
  | Dropped, Dropped | AsTree, AsTree | AsCluster, AsCluster => true
  | _, _ => false
  end.

(** The contours with the fate [f], in their order. *)
Fixpoint selected (f : fate) (fates : list fate) (contours : list Contour)
    : list Contour :=
  match fates, contours with
  | f' :: fates', c :: contours' =>
      if fate_eqb f f' then c :: selected f fates' contours'
      else selected f fates' contours'
  | _, _ => []
  end.

(** The generator keeps its interval: a draw of [[0, max]] lies in it. *)
Definition interval_lawful {S} (RK : RandomKit S) : Prop :=
  forall max s, 0 <= max -> 0 <= fst (rk_interval max s) <= max.

(** The point lies in the bounding rectangle of the contour. *)
Definition in_bounding_rect (contour : Contour) (p : Point) : Prop :=
  let '(x, y, w, h) := cv2.boundingRect contour in
  x <= fst p < x + w /\ y <= snd p < y + h.

(** The key is missing, or holds [null] or an empty list. *)
Definition no_entries (d : Dict) (key : String.string) : Prop :=
  dict_get d key = None
  \/ dict_get d key = Some JNull
  \/ dict_get d key = Some (JArray []).

(** The step raises no [HTTPException] of its own. *)
Definition raises_no_HTTPException {W A} (c : IO W A) : Prop :=
  forall w e w', c w = (Raised e, w') ->
    match e with HTTPError _ => False | _ => True end.

Definition plain_backend {W} (backend : Backend W) : Prop :=
  (forall d, raises_no_HTTPException (generate_model_metadata d))
  /\ (forall d, raises_no_HTTPException (generate_obj_content d))
  /\ (forall path, raises_no_HTTPException (makedirs path))
  /\ (forall path text, raises_no_HTTPException (write_text path text))
  /\ (forall path, raises_no_HTTPException (getsize path)).

(* ================================================================== *)
(** ** Sample inputs *)

Definition green : Pixel := (0, 255, 0).

Definition solid (w h : nat) (p : Pixel) : Image := repeat (repeat p w) h.

Definition vegetation : HsvThresholds :=
  {| hue := {| r_min := 50; r_max := 70 |};
     saturation := {| r_min := 50; r_max := 255 |};
     value := {| r_min := 50; r_max := 255 |} |}.

(** The same thresholds with the hue minimum raised by [2^32]. *)
Definition wide_hue : HsvThresholds :=
  {| hue := {| r_min := 2 ^ 32 + 50; r_max := 70 |};
     saturation := {| r_min := 50; r_max := 255 |};
     value := {| r_min := 50; r_max := 255 |} |}.

(** A 3 x 3 all-green image of a 1 m x 1 m patch: one region, a cluster. *)
Definition patch : Image := solid 3 3 green.

Definition patch_params : DetectionParams :=
  {| min_diameter := 0.1; max_diameter := 0.3; cluster_threshold := 0.2 |}.

Definition patch_dims : RealDimensions := {| real_width := 1; real_height := 1 |}.

(** A 10 x 10 all-green image of a 10 m x 10 m lot with trees of 3 m to
    3.1 m: one cluster of 81 square metres that asks for 11 trees. *)
Definition lot : Image := solid 10 10 green.

Definition lot_params : DetectionParams :=
  {| min_diameter := 3; max_diameter := 3.1; cluster_threshold := 5 |}.

Definition lot_dims : RealDimensions := {| real_width := 10; real_height := 10 |}.

Definition lot_square : Contour := [(0, 0); (0, 9); (9, 9); (9, 0)].

(** A 40 x 40 all-green image of a 2 m x 2 m area, clusters from 2.2 m. *)
Definition yard : Image := solid 40 40 green.

Definition yard_params : DetectionParams :=
  {| min_diameter := 0.5; max_diameter := 1.5; cluster_threshold := 2.2 |}.

Definition yard_dims : RealDimensions := {| real_width := 2; real_height := 2 |}.

(** A 5 x 5 all-green image at 1 m per pixel: one region of 16 square
    metres, below the cluster threshold of 6 m. *)
Definition crown : Image := solid 5 5 green.

Definition crown_params : DetectionParams :=
  {| min_diameter := 4.512; max_diameter := 5; cluster_threshold := 6 |}.

Definition crown_dims : RealDimensions := {| real_width := 5; real_height := 5 |}.

(** The specification's scenario: a 100 x 100 uniformly green image of
    10 m x 10 m, trees of 1 m to 3 m, clusters from 5 m. *)
Definition meadow : Image := solid 100 100 green.

Definition meadow_params : DetectionParams :=
  {| min_diameter := 1; max_diameter := 3; cluster_threshold := 5 |}.

Definition meadow_dims : RealDimensions := {| real_width := 10; real_height := 10 |}.

(** An all-background image: black pixels, outside the vegetation range. *)
Definition asphalt : Image := solid 8 6 (0, 0, 0).

(** The generator state the sample runs start from. *)
Definition seeded : Z := rk_seed 42.

(** The populated lists of a run, cluster by cluster. *)
Definition populated_of {S} (run : result DetectionResult * S)
    : list (list PopulatedTree.t) :=
  match fst run with
  | Ok r => map TreeCluster.populatedTrees (treeClusters r)
  | Raise _ => []
  end.

(** Two requests for the same lot in one process: the second call finds the
    generator where the first left it. *)
Definition first_call : result DetectionResult * Z :=
  detect_trees_in_image lot vegetation lot_params lot_dims seeded.

Definition second_call : result DetectionResult * Z :=
  detect_trees_in_image lot vegetation lot_params lot_dims (snd first_call).

(** A disk with the tree template, and one without. *)
Definition installed : Disk :=
  {| disk_files := [(memory.template_path, "v 0 0 0"%string)];
     disk_home := "/home/user"%string;
     disk_clock := "20240101_120000"%string |}.

Definition bare : Disk :=
  {| disk_files := [];
     disk_home := "/home/user"%string;
     disk_clock := "20240101_120000"%string |}.

(** A detection of [n] individual trees, by the two keys the endpoint reads. *)
Definition forest (n : Z) : Dict :=
  [("individualTrees"%string, JArray (repeat JNull (Z.to_nat n)));
   ("treeClusters"%string, JArray [])].

(* ================================================================== *)
(** * Properties *)

(** ** Running computations *)

Lemma result_bind_Ok {A B} (r : result A) (k : A -> result B) (b : B) :
  result_bind r k = Ok b -> exists a, r = Ok a /\ k a = Ok b.
Proof.
  destruct r as [a|e]; simpl; intros Hk; [ eauto | discriminate ].
Qed.

Lemma bind_Ok {S A B} (c : M S A) (k : A -> M S B) (s s' : S) (b : B) :
  bind c k s = (Ok b, s') ->
  exists a s1, c s = (Ok a, s1) /\ k a s1 = (Ok b, s').
Proof.
  unfold bind. destruct (c s) as [[a|e] s1]; intros Hk.
  - exists a, s1. split; [ reflexivity | exact Hk ].
  - discriminate.
Qed.

Lemma lift_Ok {S A} (r : result A) (s s' : S) (a : A) :
  lift r s = (Ok a, s') -> r = Ok a /\ s' = s.
Proof. unfold lift. intros Hl. inversion Hl. auto. Qed.

Lemma ret_Ok {S A} (a b : A) (s s' : S) :
  ret a s = (Ok b, s') -> b = a /\ s' = s.
Proof. unfold ret. intros Hr. inversion Hr. auto. Qed.

(** Splits the hypotheses that say a sequence of steps returned. *)
Ltac run_ok :=
  repeat match goal with
  | H : bind _ _ _ = (Ok _, _) |- _ =>
      let a := fresh "a" in
      let s := fresh "s" in
      let Hc := fresh "Hstep" in
      let Hk := fresh "Hrest" in
      apply bind_Ok in H; destruct H as (a & s & Hc & Hk)
  | H : lift _ _ = (Ok _, _) |- _ =>
      let E := fresh "Hval" in
      apply lift_Ok in H; destruct H as [E ->]
  | H : ret _ _ = (Ok _, _) |- _ =>
      apply ret_Ok in H; destruct H as [-> ->]
  | H : result_bind _ _ = Ok _ |- _ =>
      let a := fresh "a" in
      let Hc := fresh "Hval" in
      apply result_bind_Ok in H; destruct H as (a & Hc & H)
  end.

(** Names the value and the state a first step returned. *)
Ltac bind_step H a s Ha :=
  apply bind_Ok in H; destruct H as (a & s & Ha & H).

Section GeneratorDraws.

Context {S : Type} {RK : RandomKit S}.



End GeneratorDraws.

(** ** The sampling loop *)

Section PopulateLoop.

Context {S : Type} {RK : RandomKit S}.
Variables (contour : Contour) (x y w h : Z).
Variables (mx my min_d max_d : float) (height count : Z) (spacing : float).

Local Abbreviation loop :=
  (populate_while contour x y w h mx my min_d max_d height count spacing).

(** Every list the loop returns was built by acceptances only. *)
Lemma populate_while_placed (remaining : nat) :
  forall attempts trees s trees' attempts' s',
    placed contour spacing height mx my trees ->
    loop remaining attempts trees s = (Ok (trees', attempts'), s') ->
    placed contour spacing height mx my trees'.
Proof.
  induction remaining as [|remaining IH]; intros attempts trees s trees' attempts' s' Hp Hrun.
  - simpl in Hrun. apply ret_Ok in Hrun. destruct Hrun as [Heq _].
    inversion Heq; subst. exact Hp.
  - simpl in Hrun.
    destruct (Z.of_nat (length trees) <? count).
    + bind_step Hrun test_x s1 Hx. bind_step Hrun test_y s2 Hy.
      destruct (Z.ltb_spec (cv2.pointPolygonTest contour (test_x, test_y)) 0)
        as [Hout|Hin]; [ eapply IH; eassumption | ].
      destruct (too_close spacing (test_x, test_y) trees) eqn:Hclose;
        [ eapply IH; eassumption | ].
      bind_step Hrun diameter_m s3 Hd.
      eapply IH; [ | exact Hrun ].
      apply placed_snoc; [ exact Hp | exact Hin | exact Hclose | reflexivity ].
    + apply ret_Ok in Hrun. destruct Hrun as [Heq _]. inversion Heq; subst. exact Hp.
Qed.

(** The list never grows past [count], and [attempts] advances by at most
    the attempts that remained. *)
Lemma populate_while_bounds (remaining : nat) :
  forall attempts trees s trees' attempts' s',
    loop remaining attempts trees s = (Ok (trees', attempts'), s') ->
    Z.of_nat (length trees') <= Z.max (Z.of_nat (length trees)) count
    /\ attempts <= attempts' <= attempts + Z.of_nat remaining.
Proof.
  induction remaining as [|remaining IH]; intros attempts trees s trees' attempts' s' Hrun.
  - simpl in Hrun. apply ret_Ok in Hrun. destruct Hrun as [Heq _].
    inversion Heq; subst. lia.
  - simpl in Hrun.
    destruct (Z.ltb_spec (Z.of_nat (length trees)) count) as [Hlt|Hge].
    + bind_step Hrun test_x s1 Hx. bind_step Hrun test_y s2 Hy.
      destruct (cv2.pointPolygonTest contour (test_x, test_y) <? 0);
        [ apply IH in Hrun; lia | ].
      destruct (too_close spacing (test_x, test_y) trees);
        [ apply IH in Hrun; lia | ].
      bind_step Hrun diameter_m s3 Hd.
      apply IH in Hrun. rewrite length_app in Hrun. simpl in Hrun. lia.
    + apply ret_Ok in Hrun. destruct Hrun as [Heq _]. inversion Heq; subst. lia.
Qed.


End PopulateLoop.

(** ** Binary64 facts

    Read off the specification of the primitive operations: conversions of
    non-negative integers, their square roots and their halves are numbers,
    and on numbers "not below" is "at least". *)

Lemma shr_1_nonneg mrs : 0 <= shr_m mrs -> 0 <= shr_m (shr_1 mrs).
Proof.
  destruct mrs as [m r s]. destruct m as [|p|p]; simpl; intros Hm;
    [ lia | destruct p; simpl; lia | lia ].
Qed.

Lemma iter_pos_invariant {A} (P : A -> Prop) (f : A -> A) :
  (forall a, P a -> P (f a)) -> forall p a, P a -> P (iter_pos f p a).
Proof.
  intros Hf. induction p as [p IH|p IH|]; simpl; intros a Ha; auto.
Qed.

Lemma shr_fexp_nonneg m e l :
  0 <= m -> 0 <= shr_m (fst (shr_fexp prec emax m e l)).
Proof.
  intros Hm. unfold shr_fexp, shr.
  assert (H0 : 0 <= shr_m (shr_record_of_loc m l)) by (destruct l as [|[]]; exact Hm).
  destruct (fexp prec emax (Zdigits2 m + e) - e) as [|p|p]; simpl; auto.
  apply iter_pos_invariant; [ exact shr_1_nonneg | exact H0 ].
Qed.

Lemma round_nearest_even_nonneg m l : 0 <= m -> 0 <= round_nearest_even m l.
Proof.
  intros Hm. destruct l as [|[]]; simpl; try lia. destruct (Z.even m); lia.
Qed.

Lemma binary_round_aux_signed sx mx ex lx :
  0 <= mx -> signed_as sx (binary_round_aux prec emax sx mx ex lx).
Proof.
  intros Hm. unfold binary_round_aux.
  pose proof (shr_fexp_nonneg mx ex lx Hm) as H1.
  destruct (shr_fexp prec emax mx ex lx) as [mrs' e']. simpl in H1.
  pose proof (shr_fexp_nonneg _ e' loc_Exact
                (round_nearest_even_nonneg _ (loc_of_shr_record mrs') H1)) as H2.
  destruct (shr_fexp prec emax _ e' loc_Exact) as [mrs'' e'']. simpl in H2.
  destruct (shr_m mrs'') as [|p|p]; [ reflexivity | | lia ].
  destruct (e'' <=? emax - prec); reflexivity.
Qed.

Lemma binary_round_signed sx mx ex : signed_as sx (binary_round prec emax sx mx ex).
Proof.
  unfold binary_round. destruct (shl_align mx ex _) as [mz ez].
  apply binary_round_aux_signed. lia.
Qed.

Lemma binary_normalize_signed n e :
  0 <= n -> signed_as false (binary_normalize prec emax n e false).
Proof.
  intros Hn. destruct n as [|p|p]; simpl;
    [ reflexivity | apply binary_round_signed | lia ].
Qed.

Lemma SF2Prim_signed x : signed_as false x -> signed_as false (Prim2SF (SF2Prim x)).
Proof.
  destruct x as [s|s| |s m e]; simpl; intros Hs; subst; try reflexivity; try contradiction.
  rewrite Z_ldexp_spec, of_uint63_spec.
  pose proof (binary_normalize_signed (Uint63.to_Z (Uint63.of_Z (Zpos m))) 0
                (proj1 (Uint63.to_Z_bounded _))) as Hn.
  destruct (binary_normalize prec emax _ 0 false) as [s|s| |s m' e']; simpl in *;
    try assumption.
  subst. apply binary_round_signed.
Qed.

Lemma float_of_int_signed n : 0 <= n -> signed_as false (Prim2SF (Py.float_of_int n)).
Proof.
  intros Hn. unfold Py.float_of_int. apply SF2Prim_signed, binary_normalize_signed, Hn.
Qed.

Lemma sqrt_signed x :
  signed_as false (Prim2SF x) -> signed_as false (Prim2SF (PrimFloat.sqrt x)).
Proof.
  rewrite FloatAxioms.sqrt_spec.
  destruct (Prim2SF x) as [s|s| |s m e]; simpl; intros Hs; subst;
    try reflexivity; try contradiction.
  unfold SF64sqrt, SFsqrt.
  destruct (SFsqrt_core_binary prec emax (Z.pos m) e) as [[mz ez] lz] eqn:Hcore.
  apply binary_round_aux_signed.
  unfold SFsqrt_core_binary in Hcore.
  set (m' := match e - 2 * _ with Z.pos _ => _ | Z0 => _ | Z.neg _ => _ end) in Hcore.
  assert (Hm' : 0 <= m').
  { subst m'. destruct (e - 2 * _); try lia. apply Z.shiftl_nonneg. lia. }
  pose proof (Z.sqrtrem_spec m' Hm') as Hspec.
  destruct (Z.sqrtrem m') as [q r]. inversion Hcore; subst. lia.
Qed.

Lemma signed_not_nan sx x : signed_as sx (Prim2SF x) -> Py.is_nan x = false.
Proof.
  unfold Py.is_nan. rewrite eqb_spec. unfold SFeqb.
  destruct (Prim2SF x) as [s|s| |s m e]; simpl; intros Hs; try contradiction; auto.
  - destruct s; reflexivity.
  - rewrite Z.compare_refl, Pos.compare_cont_refl. destruct s; reflexivity.
Qed.

(** A pixel distance is always a number. *)
Lemma pixel_distance_not_nan a b : Py.is_nan (pixel_distance a b) = false.
Proof.
  apply (signed_not_nan false). unfold pixel_distance.
  apply sqrt_signed, float_of_int_signed. nia.
Qed.


Lemma SFcompare_antisym a b :
  SFcompare b a = option_map CompOpp (SFcompare a b).
Proof.
  destruct a as [s1|s1| |s1 m1 e1], b as [s2|s2| |s2 m2 e2]; simpl;
    try destruct s1; try destruct s2; try reflexivity.
  all: f_equal; pose proof (Pos.compare_cont_antisym m1 m2 Eq) as Hm; simpl in Hm.
  all: rewrite (Z.compare_antisym e1 e2); destruct (e1 ?= e2); simpl;
    rewrite <- ?Hm; rewrite ?CompOpp_involutive; reflexivity.
Qed.

(** [a < b] excludes [b <= a]. *)
Lemma ltb_true_leb_false a b :
  PrimFloat.ltb a b = true -> PrimFloat.leb b a = false.
Proof.
  rewrite ltb_spec, leb_spec. unfold SFltb, SFleb.
  rewrite (SFcompare_antisym (Prim2SF a) (Prim2SF b)).
  destruct (SFcompare (Prim2SF a) (Prim2SF b)) as [[ | | ]|]; simpl;
    intros Hlt; try discriminate; reflexivity.
Qed.

(** On numbers, [not (a < b)] is [b <= a]. *)
Lemma not_ltb_leb a b :
  Py.is_nan a = false -> Py.is_nan b = false ->
  PrimFloat.ltb a b = false -> PrimFloat.leb b a = true.
Proof.
  unfold Py.is_nan. rewrite !eqb_spec, ltb_spec, leb_spec.
  unfold SFeqb, SFltb, SFleb. rewrite (SFcompare_antisym (Prim2SF a) (Prim2SF b)).
  intros Ha Hb Hlt.
  destruct (SFcompare (Prim2SF a) (Prim2SF b)) as [[ | | ]|] eqn:Hab; simpl;
    try reflexivity; try discriminate.
  destruct (Prim2SF a) as [s1|s1| |s1 m1 e1], (Prim2SF b) as [s2|s2| |s2 m2 e2];
    simpl in *; discriminate.
Qed.

(** A division that returned had a divisor other than zero. *)
Lemma truediv_Ok (a b q : float) :
  Py.truediv a b = Ok q -> PrimFloat.eqb b 0 = false /\ q = PrimFloat.div a b.
Proof.
  unfold Py.truediv. destruct (PrimFloat.eqb b 0); [ discriminate | ].
  intros Hq. inversion Hq. auto.
Qed.

(** ** The classification loop *)

Section Classification.

Context {S : Type} {RK : RandomKit S} {libm : LibM}.
Variables (contours : list Contour) (detection_params : DetectionParams).
Variables (height : Z) (mx my min_area_px cluster_area_m2 : float).

Local Abbreviation individual_ok :=
  (individual_from contours detection_params height mx my min_area_px cluster_area_m2).
Local Abbreviation cluster_ok :=
  (cluster_from (S := S) contours detection_params height mx my min_area_px
     cluster_area_m2).

(** One turn of the loop adds at most one region, and only a region with
    the recorded properties. *)
Lemma classify_contour_reports acc contour s acc' s' :
  In contour contours ->
  classify_contour detection_params height mx my min_area_px cluster_area_m2
    acc contour s = (Ok acc', s') ->
  Forall individual_ok (fst acc) -> Forall cluster_ok (snd acc) ->
  Forall individual_ok (fst acc') /\ Forall cluster_ok (snd acc').
Proof.
  intros Hin Hrun Hi Hc. destruct acc as [individual_trees tree_clusters].
  unfold classify_contour in Hrun. simpl in Hi, Hc.
  destruct (PrimFloat.ltb (cv2.contourArea contour) min_area_px) eqn:Hnoise.
  { apply ret_Ok in Hrun. destruct Hrun as [-> _]. auto. }
  destruct (PrimFloat.eqb (cv2.m00 (cv2.moments contour)) 0) eqn:Hmass.
  { apply ret_Ok in Hrun. destruct Hrun as [-> _]. auto. }
  bind_step Hrun qx s1 Hqx. apply lift_Ok in Hqx. destruct Hqx as [Hqx ->].
  bind_step Hrun cx_px s1 Hcx. apply lift_Ok in Hcx. destruct Hcx as [Hcx ->].
  bind_step Hrun qy s1 Hqy. apply lift_Ok in Hqy. destruct Hqy as [Hqy ->].
  bind_step Hrun cy_px s1 Hcy. apply lift_Ok in Hcy. destruct Hcy as [Hcy ->].
  assert (Hrep : forall areaM2 polygonM,
             areaM2 = Py.round2 (region_area_m2 (cv2.contourArea contour) mx my) ->
             polygonM = map (fun p => round_point (toMeters height mx my p)) contour ->
             reported contours height mx my min_area_px contour (cx_px, cy_px)
               (round_point (toMeters height mx my (cx_px, cy_px))) areaM2 polygonM).
  { intros areaM2 polygonM Ha Hp. constructor; auto.
    unfold centroid_px. rewrite Hqx. simpl. rewrite Hcx. simpl.
    rewrite Hqy. simpl. rewrite Hcy. reflexivity. }
  destruct (PrimFloat.ltb cluster_area_m2
              (region_area_m2 (cv2.contourArea contour) mx my)) eqn:Hbig.
  - bind_step Hrun populated_trees s1 Hpop.
    apply ret_Ok in Hrun. destruct Hrun as [-> _].
    simpl. split; [ exact Hi | ].
    apply Forall_app. split; [ exact Hc | ].
    constructor; [ | constructor ].
    unfold cluster_from. simpl. split; [ | split ].
    + apply Hrep; [ reflexivity | apply map_map ].
    + exact Hbig.
    + eauto.
  - bind_step Hrun diameter s1 Hd. apply lift_Ok in Hd. destruct Hd as [Hd ->].
    destruct (PrimFloat.leb (min_diameter detection_params) diameter
              && PrimFloat.leb diameter (max_diameter detection_params)) eqn:Hbounds;
      apply ret_Ok in Hrun; destruct Hrun as [-> _]; [ | auto ].
    apply andb_true_iff in Hbounds. destruct Hbounds as [Hmin Hmax].
    simpl. split; [ | exact Hc ].
    apply Forall_app. split; [ exact Hi | ].
    constructor; [ | constructor ].
    unfold individual_from. simpl. split; [ | split ].
    + apply Hrep; [ reflexivity | apply map_map ].
    + exact Hbig.
    + exists diameter. auto.
Qed.

Lemma for_contours_reports (todo : list Contour) :
  forall acc s acc' s',
    (forall c, In c todo -> In c contours) ->
    for_contours detection_params height mx my min_area_px cluster_area_m2
      todo acc s = (Ok acc', s') ->
    Forall individual_ok (fst acc) -> Forall cluster_ok (snd acc) ->
    Forall individual_ok (fst acc') /\ Forall cluster_ok (snd acc').
Proof.
  induction todo as [|contour rest IH]; intros acc s acc' s' Hsub Hrun Hi Hc.
  - simpl in Hrun. apply ret_Ok in Hrun. destruct Hrun as [-> _]. auto.
  - simpl in Hrun. bind_step Hrun acc1 s1 Hstep.
    destruct (classify_contour_reports acc contour s acc1 s1) as [Hi' Hc']; auto.
    { apply Hsub. left. reflexivity. }
    apply (IH acc1 s1 acc' s'); auto.
    intros c Hc0. apply Hsub. right. exact Hc0.
Qed.

End Classification.

(** The steps of a call that returned. *)
Lemma detect_trees_in_image_Ok {S : Type} {RK : RandomKit S}
    {ops : ImageOps} {libm : LibM}
    (img : Image) (hsv_thresholds : HsvThresholds)
    (detection_params : DetectionParams) (real_dimensions : RealDimensions)
    (s s' : S) (result : DetectionResult) :
  detect_trees_in_image img hsv_thresholds detection_params real_dimensions s
  = (Ok result, s') ->
  exists mx my mask min_area_px cluster_area_m2 individual_trees tree_clusters,
    meters_per_pixel real_dimensions (snd (shape img)) (fst (shape img)) = Ok (mx, my)
    /\ hsv_mask img hsv_thresholds = Ok mask
    /\ min_area_pixels detection_params mx my = Ok min_area_px
    /\ circle_area (cluster_threshold detection_params) = Ok cluster_area_m2
    /\ for_contours detection_params (fst (shape img)) mx my min_area_px
         cluster_area_m2 (findContours mask) ([], []) s
       = (Ok (individual_trees, tree_clusters), s')
    /\ result
       = {| metadata :=
              {| imageDimensionsPx := (snd (shape img), fst (shape img));
                 realDimensionsM := real_dimensions;
                 metersPerPixel := (mx, my);
                 hsvRange := (lower_bound hsv_thresholds, upper_bound hsv_thresholds);
                 detectionParameters := detection_params |};
            summary :=
              {| individualTreesCount := Z.of_nat (length individual_trees);
                 treeClustersCount := Z.of_nat (length tree_clusters);
                 totalPopulatedTrees := sum_populated tree_clusters |};
            individualTrees := individual_trees;
            treeClusters := tree_clusters |}.
Proof.
  unfold detect_trees_in_image. destruct (shape img) as [height width]. simpl.
  intros Hrun.
  bind_step Hrun mpp s1 Hmpp. destruct mpp as [mx my].
  apply lift_Ok in Hmpp. destruct Hmpp as [Hmpp ->].
  bind_step Hrun mask s1 Hmask. apply lift_Ok in Hmask. destruct Hmask as [Hmask ->].
  bind_step Hrun min_area_px s1 Hmin. apply lift_Ok in Hmin. destruct Hmin as [Hmin ->].
  bind_step Hrun cluster_area_m2 s1 Hcl. apply lift_Ok in Hcl. destruct Hcl as [Hcl ->].
  bind_step Hrun lists s1 Hloop. destruct lists as [individual_trees tree_clusters].
  apply ret_Ok in Hrun. destruct Hrun as [-> ->].
  exists mx, my, mask, min_area_px, cluster_area_m2, individual_trees, tree_clusters.
  repeat split; auto.
Qed.

(** What a returned detection result is made of. *)
Lemma detect_trees_in_image_reports {S : Type} {RK : RandomKit S}
    {ops : ImageOps} {libm : LibM}
    (img : Image) (hsv_thresholds : HsvThresholds)
    (detection_params : DetectionParams) (real_dimensions : RealDimensions)
    (s s' : S) (result : DetectionResult) :
  detect_trees_in_image img hsv_thresholds detection_params real_dimensions s
  = (Ok result, s') ->
  exists mx my mask min_area_px cluster_area_m2,
    meters_per_pixel real_dimensions (snd (shape img)) (fst (shape img)) = Ok (mx, my)
    /\ hsv_mask img hsv_thresholds = Ok mask
    /\ min_area_pixels detection_params mx my = Ok min_area_px
    /\ circle_area (cluster_threshold detection_params) = Ok cluster_area_m2
    /\ Forall (individual_from (findContours mask)
                 detection_params (fst (shape img)) mx my min_area_px cluster_area_m2)
              (individualTrees result)
    /\ Forall (cluster_from (S := S) (findContours mask)
                 detection_params (fst (shape img)) mx my min_area_px cluster_area_m2)
              (treeClusters result).
Proof.
  intros Hrun. apply detect_trees_in_image_Ok in Hrun.
  destruct Hrun as (mx & my & mask & min_area_px & cluster_area_m2 & individual_trees
                    & tree_clusters & Hmpp & Hmask & Hmin & Hcl & Hloop & ->).
  exists mx, my, mask, min_area_px, cluster_area_m2. simpl.
  apply for_contours_reports with (contours := findContours mask) in Hloop;
    simpl; auto.
Qed.

(** The summary counts are the lengths of the two lists. *)
Lemma detect_trees_in_image_summary {S : Type} {RK : RandomKit S}
    {ops : ImageOps} {libm : LibM}
    (img : Image) (hsv_thresholds : HsvThresholds)
    (detection_params : DetectionParams) (real_dimensions : RealDimensions)
    (s s' : S) (result : DetectionResult) :
  detect_trees_in_image img hsv_thresholds detection_params real_dimensions s
  = (Ok result, s') ->
  individualTreesCount (summary result) = Z.of_nat (length (individualTrees result))
  /\ treeClustersCount (summary result) = Z.of_nat (length (treeClusters result))
  /\ totalPopulatedTrees (summary result) = sum_populated (treeClusters result).
Proof.
  intros Hrun. apply detect_trees_in_image_Ok in Hrun.
  destruct Hrun as (mx & my & mask & min_area_px & cluster_area_m2 & individual_trees
                    & tree_clusters & _ & _ & _ & _ & _ & ->).
  simpl. auto.
Qed.

(** The metadata of a result echoes the dimensions and the parameters of the
    call, and carries the scale factors. *)
Lemma detect_trees_in_image_echo {S : Type} {RK : RandomKit S}
    {ops : ImageOps} {libm : LibM}
    (img : Image) (hsv_thresholds : HsvThresholds)
    (detection_params : DetectionParams) (real_dimensions : RealDimensions)
    (s s' : S) (result : DetectionResult) :
  detect_trees_in_image img hsv_thresholds detection_params real_dimensions s
  = (Ok result, s') ->
  realDimensionsM (metadata result) = real_dimensions
  /\ detectionParameters (metadata result) = detection_params.
Proof.
  intros Hrun. apply detect_trees_in_image_Ok in Hrun.
  destruct Hrun as (mx & my & mask & min_area_px & cluster_area_m2 & individual_trees
                    & tree_clusters & _ & _ & _ & _ & _ & ->).
  simpl. auto.
Qed.

(** ** The cluster populator *)




Lemma estimated_tree_count_positive {libm : LibM} (area_m2 min_d max_d : float)
    (count : Z) :
  estimated_tree_count area_m2 min_d max_d = Ok count -> 1 <= count.
Proof.
  unfold estimated_tree_count. intros Hc. run_ok. inversion Hc. lia.
Qed.

Lemma existsb_false_Forall {A} (f : A -> bool) (l : list A) :
  existsb f l = false -> Forall (fun a => f a = false) l.
Proof.
  induction l as [|a l IH]; simpl; intros He; constructor.
  - apply orb_false_iff in He. tauto.
  - apply IH. apply orb_false_iff in He. tauto.
Qed.

Lemma ForallOrdPairs_snoc {A} (R : A -> A -> Prop) (l : list A) (t : A) :
  ForallOrdPairs R l -> Forall (fun a => R a t) l -> ForallOrdPairs R (l ++ [t]).
Proof.
  induction 1 as [|a l Ha Hl IH]; simpl; intros Ht.
  - constructor; constructor.
  - inversion Ht; subst. constructor.
    + apply Forall_app. split; [ exact Ha | constructor; [ assumption | constructor ] ].
    + apply IH. assumption.
Qed.

Section Placed.

Variables (contour : Contour) (spacing : float) (height : Z) (mx my : float).

Lemma placed_inside trees :
  placed contour spacing height mx my trees -> Forall (inside contour) trees.
Proof.
  induction 1 as [|l t Hl IH Hin Hfar Hm]; [ constructor | ].
  apply Forall_app. split; [ exact IH | constructor; [ exact Hin | constructor ] ].
Qed.

Lemma placed_not_closer trees :
  placed contour spacing height mx my trees ->
  ForallOrdPairs (not_closer spacing) trees.
Proof.
  induction 1 as [|l t Hl IH Hin Hfar Hm]; [ constructor | ].
  apply ForallOrdPairs_snoc; [ exact IH | ].
  apply existsb_false_Forall in Hfar. exact Hfar.
Qed.

Lemma placed_positions trees :
  placed contour spacing height mx my trees ->
  Forall (fun t => PopulatedTree.positionM t
                   = round_point (toMeters height mx my (PopulatedTree.positionPx t)))
         trees.
Proof.
  induction 1 as [|l t Hl IH Hin Hfar Hm]; [ constructor | ].
  apply Forall_app. split; [ exact IH | constructor; [ exact Hm | constructor ] ].
Qed.

End Placed.

Lemma ForallOrdPairs_impl {A} (R Q : A -> A -> Prop) (l : list A) :
  (forall a b, R a b -> Q a b) -> ForallOrdPairs R l -> ForallOrdPairs Q l.
Proof.
  intros HRQ. induction 1 as [|a l Ha Hl IH]; constructor; [ | exact IH ].
  eapply Forall_impl; [ | exact Ha ]. intros b. apply HRQ.
Qed.

(** When the spacing is a number, the sampler's test is the specification's
    comparison. *)
Lemma not_closer_at_least (spacing : float) (a b : PopulatedTree.t) :
  Py.is_nan spacing = false -> not_closer spacing a b -> at_least spacing a b.
Proof.
  unfold not_closer, at_least. intros Hs Hlt.
  apply not_ltb_leb; [ apply pixel_distance_not_nan | exact Hs | exact Hlt ].
Qed.

Section Populate.

Context {S : Type} {RK : RandomKit S} {libm : LibM}.
Variables (contour : Contour) (area_m2 mx my min_d max_d : float) (height : Z).

(** A returned sampling: the count and the spacing were computed, the list
    was built by acceptances, and the loop respected both of its bounds. *)
Lemma populate_attempts_Ok (s s' : S) trees attempts :
  populate_attempts contour area_m2 mx my min_d max_d height s
  = (Ok (trees, attempts), s') ->
  exists count spacing,
    estimated_tree_count area_m2 min_d max_d = Ok count
    /\ min_spacing_px mx my min_d = Ok spacing
    /\ placed contour spacing height mx my trees
    /\ Z.of_nat (length trees) <= count
    /\ 0 <= attempts <= count * 10.
Proof.
  unfold populate_attempts.
  destruct (cv2.boundingRect contour) as [[[x y] w] h]. intros Hrun.
  apply bind_Ok in Hrun. destruct Hrun as (count & s1 & Hcount & Hrun).
  apply lift_Ok in Hcount. destruct Hcount as [Hcount ->].
  apply bind_Ok in Hrun. destruct Hrun as (spacing & s1 & Hsp & Hrun).
  apply lift_Ok in Hsp. destruct Hsp as [Hsp ->].
  exists count, spacing.
  pose proof (estimated_tree_count_positive _ _ _ _ Hcount) as Hpos.
  pose proof (populate_while_placed _ _ _ _ _ _ _ _ _ _ _ _ _ _ _ _ _ _ _
                (placed_nil _ _ _ _ _) Hrun) as Hplaced.
  apply populate_while_bounds in Hrun. simpl in Hrun.
  repeat split; auto; lia.
Qed.

Lemma populate_cluster_Ok (s s' : S) trees :
  populate_cluster contour area_m2 mx my min_d max_d height s = (Ok trees, s') ->
  exists attempts,
    populate_attempts contour area_m2 mx my min_d max_d height s
    = (Ok (trees, attempts), s').
Proof.
  unfold populate_cluster. intros Hrun.
  apply bind_Ok in Hrun. destruct Hrun as ([trees0 attempts] & s1 & Hrun & Hret).
  apply ret_Ok in Hret. destruct Hret as [-> ->]. exists attempts. exact Hrun.
Qed.


End Populate.

(** ** The generator is the only source of variation

    Apart from its draws the pipeline is a function of its arguments: run on
    two generators that yield the same draws, every step returns the same
    outcome. *)

Section SameDraws.

Context {S1 S2 : Type} {RK1 : RandomKit S1} {RK2 : RandomKit S2}.
Context {ops : ImageOps} {libm : LibM}.
Variable R : S1 -> S2 -> Prop.
Hypothesis Hdraws : draws_agree RK1 RK2 R.

Lemma agree_ret {A} (a : A) : agree R (ret a) (ret a).
Proof. intros s1 s2 HR. simpl. auto. Qed.

Lemma agree_lift {A} (r : result A) : agree R (lift r) (lift r).
Proof. intros s1 s2 HR. simpl. auto. Qed.

Lemma agree_bind {A B} (c1 : M S1 A) (c2 : M S2 A) (k1 : A -> M S1 B) (k2 : A -> M S2 B) :
  agree R c1 c2 -> (forall a, agree R (k1 a) (k2 a)) ->
  agree R (bind c1 k1) (bind c2 k2).
Proof.
  intros Hc Hk s1 s2 HR. unfold bind. specialize (Hc s1 s2 HR).
  destruct (c1 s1) as [[a1|e1] s1'], (c2 s2) as [[a2|e2] s2']; simpl in Hc;
    destruct Hc as [Heq HR']; inversion Heq; subst.
  - apply Hk. exact HR'.
  - simpl. auto.
Qed.

Lemma agree_randint low high :
  agree R (np_random.randint low high) (np_random.randint low high).
Proof.
  intros s1 s2 HR. unfold np_random.randint.
  destruct (low <? high); [ | simpl; auto ].
  destruct Hdraws as [Hint _]. specialize (Hint (high - 1 - low) s1 s2 HR).
  destruct (rk_interval (high - 1 - low) s1) as [k1 s1'].
  destruct (rk_interval (high - 1 - low) s2) as [k2 s2'].
  simpl in *. destruct Hint as [-> HR']. auto.
Qed.

Lemma agree_uniform low high :
  agree R (np_random.uniform low high) (np_random.uniform low high).
Proof.
  intros s1 s2 HR. unfold np_random.uniform.
  destruct (Py.is_finite (PrimFloat.sub high low)); [ | simpl; auto ].
  destruct Hdraws as [_ Hdbl]. specialize (Hdbl s1 s2 HR).
  destruct (rk_double s1) as [u1 s1'], (rk_double s2) as [u2 s2'].
  simpl in *. destruct Hdbl as [-> HR']. auto.
Qed.

Lemma agree_populate_while contour x y w h mx my min_d max_d height count spacing
    (remaining : nat) :
  forall attempts trees,
    agree R
      (populate_while contour x y w h mx my min_d max_d height count spacing
         remaining attempts trees)
      (populate_while contour x y w h mx my min_d max_d height count spacing
         remaining attempts trees).
Proof.
  induction remaining as [|remaining IH]; intros attempts trees; simpl.
  - apply agree_ret.
  - destruct (Z.of_nat (length trees) <? count); [ | apply agree_ret ].
    apply agree_bind; [ apply agree_randint | intros test_x ].
    apply agree_bind; [ apply agree_randint | intros test_y ].
    destruct (cv2.pointPolygonTest contour (test_x, test_y) <? 0); [ apply IH | ].
    destruct (too_close spacing (test_x, test_y) trees); [ apply IH | ].
    apply agree_bind; [ apply agree_uniform | intros diameter_m ]. apply IH.
Qed.

Lemma agree_populate_cluster contour area_m2 mx my min_d max_d height :
  agree R (populate_cluster contour area_m2 mx my min_d max_d height)
          (populate_cluster contour area_m2 mx my min_d max_d height).
Proof.
  unfold populate_cluster, populate_attempts.
  destruct (cv2.boundingRect contour) as [[[x y] w] h].
  apply agree_bind; [ | intros r; apply agree_ret ].
  apply agree_bind; [ apply agree_lift | intros count ].
  apply agree_bind; [ apply agree_lift | intros spacing ].
  apply agree_populate_while.
Qed.

Lemma agree_classify_contour detection_params height mx my min_area_px cluster_area_m2
    acc contour :
  agree R
    (classify_contour detection_params height mx my min_area_px cluster_area_m2 acc contour)
    (classify_contour detection_params height mx my min_area_px cluster_area_m2 acc contour).
Proof.
  unfold classify_contour. destruct acc as [individual_trees tree_clusters].
  destruct (PrimFloat.ltb (cv2.contourArea contour) min_area_px); [ apply agree_ret | ].
  destruct (PrimFloat.eqb (cv2.m00 (cv2.moments contour)) 0); [ apply agree_ret | ].
  apply agree_bind; [ apply agree_lift | intros qx ].
  apply agree_bind; [ apply agree_lift | intros cx_px ].
  apply agree_bind; [ apply agree_lift | intros qy ].
  apply agree_bind; [ apply agree_lift | intros cy_px ].
  destruct (PrimFloat.ltb cluster_area_m2 _).
  - apply agree_bind; [ apply agree_populate_cluster | intros populated_trees ].
    apply agree_ret.
  - apply agree_bind; [ apply agree_lift | intros diameter ].
    destruct (_ && _); apply agree_ret.
Qed.

Lemma agree_for_contours detection_params height mx my min_area_px cluster_area_m2
    (contours : list Contour) :
  forall acc,
    agree R
      (for_contours detection_params height mx my min_area_px cluster_area_m2 contours acc)
      (for_contours detection_params height mx my min_area_px cluster_area_m2 contours acc).
Proof.
  induction contours as [|contour rest IH]; intros acc; simpl.
  - apply agree_ret.
  - apply agree_bind; [ apply agree_classify_contour | intros acc1; apply IH ].
Qed.

Lemma agree_detect_trees_in_image img hsv_thresholds detection_params real_dimensions :
  agree R (detect_trees_in_image img hsv_thresholds detection_params real_dimensions)
          (detect_trees_in_image img hsv_thresholds detection_params real_dimensions).
Proof.
  unfold detect_trees_in_image. destruct (shape img) as [height width].
  apply agree_bind; [ apply agree_lift | intros [mx my] ].
  apply agree_bind; [ apply agree_lift | intros mask ].
  apply agree_bind; [ apply agree_lift | intros min_area_px ].
  apply agree_bind; [ apply agree_lift | intros cluster_area_m2 ].
  apply agree_bind; [ apply agree_for_contours | intros [individual_trees tree_clusters] ].
  apply agree_ret.
Qed.

End SameDraws.

(* ================================================================== *)
(** * The claims *)

(** ** C1: reproducibility *)

(** C1, as stated, fails: the sampler draws from the process-wide generator
    and no call takes a generator or a seed.  Two calls with identical image,
    thresholds, parameters and dimensions, made one after the other, populate
    the same cluster differently. *)
Lemma C1_successive_calls_differ :
  populated_of first_call <> populated_of second_call.
Proof.
  intros Heq.
  apply (f_equal (map (map PopulatedTree.positionPx))) in Heq.
  vm_compute in Heq. discriminate.
Qed.

(** The ten positions each of the two calls accepted. *)
Example first_call_positions :
  map (map PopulatedTree.positionPx) (populated_of first_call)
  = [[(4, 6); (6, 9); (4, 0); (9, 0); (9, 4); (2, 3); (2, 9); (5, 3); (0, 6); (9, 7)]].
Proof. vm_compute. reflexivity. Qed.

Example second_call_positions :
  map (map PopulatedTree.positionPx) (populated_of second_call)
  = [[(0, 6); (9, 7); (3, 2); (6, 4); (3, 5); (3, 9); (6, 1); (0, 3); (9, 1); (6, 8)]].
Proof. vm_compute. reflexivity. Qed.

(** Reseeding the ambient generator with the same seed before each call gives
    the same result and leaves the same state, whatever the state was. *)
Corollary reseeded_calls_agree :
  forall (S : Type) (RK : RandomKit S) (ops : ImageOps) (libm : LibM)
         (n : Z) (img : Image) (hsv_thresholds : HsvThresholds)
         (detection_params : DetectionParams) (real_dimensions : RealDimensions)
         (s1 s2 : S),
    bind (np_random.seed n)
         (fun _ => detect_trees_in_image img hsv_thresholds detection_params
                     real_dimensions) s1
    = bind (np_random.seed n)
           (fun _ => detect_trees_in_image img hsv_thresholds detection_params
                       real_dimensions) s2.
Proof.
  intros. unfold bind, np_random.seed. reflexivity.
Qed.

(** C1, amended: the generator is ambient, and it is the only thing besides
    the arguments that the result depends on.  Two calls with identical
    image, thresholds, parameters and dimensions whose generators yield the
    same draws return the same result, PopulatedTree lists included, and
    leave their generators in agreement; in particular two calls that start
    from the same generator state return the same result. *)
Theorem C1_same_draws_same_trees :
  forall (S1 S2 : Type) (RK1 : RandomKit S1) (RK2 : RandomKit S2)
         (ops : ImageOps) (libm : LibM)
         (R : S1 -> S2 -> Prop)
         (img : Image) (hsv_thresholds : HsvThresholds)
         (detection_params : DetectionParams) (real_dimensions : RealDimensions)
         (s1 : S1) (s2 : S2),
    draws_agree RK1 RK2 R ->
    R s1 s2 ->
    let run1 :=
      detect_trees_in_image (RK := RK1) img hsv_thresholds detection_params
        real_dimensions s1 in
    let run2 :=
      detect_trees_in_image (RK := RK2) img hsv_thresholds detection_params
        real_dimensions s2 in
    fst run1 = fst run2
    /\ populated_of run1 = populated_of run2
    /\ R (snd run1) (snd run2).
Proof.
  intros S1 S2 RK1 RK2 ops libm R img hsv_thresholds detection_params real_dimensions
         s1 s2 Hdraws HR run1 run2.
  destruct (agree_detect_trees_in_image R Hdraws img hsv_thresholds detection_params
              real_dimensions s1 s2 HR) as [Hsame Hstate].
  fold run1 in Hsame, Hstate. fold run2 in Hsame, Hstate.
  split; [ exact Hsame | ]. split; [ | exact Hstate ].
  unfold populated_of. rewrite Hsame. reflexivity.
Qed.

(** C1 on the 10 x 10 lot: the generator and its draw-counting variant,
    started on the same seed, populate the cluster identically. *)
Lemma C1_counted_witness :
  populated_of (detect_trees_in_image (RK := lcg) lot vegetation lot_params lot_dims
                  seeded)
  = populated_of (detect_trees_in_image (RK := counted_lcg) lot vegetation lot_params
                    lot_dims (seeded, 0)).
Proof.
  apply (C1_same_draws_same_trees Z (Z * Z) lcg counted_lcg reference_ops rounded_square
           (fun s1 s2 => s1 = fst s2)).
  - split.
    + intros max s1 [s2 k] HR. simpl in HR. subst s1. simpl.
      destruct (reference.lcg_interval max s2) as [v s']. simpl. auto.
    + intros s1 [s2 k] HR. simpl in HR. subst s1. simpl.
      destruct (reference.lcg_double s2) as [u s']. simpl. auto.
  - reflexivity.
Defined.

(** That call makes 110 attempts of two integer draws each and draws ten
    diameters. *)
Example first_call_draw_count :
  snd (snd (detect_trees_in_image (RK := counted_lcg) lot vegetation lot_params
              lot_dims (seeded, 0))) = 230.
Proof. vm_compute. reflexivity. Qed.

(** ** C2: input validation *)

(** C2, as stated, fails: diameter bounds are not checked.  With
    [min_diameter = 0.3 >= max_diameter = 0.1] the endpoint answers 200 with a
    populated cluster. *)
Lemma C2_inverted_bounds_are_accepted :
  exists content s',
    detect_trees (Some patch) 50 70 50 255 50 255 0.3 0.1 0.2 1 1 seeded
    = (JSONResponse content, s')
    /\ totalPopulatedTrees (summary content) = 9.
Proof.
  eexists. eexists. split; vm_compute; reflexivity.
Qed.

(** Nor are the real dimensions: a negative width and height give a 200 too. *)
Example negative_dimensions_are_accepted :
  exists content s',
    detect_trees (Some patch) 50 70 50 255 50 255 0.1 0.3 0.2 (-1) (-1) seeded
    = (JSONResponse content, s').
Proof.
  eexists. eexists. vm_compute. reflexivity.
Qed.

(** C2, amended: the two failures the code does provide.  A buffer that does
    not decode is answered 400 before the detection is called; an image with
    no row or no column makes the first scale-factor division raise
    [ZeroDivisionError], before the colour conversion, which the endpoint
    reports as 500.  Neither touches the generator nor depends on the
    segmentation primitives. *)
Theorem C2_decode_failure_and_zero_dimension :
  forall (S : Type) (RK : RandomKit S) (ops : ImageOps) (libm : LibM)
         (hue_min hue_max sat_min sat_max val_min val_max : Z)
         (min_diameter max_diameter cluster_threshold real_width real_height : float)
         (hsv_thresholds : HsvThresholds) (detection_params : DetectionParams)
         (real_dimensions : RealDimensions) (rows : Image) (s : S),
    detect_trees None hue_min hue_max sat_min sat_max val_min val_max
      min_diameter max_diameter cluster_threshold real_width real_height s
    = (HTTPException 400, s)
    /\ detect_trees_in_image [] hsv_thresholds detection_params real_dimensions s
       = (Raise ZeroDivisionError, s)
    /\ detect_trees_in_image ([] :: rows) hsv_thresholds detection_params
         real_dimensions s
       = (Raise ZeroDivisionError, s)
    /\ detect_trees (Some []) hue_min hue_max sat_min sat_max val_min val_max
         min_diameter max_diameter cluster_threshold real_width real_height s
       = (HTTPException 500, s)
    /\ detect_trees (Some ([] :: rows)) hue_min hue_max sat_min sat_max val_min val_max
         min_diameter max_diameter cluster_threshold real_width real_height s
       = (HTTPException 500, s).
Proof.
  intros. repeat split; reflexivity.
Qed.

(** ** C3: metric coordinates *)

Lemma meters_per_pixel_Ok (real_dimensions : RealDimensions) (width height : Z)
    (scaleX scaleY : float) :
  meters_per_pixel real_dimensions width height = Ok (scaleX, scaleY) ->
  scaleX = PrimFloat.div (real_width real_dimensions) (Py.float_of_int width)
  /\ scaleY = PrimFloat.div (real_height real_dimensions) (Py.float_of_int height).
Proof.
  unfold meters_per_pixel, Py.truediv. intros Hm. run_ok.
  repeat match goal with
  | Hv : (if ?c then _ else _) = Ok _ |- _ => destruct c; inversion Hv; clear Hv
  end.
  inversion Hm; subst. auto.
Qed.

(** C3, as stated, fails twice.  The reported metric points are rounded to
    two decimals: on the 3 x 3 patch of 1 m x 1 m the cluster centroid is
    pixel (1, 1) and its reported metric x is 0.33, not 1 * (1 / 3).  And row
    0 does not get the maximum metric Y when the real height is negative,
    which the code accepts: on the same patch with dimensions -1 m x -1 m the
    polygon vertex of row 0 is reported at Y = -1 and the vertex of row 2 at
    Y = -0.33. *)
Lemma C3_rounded_points_and_lowest_top_row :
  (exists result s',
     detect_trees_in_image patch vegetation patch_params patch_dims seeded
     = (Ok result, s')
     /\ exists c,
          In c (treeClusters result)
          /\ TreeCluster.centroidM c
             <> toMeters 3 (PrimFloat.div 1 (Py.float_of_int 3))
                           (PrimFloat.div 1 (Py.float_of_int 3))
                           (TreeCluster.centroidPx c))
  /\ (exists result s' c top bottom,
        detect_trees_in_image patch vegetation patch_params
          {| real_width := (-1)%float; real_height := (-1)%float |} seeded
        = (Ok result, s')
        /\ In c (treeClusters result)
        /\ In ((0, 0), top) (combine (TreeCluster.polygonPx c) (TreeCluster.polygonM c))
        /\ In ((0, 2), bottom)
             (combine (TreeCluster.polygonPx c) (TreeCluster.polygonM c))
        /\ PrimFloat.ltb (snd top) (snd bottom) = true).
Proof.
  split.
  - eexists. eexists. split; [ vm_compute; reflexivity | ].
    eexists. split; [ left; reflexivity | ].
    intros Heq.
    apply (f_equal (fun p => PrimFloat.eqb (fst p) 0.33%float)) in Heq.
    vm_compute in Heq. discriminate.
  - eexists. eexists. eexists. eexists. eexists.
    split; [ vm_compute; reflexivity | ].
    split; [ left; reflexivity | ].
    split; [ left; reflexivity | ].
    split; [ right; left; reflexivity | ].
    vm_compute. reflexivity.
Qed.

(** C3, amended: every reported metric point is [toMeters] of its pixel point
    with each coordinate rounded to two decimals, the scale factors being the
    real dimensions divided by the image dimensions; so a point of row 0 is
    reported with the metric Y [imageHeightPx * scaleY] rounded to two
    decimals. *)
Theorem C3_metric_points_are_rounded_toMeters :
  forall (S : Type) (RK : RandomKit S) (ops : ImageOps) (libm : LibM)
         (img : Image) (hsv_thresholds : HsvThresholds)
         (detection_params : DetectionParams) (real_dimensions : RealDimensions)
         (s s' : S) (result : DetectionResult),
    detect_trees_in_image img hsv_thresholds detection_params real_dimensions s
    = (Ok result, s') ->
    let imageHeightPx := fst (shape img) in
    let imageWidthPx := snd (shape img) in
    let scaleX :=
      PrimFloat.div (real_width real_dimensions) (Py.float_of_int imageWidthPx) in
    let scaleY :=
      PrimFloat.div (real_height real_dimensions) (Py.float_of_int imageHeightPx) in
    let metric := fun p => round_point (toMeters imageHeightPx scaleX scaleY p) in
    Forall (fun t =>
              IndividualTree.centroidM t = metric (IndividualTree.centroidPx t)
              /\ IndividualTree.polygonM t = map metric (IndividualTree.polygonPx t))
           (individualTrees result)
    /\ Forall (fun c =>
                 TreeCluster.centroidM c = metric (TreeCluster.centroidPx c)
                 /\ TreeCluster.polygonM c = map metric (TreeCluster.polygonPx c)
                 /\ Forall (fun t => PopulatedTree.positionM t
                                     = metric (PopulatedTree.positionPx t))
                           (TreeCluster.populatedTrees c))
              (treeClusters result)
    /\ forall x,
         snd (metric (x, 0))
         = Py.round2 (PrimFloat.mul (Py.float_of_int imageHeightPx) scaleY).
Proof.
  intros S RK ops libm img hsv_thresholds detection_params real_dimensions s s' result
         Hrun.
  apply detect_trees_in_image_reports in Hrun.
  destruct Hrun
    as (mx & my & mask & min_area_px & cluster_area_m2 & Hmpp & _ & _ & _ & Hi & Hc).
  apply meters_per_pixel_Ok in Hmpp. destruct Hmpp as [-> ->].
  cbv zeta. split; [ | split ].
  - eapply Forall_impl; [ | exact Hi ].
    intros t (Hrep & _). destruct Hrep. split; assumption.
  - eapply Forall_impl; [ | exact Hc ].
    intros c (Hrep & _ & s1 & s2 & Hpop). destruct Hrep.
    split; [ assumption | split; [ assumption | ] ].
    apply populate_cluster_Ok in Hpop. destruct Hpop as (attempts & Hpop).
    apply populate_attempts_Ok in Hpop.
    destruct Hpop as (count & spacing & _ & _ & Hplaced & _).
    apply placed_positions in Hplaced. exact Hplaced.
  - intros x. unfold round_point, toMeters. simpl. rewrite Z.sub_0_r. reflexivity.
Qed.

(** C3 at the 3 x 3 patch. *)
Lemma C3_patch_witness :
  exists result s',
    detect_trees_in_image patch vegetation patch_params patch_dims seeded
    = (Ok result, s')
    /\ Forall (fun c =>
                 TreeCluster.polygonM c
                 = map (fun p => round_point
                                   (toMeters 3 (PrimFloat.div 1 (Py.float_of_int 3))
                                      (PrimFloat.div 1 (Py.float_of_int 3)) p))
                       (TreeCluster.polygonPx c))
              (treeClusters result).
Proof.
  eexists. eexists. split; [ vm_compute; reflexivity | ].
  pose proof (C3_metric_points_are_rounded_toMeters Z lcg reference_ops rounded_square
                patch vegetation patch_params patch_dims seeded _ _
                ltac:(vm_compute; reflexivity))
    as (_ & Hc & _).
  eapply Forall_impl; [ | exact Hc ]. intros c (_ & Hp & _). exact Hp.
Defined.

(** ** C4: accepted positions *)

(** C4: a returned sampling used the spacing
    [min_diameter / ((scaleX + scaleY) / 2)]; every accepted position passed
    the point-in-polygon test with the boundary counted as inside; and for
    any two accepted trees the pixel distance is not below the spacing, which
    is "at least the spacing" as soon as the spacing is a number. *)
Theorem C4_accepted_positions_inside_and_spaced :
  forall (S : Type) (RK : RandomKit S) (libm : LibM)
         (contour : Contour) (area_m2 scaleX scaleY minDiameterM maxDiameterM : float)
         (height : Z) (s s' : S) (trees : list PopulatedTree.t),
    populate_cluster contour area_m2 scaleX scaleY minDiameterM maxDiameterM height s
    = (Ok trees, s') ->
    exists minSpacingPx,
      min_spacing_px scaleX scaleY minDiameterM = Ok minSpacingPx
      /\ minSpacingPx
         = PrimFloat.div minDiameterM
             (PrimFloat.div (PrimFloat.add scaleX scaleY) 2%float)
      /\ Forall (inside contour) trees
      /\ ForallOrdPairs (not_closer minSpacingPx) trees
      /\ (Py.is_nan minSpacingPx = false ->
          ForallOrdPairs (at_least minSpacingPx) trees).
Proof.
  intros S RK libm contour area_m2 scaleX scaleY minD maxD height s s' trees Hrun.
  apply populate_cluster_Ok in Hrun. destruct Hrun as (attempts & Hrun).
  apply populate_attempts_Ok in Hrun.
  destruct Hrun as (count & spacing & _ & Hsp & Hplaced & _).
  exists spacing. split; [ exact Hsp | ]. split.
  { unfold min_spacing_px, Py.truediv in Hsp.
    destruct (PrimFloat.eqb _ 0); inversion Hsp. reflexivity. }
  split; [ eapply placed_inside; eassumption | ].
  pose proof (placed_not_closer _ _ _ _ _ _ Hplaced) as Hfar.
  split; [ exact Hfar | ].
  intros Hnum. eapply ForallOrdPairs_impl; [ | exact Hfar ].
  intros a b. apply not_closer_at_least. exact Hnum.
Qed.

(** The polygon test on the lot's square: a vertex and an edge point count as
    inside (0), an interior point is inside (1), a point beyond the edge is
    outside (-1).  The accepted positions (9, 0) and (0, 6) of the first call
    lie on the boundary. *)
Example boundary_counts_as_inside :
  map (cv2.pointPolygonTest lot_square) [(9, 0); (0, 6); (4, 6); (10, 0)]
  = [0; 0; 1; -1].
Proof. reflexivity. Qed.

(** C4 on the 10 x 10 lot: the ten accepted trees are pairwise at least
    3 pixels apart. *)
Lemma C4_lot_witness :
  exists trees s',
    populate_cluster lot_square 81 1 1 3 3.1 10 seeded = (Ok trees, s')
    /\ length trees = 10%nat
    /\ Forall (inside lot_square) trees
    /\ ForallOrdPairs (at_least 3) trees.
Proof.
  eexists. eexists. split; [ vm_compute; reflexivity | ].
  split; [ reflexivity | ].
  pose proof (C4_accepted_positions_inside_and_spaced Z lcg rounded_square
                                                      lot_square 81 1 1 3 3.1 10
                seeded _ _ ltac:(vm_compute; reflexivity))
    as (spacing & Hsp & _ & Hin & _ & Hfar).
  vm_compute in Hsp. inversion Hsp; subst spacing.
  split; [ exact Hin | ]. apply Hfar. reflexivity.
Defined.

(** ** C5: the sampling loop is bounded *)



(** There the sampler stops at attempt exhaustion with 10 of the 11 trees,
    and returns normally. *)
Example lot_is_under_filled :
  exists trees s',
    populate_attempts lot_square 81 1 1 3 3.1 10 seeded = (Ok (trees, 110), s')
    /\ length trees = 10%nat
    /\ estimated_tree_count 81 3 3.1 = Ok 11.
Proof.
  eexists. eexists. split; [ vm_compute; reflexivity | ].
  split; vm_compute; reflexivity.
Qed.

(** The target count follows the C library.  For a region of 1521 square
    metres and diameters from 1 m to 11.089594301734946 m the base of the
    square is 3.0223985754337366: with the rounded square the target is 52
    trees, with the neighbouring double that glibc returns it is 53. *)
Example target_count_follows_the_C_library :
  PrimFloat.div (PrimFloat.div (PrimFloat.add 1 11.089594301734946) 2) 2
  = 3.0223985754337366%float
  /\ pow_2 (LibM := rounded_square) 3.0223985754337366 = 9.134893148783881%float
  /\ estimated_tree_count (libm := rounded_square) 1521 1 11.089594301734946 = Ok 52
  /\ estimated_tree_count (libm := lower_square) 1521 1 11.089594301734946 = Ok 53.
Proof. repeat split; vm_compute; reflexivity. Qed.

(** ** C6: clusters exceed the cluster threshold *)

(** C6, as stated, fails on the reported field: [areaM2] is the region area
    rounded to two decimals.  A 40 x 40 image of 2 m x 2 m with a cluster
    threshold of 2.2 m yields a cluster of 3.8025 square metres, reported as
    3.8, below the circle area 3.8013. *)
Lemma C6_reported_area_below_threshold :
  exists result s' c clusterAreaM2,
    detect_trees_in_image yard vegetation yard_params yard_dims seeded
    = (Ok result, s')
    /\ In c (treeClusters result)
    /\ circle_area (cluster_threshold yard_params) = Ok clusterAreaM2
    /\ PrimFloat.ltb clusterAreaM2 (TreeCluster.areaM2 c) = false
    /\ PrimFloat.ltb (TreeCluster.areaM2 c) clusterAreaM2 = true.
Proof.
  eexists. eexists. eexists. eexists.
  split; [ vm_compute; reflexivity | ].
  split; [ left; reflexivity | ].
  split; [ vm_compute; reflexivity | ].
  split; vm_compute; reflexivity.
Qed.

(** C6, amended: the threshold is [pi * (clusterThresholdM / 2) ** 2], the
    square being the one the C library returns; every cluster comes from a
    region whose unrounded area [areaPx * scaleX * scaleY] is strictly above
    it, hence not below or equal to it; its [areaM2] field is that area
    rounded to two decimals; and the regions reported as individual trees are
    not above the threshold. *)
Theorem C6_cluster_region_area_exceeds_threshold :
  forall (S : Type) (RK : RandomKit S) (ops : ImageOps) (libm : LibM)
         (img : Image) (hsv_thresholds : HsvThresholds)
         (detection_params : DetectionParams) (real_dimensions : RealDimensions)
         (s s' : S) (result : DetectionResult),
    detect_trees_in_image img hsv_thresholds detection_params real_dimensions s
    = (Ok result, s') ->
    exists scaleX scaleY square clusterAreaM2,
      meters_per_pixel real_dimensions (snd (shape img)) (fst (shape img))
      = Ok (scaleX, scaleY)
      /\ Py.pow2 (PrimFloat.div (cluster_threshold detection_params) 2) = Ok square
      /\ clusterAreaM2 = PrimFloat.mul math.pi square
      /\ circle_area (cluster_threshold detection_params) = Ok clusterAreaM2
      /\ Forall (fun c =>
                   let area_m2 :=
                     region_area_m2 (cv2.contourArea (TreeCluster.polygonPx c))
                                    scaleX scaleY in
                   PrimFloat.ltb clusterAreaM2 area_m2 = true
                   /\ PrimFloat.leb area_m2 clusterAreaM2 = false
                   /\ TreeCluster.areaM2 c = Py.round2 area_m2)
                (treeClusters result)
      /\ Forall (fun t =>
                   PrimFloat.ltb clusterAreaM2
                     (region_area_m2 (cv2.contourArea (IndividualTree.polygonPx t))
                                     scaleX scaleY) = false)
                (individualTrees result).
Proof.
  intros S RK ops libm img hsv_thresholds detection_params real_dimensions s s' result
         Hrun.
  apply detect_trees_in_image_reports in Hrun.
  destruct Hrun
    as (mx & my & mask & min_area_px & cluster_area_m2 & Hmpp & _ & _ & Hcl & Hi & Hc).
  pose proof Hcl as Hsq. unfold circle_area in Hsq.
  apply result_bind_Ok in Hsq. destruct Hsq as (square & Hsq & Hpi).
  inversion Hpi as [Hpi'].
  exists mx, my, square, (PrimFloat.mul math.pi square).
  rewrite Hpi'.
  split; [ exact Hmpp | ]. split; [ exact Hsq | ]. split; [ reflexivity | ].
  split; [ exact Hcl | ].
  split.
  - eapply Forall_impl; [ | exact Hc ].
    intros c (Hrep & Hbig & _). destruct Hrep. cbv zeta.
    split; [ exact Hbig | ]. split; [ apply ltb_true_leb_false; exact Hbig | auto ].
  - eapply Forall_impl; [ | exact Hi ].
    intros t (_ & Hsmall & _). exact Hsmall.
Qed.

(** C6 on the 40 x 40 yard. *)
Lemma C6_yard_witness :
  exists result s' scaleX scaleY clusterAreaM2,
    detect_trees_in_image yard vegetation yard_params yard_dims seeded
    = (Ok result, s')
    /\ circle_area (cluster_threshold yard_params) = Ok clusterAreaM2
    /\ Forall (fun c =>
                 PrimFloat.ltb clusterAreaM2
                   (region_area_m2 (cv2.contourArea (TreeCluster.polygonPx c))
                                   scaleX scaleY) = true)
              (treeClusters result).
Proof.
  pose proof (C6_cluster_region_area_exceeds_threshold Z lcg reference_ops
                rounded_square yard vegetation yard_params yard_dims seeded _ _
                ltac:(vm_compute; reflexivity))
    as (scaleX & scaleY & square & clusterAreaM2 & _ & _ & _ & Hcl & Hc & _).
  eexists. eexists. exists scaleX, scaleY, clusterAreaM2.
  split; [ vm_compute; reflexivity | ]. split; [ exact Hcl | ].
  eapply Forall_impl; [ | exact Hc ]. intros c (Hbig & _). exact Hbig.
Defined.

(** ** C7: individual trees lie within the diameter bounds *)

(** A region that is not noise and not a cluster, and whose estimated
    diameter is out of bounds, leaves both lists as they were. *)
Lemma out_of_bounds_region_is_dropped {S : Type} {RK : RandomKit S}
    {libm : LibM}
    (detection_params : DetectionParams) (height : Z)
    (mx my min_area_px cluster_area_m2 : float)
    (acc : list IndividualTree.t * list TreeCluster.t) (contour : Contour)
    (s : S) (centroid : Point) (d : float) :
  let area_m2 := region_area_m2 (cv2.contourArea contour) mx my in
  PrimFloat.ltb (cv2.contourArea contour) min_area_px = false ->
  PrimFloat.eqb (cv2.m00 (cv2.moments contour)) 0 = false ->
  centroid_px contour = Ok centroid ->
  PrimFloat.ltb cluster_area_m2 area_m2 = false ->
  estimated_diameter area_m2 = Ok d ->
  PrimFloat.leb (min_diameter detection_params) d
  && PrimFloat.leb d (max_diameter detection_params) = false ->
  classify_contour detection_params height mx my min_area_px cluster_area_m2
    acc contour s = (Ok acc, s).
Proof.
  intros area_m2 Hnoise Hmass Hcentroid Hsmall Hd Hout. subst area_m2.
  unfold classify_contour. destruct acc as [individual_trees tree_clusters].
  rewrite Hnoise, Hmass.
  unfold centroid_px in Hcentroid.
  apply result_bind_Ok in Hcentroid. destruct Hcentroid as (qx & Hqx & Hcentroid).
  apply result_bind_Ok in Hcentroid. destruct Hcentroid as (cx & Hcx & Hcentroid).
  apply result_bind_Ok in Hcentroid. destruct Hcentroid as (qy & Hqy & Hcentroid).
  apply result_bind_Ok in Hcentroid. destruct Hcentroid as (cy & Hcy & _).
  unfold bind, lift. rewrite Hqx, Hcx, Hqy, Hcy, Hsmall, Hd, Hout. reflexivity.
Qed.

(** C7, as stated, fails on the reported field: [estimatedDiameterM] is the
    estimate rounded to two decimals.  A 5 x 5 image at 1 m per pixel with
    [min_diameter = 4.512] yields a tree whose estimate 4.5135 passes the
    bounds and is reported as 4.51, below the minimum. *)
Lemma C7_reported_diameter_below_minimum :
  exists result s' t,
    detect_trees_in_image crown vegetation crown_params crown_dims seeded
    = (Ok result, s')
    /\ In t (individualTrees result)
    /\ PrimFloat.leb (min_diameter crown_params) (IndividualTree.estimatedDiameterM t)
       = false
    /\ PrimFloat.ltb (IndividualTree.estimatedDiameterM t) (min_diameter crown_params)
       = true.
Proof.
  eexists. eexists. eexists.
  split; [ vm_compute; reflexivity | ].
  split; [ left; reflexivity | ].
  split; vm_compute; reflexivity.
Qed.

(** C7, amended: every individual tree comes from a region that is not a
    cluster (its unrounded area is not above the detector's cluster
    threshold) and whose unrounded estimate [2 * sqrt(areaM2 / pi)] lies
    within the two bounds, and reports that estimate rounded to two decimals.
    A region that passed the detector's noise threshold, is not a cluster and
    whose estimate is out of bounds changes neither list and draws nothing;
    it is the polygon of no reported tree and of no reported cluster, and the
    summary counts only what is in the lists. *)
Theorem C7_individual_estimate_within_bounds :
  forall (S : Type) (RK : RandomKit S) (ops : ImageOps) (libm : LibM)
         (img : Image) (hsv_thresholds : HsvThresholds)
         (detection_params : DetectionParams) (real_dimensions : RealDimensions)
         (s s' : S) (result : DetectionResult),
    detect_trees_in_image img hsv_thresholds detection_params real_dimensions s
    = (Ok result, s') ->
    exists scaleX scaleY minAreaPx clusterAreaM2,
      meters_per_pixel real_dimensions (snd (shape img)) (fst (shape img))
      = Ok (scaleX, scaleY)
      /\ min_area_pixels detection_params scaleX scaleY = Ok minAreaPx
      /\ circle_area (cluster_threshold detection_params) = Ok clusterAreaM2
      /\ Forall (fun t =>
                   let area_m2 :=
                     region_area_m2 (cv2.contourArea (IndividualTree.polygonPx t))
                                    scaleX scaleY in
                   PrimFloat.ltb clusterAreaM2 area_m2 = false
                   /\ exists d,
                        estimated_diameter area_m2 = Ok d
                        /\ PrimFloat.leb (min_diameter detection_params) d = true
                        /\ PrimFloat.leb d (max_diameter detection_params) = true
                        /\ IndividualTree.estimatedDiameterM t = Py.round2 d)
                (individualTrees result)
      /\ individualTreesCount (summary result)
         = Z.of_nat (length (individualTrees result))
      /\ treeClustersCount (summary result)
         = Z.of_nat (length (treeClusters result))
      /\ (forall acc contour centroid d (s0 : S),
            let area_m2 := region_area_m2 (cv2.contourArea contour) scaleX scaleY in
            PrimFloat.ltb (cv2.contourArea contour) minAreaPx = false ->
            PrimFloat.eqb (cv2.m00 (cv2.moments contour)) 0 = false ->
            centroid_px contour = Ok centroid ->
            PrimFloat.ltb clusterAreaM2 area_m2 = false ->
            estimated_diameter area_m2 = Ok d ->
            PrimFloat.leb (min_diameter detection_params) d
            && PrimFloat.leb d (max_diameter detection_params) = false ->
            classify_contour detection_params (fst (shape img)) scaleX scaleY
              minAreaPx clusterAreaM2 acc contour s0 = (Ok acc, s0))
      /\ (forall contour d,
            let area_m2 := region_area_m2 (cv2.contourArea contour) scaleX scaleY in
            PrimFloat.ltb clusterAreaM2 area_m2 = false ->
            estimated_diameter area_m2 = Ok d ->
            PrimFloat.leb (min_diameter detection_params) d
            && PrimFloat.leb d (max_diameter detection_params) = false ->
            ~ In contour (map IndividualTree.polygonPx (individualTrees result))
            /\ ~ In contour (map TreeCluster.polygonPx (treeClusters result))).
Proof.
  intros S RK ops libm img hsv_thresholds detection_params real_dimensions s s' result
         Hrun.
  pose proof (detect_trees_in_image_summary _ _ _ _ _ _ _ Hrun) as (Hn1 & Hn2 & _).
  apply detect_trees_in_image_reports in Hrun.
  destruct Hrun
    as (mx & my & mask & min_area_px & cluster_area_m2 & Hmpp & _ & Hmin & Hcl & Hi & Hc).
  exists mx, my, min_area_px, cluster_area_m2.
  split; [ exact Hmpp | ]. split; [ exact Hmin | ]. split; [ exact Hcl | ].
  split.
  { eapply Forall_impl; [ | exact Hi ].
    intros t (_ & Hsmall & d & Hd & Hr & Hlo & Hhi). cbv zeta.
    split; [ exact Hsmall | ]. exists d. auto. }
  split; [ exact Hn1 | ]. split; [ exact Hn2 | ].
  split.
  { intros. eapply out_of_bounds_region_is_dropped; eassumption. }
  intros contour d area_m2 Hsmall Hd Hout. subst area_m2. split.
  - intros Hin. apply in_map_iff in Hin. destruct Hin as (t & Hpoly & Hin).
    rewrite Forall_forall in Hi. specialize (Hi t Hin).
    destruct Hi as (_ & _ & d' & Hd' & _ & Hlo & Hhi).
    rewrite Hpoly, Hd in Hd'. inversion Hd'; subst d'.
    rewrite Hlo, Hhi in Hout. discriminate.
  - intros Hin. apply in_map_iff in Hin. destruct Hin as (c & Hpoly & Hin).
    rewrite Forall_forall in Hc. specialize (Hc c Hin).
    destruct Hc as (_ & Hbig & _).
    rewrite Hpoly, Hsmall in Hbig. discriminate.
Qed.

(** C7 on the 5 x 5 crown. *)
Lemma C7_crown_witness :
  exists result s' scaleX scaleY,
    detect_trees_in_image crown vegetation crown_params crown_dims seeded
    = (Ok result, s')
    /\ length (individualTrees result) = 1%nat
    /\ Forall (fun t =>
                 exists d,
                   estimated_diameter
                     (region_area_m2 (cv2.contourArea (IndividualTree.polygonPx t))
                                     scaleX scaleY) = Ok d
                   /\ PrimFloat.leb (min_diameter crown_params) d = true
                   /\ PrimFloat.leb d (max_diameter crown_params) = true
                   /\ IndividualTree.estimatedDiameterM t = Py.round2 d)
              (individualTrees result).
Proof.
  pose proof (C7_individual_estimate_within_bounds Z lcg reference_ops rounded_square
                crown vegetation crown_params crown_dims seeded _ _
                ltac:(vm_compute; reflexivity))
    as (scaleX & scaleY & minAreaPx & clusterAreaM2 & _ & _ & _ & Hi & _).
  eexists. eexists. exists scaleX, scaleY.
  split; [ vm_compute; reflexivity | ]. split; [ reflexivity | ].
  eapply Forall_impl; [ | exact Hi ]. intros t (_ & Hd). exact Hd.
Defined.

(** ** C8: the mask *)

Lemma pixel_at_map {A B} (f : A -> B) (img : list (list A)) (y x : nat) :
  pixel_at (map (map f) img) y x = option_map f (pixel_at img y x).
Proof.
  unfold pixel_at. rewrite nth_error_map.
  destruct (nth_error img y) as [row|]; simpl; [ apply nth_error_map | reflexivity ].
Qed.

Lemma inRange_pixel_set (lowerb upperb p : Pixel) :
  cv2.inRange_pixel lowerb upperb p = 255 <->
  (fst (fst lowerb) <= fst (fst p) <= fst (fst upperb))
  /\ (snd (fst lowerb) <= snd (fst p) <= snd (fst upperb))
  /\ (snd lowerb <= snd p <= snd upperb).
Proof.
  destruct lowerb as [[l0 l1] l2], upperb as [[u0 u1] u2], p as [[p0 p1] p2].
  unfold cv2.inRange_pixel. simpl.
  destruct (Z.leb_spec l0 p0), (Z.leb_spec p0 u0), (Z.leb_spec l1 p1),
    (Z.leb_spec p1 u1), (Z.leb_spec l2 p2), (Z.leb_spec p2 u2); simpl;
    split; intros; try lia; try discriminate.
Qed.

Lemma inRange_pixel_values (lowerb upperb p : Pixel) :
  cv2.inRange_pixel lowerb upperb p = 255 \/ cv2.inRange_pixel lowerb upperb p = 0.
Proof.
  destruct lowerb as [[l0 l1] l2], upperb as [[u0 u1] u2], p as [[p0 p1] p2].
  unfold cv2.inRange_pixel.
  destruct (_ && _); auto.
Qed.

(** The narrowing leaves a 32-bit integer as it is. *)
Lemma narrow_int32_small (n : Z) :
  - 2 ^ 31 <= n < 2 ^ 31 -> cv2.narrow_int32 n = n.
Proof.
  intros Hn. unfold cv2.narrow_int32. rewrite Z.mod_small; lia.
Qed.

Lemma int64_range_fits (r : Range) :
  int64_range r -> fits_int64 (r_min r) = true /\ fits_int64 (r_max r) = true.
Proof.
  unfold int64_range, fits_int64. intros [Hmin Hmax].
  split; apply andb_true_iff; split;
    first [ apply Z.leb_le; lia | apply Z.ltb_lt; lia ].
Qed.

(** With bounds that fit int64 the mask is the library's comparison against
    the narrowed bounds. *)
Lemma hsv_mask_int64 {ops : ImageOps} (img : Image) (t : HsvThresholds) :
  int64_range (hue t) -> int64_range (saturation t) -> int64_range (value t) ->
  hsv_mask img t
  = Ok (map (map (cv2.inRange_pixel (cv2.narrow_bounds (lower_bound t))
                                    (cv2.narrow_bounds (upper_bound t))))
            (cvtColor img)).
Proof.
  intros Hh Hs Hv.
  apply int64_range_fits in Hh, Hs, Hv.
  destruct Hh as [Hh0 Hh1], Hs as [Hs0 Hs1], Hv as [Hv0 Hv1].
  unfold hsv_mask, int64_array, lower_bound, upper_bound.
  rewrite Hh0, Hh1, Hs0, Hs1, Hv0, Hv1. reflexivity.
Qed.

(** C8, as stated, fails for a bound beyond 32 bits: the OpenCV binding keeps
    the low 32 bits of each bound.  With a hue minimum of [2^32 + 50] and a
    maximum of 70, the pixel of hue 60 is set although 60 is below the
    minimum. *)
Lemma C8_wide_bound_is_narrowed :
  exists mask,
    hsv_mask patch wide_hue = Ok mask
    /\ pixel_at (cvtColor patch) 0 0 = Some (60, 255, 255)
    /\ pixel_at mask 0 0 = Some 255
    /\ ~ in_range (hue wide_hue) 60.
Proof.
  eexists. split; [ vm_compute; reflexivity | ].
  split; [ reflexivity | ]. split; [ reflexivity | ].
  unfold in_range. simpl. lia.
Qed.

(** C8, amended: when the six bounds fit numpy's int64, the mask is computed,
    and at every pixel of the converted image it is 255 exactly when hue,
    saturation and value each lie within their inclusive bounds as narrowed
    to 32 bits, and 0 otherwise.  For bounds that are 32-bit integers this is
    the test on the bounds themselves, and a channel whose minimum exceeds
    its maximum clears the mask at every pixel. *)
Theorem C8_mask_is_conjunction_of_narrowed_ranges :
  forall (ops : ImageOps) (img : Image) (hsv_thresholds : HsvThresholds)
         (y x : nat) (h s v : Z),
    int64_range (hue hsv_thresholds) ->
    int64_range (saturation hsv_thresholds) ->
    int64_range (value hsv_thresholds) ->
    pixel_at (cvtColor img) y x = Some (h, s, v) ->
    exists mask,
      hsv_mask img hsv_thresholds = Ok mask
      /\ (pixel_at mask y x = Some 255 <->
          in_narrowed_range (hue hsv_thresholds) h
          /\ in_narrowed_range (saturation hsv_thresholds) s
          /\ in_narrowed_range (value hsv_thresholds) v)
      /\ (pixel_at mask y x = Some 255 \/ pixel_at mask y x = Some 0)
      /\ (int32_range (hue hsv_thresholds) ->
          int32_range (saturation hsv_thresholds) ->
          int32_range (value hsv_thresholds) ->
          (pixel_at mask y x = Some 255 <->
           in_range (hue hsv_thresholds) h
           /\ in_range (saturation hsv_thresholds) s
           /\ in_range (value hsv_thresholds) v)
          /\ (r_max (hue hsv_thresholds) < r_min (hue hsv_thresholds)
              \/ r_max (saturation hsv_thresholds) < r_min (saturation hsv_thresholds)
              \/ r_max (value hsv_thresholds) < r_min (value hsv_thresholds) ->
              pixel_at mask y x = Some 0)).
Proof.
  intros ops img t y x h s v Hh Hs Hv Hpx.
  eexists. split; [ apply hsv_mask_int64; assumption | ].
  rewrite pixel_at_map, Hpx.
  change (option_map ?f (Some ?p)) with (Some (f p)).
  pose proof (inRange_pixel_set (cv2.narrow_bounds (lower_bound t))
                (cv2.narrow_bounds (upper_bound t)) (h, s, v)) as Hset.
  pose proof (inRange_pixel_values (cv2.narrow_bounds (lower_bound t))
                (cv2.narrow_bounds (upper_bound t)) (h, s, v)) as Hval.
  remember (cv2.inRange_pixel (cv2.narrow_bounds (lower_bound t))
              (cv2.narrow_bounds (upper_bound t)) (h, s, v)) as m eqn:Hm.
  clear Hm. unfold lower_bound, upper_bound in Hset. simpl in Hset.
  assert (Hiff : Some m = Some 255 <->
                 in_narrowed_range (hue t) h
                 /\ in_narrowed_range (saturation t) s
                 /\ in_narrowed_range (value t) v).
  { unfold in_narrowed_range. rewrite <- Hset.
    split; intros Heq; [ inversion Heq; reflexivity | f_equal; exact Heq ]. }
  split; [ exact Hiff | ]. split.
  { destruct Hval as [-> | ->]; auto. }
  intros [Hh0 Hh1] [Hs0 Hs1] [Hv0 Hv1].
  unfold in_narrowed_range in Hiff.
  rewrite !narrow_int32_small in Hiff by assumption.
  split; [ exact Hiff | ].
  intros Hinv. destruct Hval as [Hv255 | ->]; [ | reflexivity ].
  assert (Hsome : Some m = Some 255) by (f_equal; exact Hv255).
  apply Hiff in Hsome. unfold in_range in Hsome. lia.
Qed.

(** C8 at the top-left pixel of the green patch, whose HSV value is
    (60, 255, 255). *)
Lemma C8_patch_witness :
  exists mask,
    hsv_mask patch vegetation = Ok mask /\ pixel_at mask 0 0 = Some 255.
Proof.
  destruct (C8_mask_is_conjunction_of_narrowed_ranges reference_ops patch vegetation
              0%nat 0%nat 60 255 255)
    as (mask & Hmask & _ & _ & Hnative);
    try (unfold int64_range; simpl; lia); [ reflexivity | ].
  exists mask. split; [ exact Hmask | ].
  apply Hnative; try (unfold int32_range; simpl; lia).
  unfold in_range. simpl. lia.
Defined.

(** ** C9: the noise filter *)



(** ** C10: centroids are truncated *)

(** [int] of a finite float [(-1)^s * m * 2^e] is the quotient that rounds
    toward zero. *)
Lemma int_truncates_toward_zero (x : float) (s : bool) (m : positive) (e : Z) :
  Prim2SF x = S754_finite s m e ->
  Py.int x = Ok (Z.quot (cond_Zopp s (Zpos m) * 2 ^ Z.max e 0) (2 ^ Z.max (- e) 0)).
Proof.
  intros Hx. unfold Py.int. rewrite Hx. f_equal.
  destruct e as [|p|p]; unfold Py.trunc_mag.
  - change (2 ^ Z.max 0 0) with 1. change (2 ^ Z.max (- 0) 0) with 1.
    rewrite Z.quot_1_r. destruct s; simpl; lia.
  - change (Z.max (Z.pos p) 0) with (Z.pos p).
    change (2 ^ Z.max (- Z.pos p) 0) with 1.
    rewrite Z.quot_1_r. destruct s; simpl cond_Zopp; lia.
  - change (Z.max (Z.neg p) 0) with 0. change (- Z.neg p) with (Z.pos p).
    change (Z.max (Z.pos p) 0) with (Z.pos p). change (2 ^ 0) with 1.
    rewrite Z.mul_1_r.
    assert (Hpow : 0 < 2 ^ Z.pos p) by (apply Z.pow_pos_nonneg; lia).
    destruct s; simpl cond_Zopp.
    + change (Z.neg m) with (- Z.pos m). rewrite Z.quot_opp_l by lia.
      rewrite Z.quot_div_nonneg by lia. reflexivity.
    + rewrite Z.quot_div_nonneg by lia. reflexivity.
Qed.

Example int_of_minus_two_and_a_half : Py.int (-2.5)%float = Ok (-2).
Proof. reflexivity. Qed.

(** The 10 x 10 lot has its centre of mass at (4.5, 4.5); the centroid the
    classifier computes is (4, 4). *)
Example lot_centroid_is_truncated :
  Py.truediv (cv2.m10 (cv2.moments lot_square)) (cv2.m00 (cv2.moments lot_square))
  = Ok 4.5%float
  /\ Py.truediv (cv2.m01 (cv2.moments lot_square)) (cv2.m00 (cv2.moments lot_square))
     = Ok 4.5%float
  /\ centroid_px lot_square = Ok (4, 4).
Proof. repeat split; vm_compute; reflexivity. Qed.

(** C10, as stated, fails in its last clause: the reported metric centroid
    is rounded to two decimals and is then no whole-pixel multiple of the
    scale factor.  On the 3 x 3 patch of 1 m x 1 m the cluster centroid is
    pixel (1, 1), the scale factor is 1/3, and the reported x is 0.33, which
    is none of 0/3, 1/3, 2/3 and 3/3. *)
Lemma C10_reported_centroid_is_no_pixel_multiple :
  exists result s' c,
    detect_trees_in_image patch vegetation patch_params patch_dims seeded
    = (Ok result, s')
    /\ In c (treeClusters result)
    /\ TreeCluster.centroidPx c = (1, 1)
    /\ Forall (fun k =>
                 fst (TreeCluster.centroidM c)
                 <> PrimFloat.mul (Py.float_of_int k)
                                  (PrimFloat.div 1 (Py.float_of_int 3)))
              [0; 1; 2; 3].
Proof.
  eexists. eexists. eexists.
  split; [ vm_compute; reflexivity | ].
  split; [ left; reflexivity | ].
  split; [ reflexivity | ].
  repeat constructor; intros Heq;
    apply (f_equal (fun x => PrimFloat.eqb x 0.33%float)) in Heq;
    vm_compute in Heq; discriminate.
Qed.

(** C10, amended: for every reported individual tree and cluster, [centroidPx] is the
    pair of [int(M10 / M00)] and [int(M01 / M00)] over the moments of its
    polygon, [int] truncating toward zero, and [centroidM] is computed from
    those integers: the scale factors times the integer column and the
    flipped integer row, rounded to two decimals. *)
Theorem C10_centroid_is_truncated_moment_ratio :
  forall (S : Type) (RK : RandomKit S) (ops : ImageOps) (libm : LibM)
         (img : Image) (hsv_thresholds : HsvThresholds)
         (detection_params : DetectionParams) (real_dimensions : RealDimensions)
         (s s' : S) (result : DetectionResult),
    detect_trees_in_image img hsv_thresholds detection_params real_dimensions s
    = (Ok result, s') ->
    exists scaleX scaleY,
      meters_per_pixel real_dimensions (snd (shape img)) (fst (shape img))
      = Ok (scaleX, scaleY)
      /\ let truncated := fun polygon centroidPx centroidM =>
           let M := cv2.moments polygon in
           exists qx qy cx cy,
             Py.truediv (cv2.m10 M) (cv2.m00 M) = Ok qx
             /\ Py.truediv (cv2.m01 M) (cv2.m00 M) = Ok qy
             /\ Py.int qx = Ok cx
             /\ Py.int qy = Ok cy
             /\ centroidPx = (cx, cy)
             /\ centroidM
                = (Py.round2 (PrimFloat.mul (Py.float_of_int cx) scaleX),
                   Py.round2 (PrimFloat.mul (Py.float_of_int (fst (shape img) - cy))
                                            scaleY)) in
         Forall (fun t => truncated (IndividualTree.polygonPx t)
                            (IndividualTree.centroidPx t) (IndividualTree.centroidM t))
                (individualTrees result)
         /\ Forall (fun c => truncated (TreeCluster.polygonPx c)
                               (TreeCluster.centroidPx c) (TreeCluster.centroidM c))
                   (treeClusters result).
Proof.
  intros S RK ops libm img hsv_thresholds detection_params real_dimensions s s'
         result Hrun.
  apply detect_trees_in_image_reports in Hrun.
  destruct Hrun
    as (mx & my & mask & min_area_px & cluster_area_m2 & Hmpp & _ & _ & _ & Hi & Hc).
  exists mx, my. split; [ exact Hmpp | ].
  assert (Htr : forall polygon centroidPx centroidM,
             centroid_px polygon = Ok centroidPx ->
             centroidM = round_point (toMeters (fst (shape img)) mx my centroidPx) ->
             exists qx qy cx cy,
               Py.truediv (cv2.m10 (cv2.moments polygon)) (cv2.m00 (cv2.moments polygon))
               = Ok qx
               /\ Py.truediv (cv2.m01 (cv2.moments polygon))
                    (cv2.m00 (cv2.moments polygon)) = Ok qy
               /\ Py.int qx = Ok cx
               /\ Py.int qy = Ok cy
               /\ centroidPx = (cx, cy)
               /\ centroidM
                  = (Py.round2 (PrimFloat.mul (Py.float_of_int cx) mx),
                     Py.round2 (PrimFloat.mul (Py.float_of_int (fst (shape img) - cy))
                                              my))).
  { intros polygon centroidPx centroidM Hcentroid HM. unfold centroid_px in Hcentroid.
    apply result_bind_Ok in Hcentroid. destruct Hcentroid as (qx & Hqx & Hcentroid).
    apply result_bind_Ok in Hcentroid. destruct Hcentroid as (cx & Hcx & Hcentroid).
    apply result_bind_Ok in Hcentroid. destruct Hcentroid as (qy & Hqy & Hcentroid).
    apply result_bind_Ok in Hcentroid. destruct Hcentroid as (cy & Hcy & Hcentroid).
    inversion Hcentroid; subst centroidPx.
    exists qx, qy, cx, cy. subst centroidM. repeat split; auto. }
  cbv zeta. split.
  - eapply Forall_impl; [ | exact Hi ]. intros t (Hrep & _). destruct Hrep. auto.
  - eapply Forall_impl; [ | exact Hc ]. intros c (Hrep & _). destruct Hrep. auto.
Qed.

(** C10 on the 10 x 10 lot: the cluster's centroid is pixel (4, 4), reported
    in metres as (4, 6). *)
Lemma C10_lot_witness :
  exists result s',
    detect_trees_in_image lot vegetation lot_params lot_dims seeded = (Ok result, s')
    /\ Forall (fun c =>
                 TreeCluster.centroidPx c = (4, 4)
                 /\ TreeCluster.centroidM c = (4%float, 6%float))
              (treeClusters result).
Proof.
  pose proof (C10_centroid_is_truncated_moment_ratio Z lcg reference_ops rounded_square
                                                     lot
                vegetation lot_params lot_dims seeded _ _
                ltac:(vm_compute; reflexivity))
    as (scaleX & scaleY & Hmpp & _ & Hc).
  eexists. eexists. split; [ vm_compute; reflexivity | ].
  vm_compute in Hmpp. inversion Hmpp; subst scaleX scaleY.
  inversion Hc as [|c rest Hhead Htail]; subst.
  constructor; [ | constructor ].
  destruct Hhead as (qx & qy & cx & cy & Hqx & Hqy & Hcx & Hcy & Hpx & HM).
  vm_compute in Hqx. inversion Hqx; subst qx.
  vm_compute in Hqy. inversion Hqy; subst qy.
  vm_compute in Hcx. inversion Hcx; subst cx.
  vm_compute in Hcy. inversion Hcy; subst cy.
  split; [ exact Hpx | ]. rewrite HM. vm_compute. reflexivity.
Defined.

(** ** Further properties *)

(** The uniformly green scenario: one region covering the image, of 98.01
    square metres, above the cluster area of 19.63; it is a single cluster
    asking for 31 trees and holding at most 31. *)
Example scenario_uniform_green :
  exists result s',
    detect_trees_in_image meadow vegetation meadow_params meadow_dims seeded
    = (Ok result, s')
    /\ individualTrees result = []
    /\ map TreeCluster.areaM2 (treeClusters result) = [98.01%float]
    /\ map TreeCluster.polygonPx (treeClusters result)
       = [[(0, 0); (0, 99); (99, 99); (99, 0)]]
    /\ estimated_tree_count 98.01 (min_diameter meadow_params)
         (max_diameter meadow_params) = Ok 31
    /\ totalPopulatedTrees (summary result) <= 31.
Proof.
  eexists. eexists. split; [ vm_compute; reflexivity | ].
  repeat split; try (vm_compute; reflexivity).
  vm_compute. discriminate.
Qed.

(** The all-background scenario: an empty mask, no region, all counts zero. *)
Example scenario_all_background :
  exists result s' mask,
    detect_trees_in_image asphalt vegetation meadow_params meadow_dims seeded
    = (Ok result, s')
    /\ hsv_mask asphalt vegetation = Ok mask
    /\ Forall (Forall (fun m => m = 0)) mask
    /\ findContours mask = []
    /\ individualTrees result = []
    /\ treeClusters result = []
    /\ summary result
       = {| individualTreesCount := 0; treeClustersCount := 0;
            totalPopulatedTrees := 0 |}.
Proof.
  eexists. eexists. eexists. split; [ vm_compute; reflexivity | ].
  split; [ vm_compute; reflexivity | ].
  split; [ repeat constructor | ].
  repeat split; reflexivity.
Qed.

(** ** The detection loop *)

(** X2: an image without regions gives the empty result and leaves the
    generator alone.  When the scale factors, the mask and the two area
    thresholds are computed without an exception and the mask has no contour,
    the call returns both lists empty and all three counts zero, in the state
    it started from. *)
Theorem no_contours_empty_result :
  forall (S : Type) (RK : RandomKit S) (ops : ImageOps) (libm : LibM)
         (img : Image) (hsv_thresholds : HsvThresholds)
         (detection_params : DetectionParams) (real_dimensions : RealDimensions)
         (s : S) (scale : float * float) (mask : Mask)
         (min_area_px cluster_area_m2 : float),
    meters_per_pixel real_dimensions (snd (shape img)) (fst (shape img)) = Ok scale ->
    hsv_mask img hsv_thresholds = Ok mask ->
    min_area_pixels detection_params (fst scale) (snd scale) = Ok min_area_px ->
    circle_area (cluster_threshold detection_params) = Ok cluster_area_m2 ->
    findContours mask = [] ->
    exists result,
      detect_trees_in_image img hsv_thresholds detection_params real_dimensions s
      = (Ok result, s)
      /\ individualTrees result = []
      /\ treeClusters result = []
      /\ summary result
         = {| individualTreesCount := 0; treeClustersCount := 0;
              totalPopulatedTrees := 0 |}.
Proof.
  intros S RK ops libm img hsv_thresholds detection_params real_dimensions s [mx my]
         mask min_area_px cluster_area_m2 Hmpp Hmask Hmin Hcl Hnone.
  unfold detect_trees_in_image. destruct (shape img) as [height width].
  simpl in Hmpp, Hmin. unfold bind, lift. rewrite Hmpp, Hmask, Hmin, Hcl, Hnone. simpl.
  eexists. split; [ reflexivity | ]. simpl. auto.
Qed.

Lemma no_contours_asphalt_witness :
  exists result,
    detect_trees_in_image asphalt vegetation meadow_params meadow_dims seeded
    = (Ok result, seeded)
    /\ individualTrees result = []
    /\ treeClusters result = []
    /\ summary result
       = {| individualTreesCount := 0; treeClustersCount := 0;
            totalPopulatedTrees := 0 |}.
Proof.
  eapply (no_contours_empty_result Z lcg reference_ops rounded_square asphalt
            vegetation meadow_params meadow_dims seeded).
  - vm_compute. reflexivity.
  - vm_compute. reflexivity.
  - vm_compute. reflexivity.
  - vm_compute. reflexivity.
  - vm_compute. reflexivity.
Defined.

(** The contours of one fate are a subsequence of the contours. *)
Lemma selected_subsequence (f : fate) (fates : list fate) :
  forall contours, subsequence (selected f fates contours) contours.
Proof.
  induction fates as [|f' fates IH]; intros [|c contours]; simpl.
  - apply subsequence_nil.
  - apply subsequence_nil.
  - apply subsequence_nil.
  - destruct (fate_eqb f f'); [ apply subsequence_take | apply subsequence_skip ];
      apply IH.
Qed.

(** Trees and clusters together are no more than the contours. *)
Lemma selected_lengths (fates : list fate) :
  forall contours,
    (length (selected AsTree fates contours)
     + length (selected AsCluster fates contours) <= length contours)%nat.
Proof.
  induction fates as [|f fates IH]; intros [|c contours]; simpl; try lia.
  specialize (IH contours). destruct f; simpl; lia.
Qed.

Section ContourLoop.

Context {S : Type} {RK : RandomKit S} {libm : LibM}.

(** One contour is skipped, appended to the individual trees or appended to
    the clusters; only the last case can move the generator. *)
Lemma classify_contour_cases detection_params height mx my min_area_px cluster_area_m2
    acc contour (s : S) acc' s' :
  classify_contour detection_params height mx my min_area_px cluster_area_m2
    acc contour s = (Ok acc', s') ->
  (acc' = acc /\ s' = s)
  \/ (exists t, acc' = (fst acc ++ [t], snd acc) /\ IndividualTree.polygonPx t = contour
                /\ s' = s)
  \/ (exists c, acc' = (fst acc, snd acc ++ [c]) /\ TreeCluster.polygonPx c = contour).
Proof.
  intros Hrun. destruct acc as [individual_trees tree_clusters].
  unfold classify_contour in Hrun.
  destruct (PrimFloat.ltb (cv2.contourArea contour) min_area_px).
  { apply ret_Ok in Hrun. destruct Hrun as [-> ->]. auto. }
  destruct (PrimFloat.eqb (cv2.m00 (cv2.moments contour)) 0).
  { apply ret_Ok in Hrun. destruct Hrun as [-> ->]. auto. }
  bind_step Hrun qx s1 Hqx. apply lift_Ok in Hqx. destruct Hqx as [Hqx ->].
  bind_step Hrun cx_px s1 Hcx. apply lift_Ok in Hcx. destruct Hcx as [Hcx ->].
  bind_step Hrun qy s1 Hqy. apply lift_Ok in Hqy. destruct Hqy as [Hqy ->].
  bind_step Hrun cy_px s1 Hcy. apply lift_Ok in Hcy. destruct Hcy as [Hcy ->].
  destruct (PrimFloat.ltb cluster_area_m2 _).
  - bind_step Hrun populated_trees s1 Hpop.
    apply ret_Ok in Hrun. destruct Hrun as [-> ->].
    right. right. eexists. split; reflexivity.
  - bind_step Hrun diameter s1 Hd. apply lift_Ok in Hd. destruct Hd as [Hd ->].
    destruct (_ && _); apply ret_Ok in Hrun; destruct Hrun as [-> ->]; auto.
    right. left. eexists. split; [ reflexivity | ]. split; reflexivity.
Qed.

(** The loop gives every contour one fate, and appends to the two lists the
    contours it made trees and the contours it made clusters, in their
    order. *)
Lemma for_contours_order detection_params height mx my min_area_px cluster_area_m2
    (todo : list Contour) :
  forall acc (s : S) acc' s',
    for_contours detection_params height mx my min_area_px cluster_area_m2
      todo acc s = (Ok acc', s') ->
    exists new_trees new_clusters fates,
      fst acc' = fst acc ++ new_trees
      /\ snd acc' = snd acc ++ new_clusters
      /\ length fates = length todo
      /\ map IndividualTree.polygonPx new_trees = selected AsTree fates todo
      /\ map TreeCluster.polygonPx new_clusters = selected AsCluster fates todo
      /\ (new_clusters = [] -> s' = s).
Proof.
  induction todo as [|contour rest IH]; intros acc s acc' s' Hrun; simpl in Hrun.
  - apply ret_Ok in Hrun. destruct Hrun as [-> ->]. exists [], [], [].
    rewrite !app_nil_r. repeat split; auto.
  - bind_step Hrun acc1 s1 Hstep.
    apply IH in Hrun.
    destruct Hrun as (new_trees & new_clusters & fates & Ht & Hc & Hlen & Hst & Hsc
                      & Hstate).
    apply classify_contour_cases in Hstep.
    destruct Hstep as [[-> ->] | [(t & -> & Hpoly & ->) | (c & -> & Hpoly)]].
    + exists new_trees, new_clusters, (Dropped :: fates).
      simpl. repeat split; auto.
    + exists (t :: new_trees), new_clusters, (AsTree :: fates). simpl in Ht, Hc.
      rewrite <- app_assoc in Ht. simpl in Ht.
      simpl. rewrite Hpoly, Hst. repeat split; auto.
    + exists new_trees, (c :: new_clusters), (AsCluster :: fates). simpl in Ht, Hc.
      rewrite <- app_assoc in Hc. simpl in Hc.
      simpl. rewrite Hpoly, Hsc. repeat split; auto. discriminate.
Qed.

End ContourLoop.

(** A returned result holds the two lists of the contour loop, run from the
    empty lists over the contours of the mask. *)
Lemma detect_trees_in_image_loop {S : Type} {RK : RandomKit S}
    {ops : ImageOps} {libm : LibM}
    (img : Image) (hsv_thresholds : HsvThresholds)
    (detection_params : DetectionParams) (real_dimensions : RealDimensions)
    (s s' : S) (result : DetectionResult) :
  detect_trees_in_image img hsv_thresholds detection_params real_dimensions s
  = (Ok result, s') ->
  exists mx my mask min_area_px cluster_area_m2,
    hsv_mask img hsv_thresholds = Ok mask
    /\ for_contours detection_params (fst (shape img)) mx my min_area_px
         cluster_area_m2 (findContours mask) ([], []) s
       = (Ok (individualTrees result, treeClusters result), s').
Proof.
  intros Hrun. apply detect_trees_in_image_Ok in Hrun.
  destruct Hrun as (mx & my & mask & min_area_px & cluster_area_m2 & individual_trees
                    & tree_clusters & _ & Hmask & _ & _ & Hloop & ->).
  exists mx, my, mask, min_area_px, cluster_area_m2. simpl. auto.
Qed.

(** X3: every contour that [findContours] returned has one fate: it is
    dropped, or it is the polygon of one individual tree, or it is the
    polygon of one cluster.  The polygons of the individual trees are exactly
    the contours that became trees, in the order of the contour list, and the
    polygons of the clusters exactly the contours that became clusters, in
    that order.  So every reported region is a contour, no contour is
    reported twice or in both lists, and both lists keep the contour order. *)
Theorem regions_follow_contour_order :
  forall (S : Type) (RK : RandomKit S) (ops : ImageOps) (libm : LibM)
         (img : Image) (hsv_thresholds : HsvThresholds)
         (detection_params : DetectionParams) (real_dimensions : RealDimensions)
         (s s' : S) (result : DetectionResult),
    detect_trees_in_image img hsv_thresholds detection_params real_dimensions s
    = (Ok result, s') ->
    exists mask fates,
      hsv_mask img hsv_thresholds = Ok mask
      /\ let contours := findContours mask in
         length fates = length contours
         /\ map IndividualTree.polygonPx (individualTrees result)
            = selected AsTree fates contours
         /\ map TreeCluster.polygonPx (treeClusters result)
            = selected AsCluster fates contours
         /\ subsequence (map IndividualTree.polygonPx (individualTrees result))
              contours
         /\ subsequence (map TreeCluster.polygonPx (treeClusters result)) contours
         /\ (length (individualTrees result) + length (treeClusters result)
             <= length contours)%nat.
Proof.
  intros S RK ops libm img hsv_thresholds detection_params real_dimensions s s' result
         Hrun.
  apply detect_trees_in_image_loop in Hrun.
  destruct Hrun as (mx & my & mask & min_area_px & cluster_area_m2 & Hmask & Hloop).
  apply for_contours_order in Hloop.
  destruct Hloop as (new_trees & new_clusters & fates & Ht & Hc & Hlen & Hst & Hsc & _).
  simpl in Ht, Hc. subst new_trees new_clusters.
  exists mask, fates. split; [ exact Hmask | ]. cbv zeta.
  split; [ exact Hlen | ]. split; [ exact Hst | ]. split; [ exact Hsc | ].
  rewrite Hst, Hsc. split; [ apply selected_subsequence | ].
  split; [ apply selected_subsequence | ].
  rewrite <- (length_map IndividualTree.polygonPx),
          <- (length_map TreeCluster.polygonPx), Hst, Hsc.
  apply selected_lengths.
Qed.

Lemma regions_lot_witness :
  exists result s',
    detect_trees_in_image lot vegetation lot_params lot_dims seeded = (Ok result, s')
    /\ map TreeCluster.polygonPx (treeClusters result) = [lot_square]
    /\ individualTrees result = [].
Proof.
  eexists. eexists. split; [ vm_compute; reflexivity | ].
  destruct (regions_follow_contour_order Z lcg reference_ops rounded_square lot
              vegetation lot_params lot_dims seeded _ _ ltac:(vm_compute; reflexivity))
    as (mask & fates & Hmask & _ & _ & _ & _ & _ & _).
  split; reflexivity.
Defined.

(** X4: only clusters consume random numbers.  A call that reports no
    cluster returns the generator in the state it received, so it does not
    disturb the draws of the next call. *)
Theorem run_without_clusters_draws_nothing :
  forall (S : Type) (RK : RandomKit S) (ops : ImageOps) (libm : LibM)
         (img : Image) (hsv_thresholds : HsvThresholds)
         (detection_params : DetectionParams) (real_dimensions : RealDimensions)
         (s s' : S) (result : DetectionResult),
    detect_trees_in_image img hsv_thresholds detection_params real_dimensions s
    = (Ok result, s') ->
    treeClusters result = [] ->
    s' = s.
Proof.
  intros S RK ops libm img hsv_thresholds detection_params real_dimensions s s' result
         Hrun Hnone.
  apply detect_trees_in_image_loop in Hrun.
  destruct Hrun as (mx & my & mask & min_area_px & cluster_area_m2 & _ & Hloop).
  apply for_contours_order in Hloop.
  destruct Hloop as (new_trees & new_clusters & fates & _ & Hc & _ & _ & _ & Hstate).
  simpl in Hc. apply Hstate. rewrite <- Hc. exact Hnone.
Qed.

Lemma crown_draws_nothing_witness :
  snd (detect_trees_in_image crown vegetation crown_params crown_dims seeded) = seeded.
Proof.
  pose proof (run_without_clusters_draws_nothing Z lcg reference_ops rounded_square
                crown vegetation crown_params crown_dims seeded) as Hstate.
  destruct (detect_trees_in_image crown vegetation crown_params crown_dims seeded)
    as [[result|e] s'] eqn:Hrun.
  - simpl. apply (Hstate s' result eq_refl).
    vm_compute in Hrun. inversion Hrun. reflexivity.
  - vm_compute in Hrun. discriminate.
Defined.

(** ** The sampler of [populate_cluster] *)

Section Sampler.

Context {S : Type} {RK : RandomKit S}.
Variables (contour : Contour) (x y w h : Z).
Variables (mx my min_d max_d : float) (height count : Z) (spacing : float).

Local Abbreviation loop :=
  (populate_while contour x y w h mx my min_d max_d height count spacing).

(** A loop that ends short of the target has used every attempt. *)
Lemma populate_while_exhausts (remaining : nat) :
  forall attempts trees (s : S) trees' attempts' s',
    loop remaining attempts trees s = (Ok (trees', attempts'), s') ->
    Z.of_nat (length trees') < count ->
    attempts' = attempts + Z.of_nat remaining.
Proof.
  induction remaining as [|remaining IH]; intros attempts trees s trees' attempts' s'
    Hrun Hshort.
  - simpl in Hrun. apply ret_Ok in Hrun. destruct Hrun as [Heq _].
    inversion Heq; subst. simpl. lia.
  - simpl in Hrun.
    destruct (Z.ltb_spec (Z.of_nat (length trees)) count) as [Hlt|Hge].
    + bind_step Hrun test_x s1 Hx. bind_step Hrun test_y s2 Hy.
      destruct (cv2.pointPolygonTest contour (test_x, test_y) <? 0);
        [ apply IH in Hrun; lia | ].
      destruct (too_close spacing (test_x, test_y) trees);
        [ apply IH in Hrun; lia | ].
      bind_step Hrun diameter_m s3 Hd. apply IH in Hrun; lia.
    + apply ret_Ok in Hrun. destruct Hrun as [Heq _]. inversion Heq; subst. lia.
Qed.

(** With a lawful generator [randint(low, high)] lies in [[low, high)]. *)
Lemma randint_in_range (low high v : Z) (s s' : S) :
  interval_lawful RK ->
  np_random.randint low high s = (Ok v, s') -> low <= v < high.
Proof.
  intros Hlaw. unfold np_random.randint.
  destruct (Z.ltb_spec low high) as [Hlt|Hge]; [ | discriminate ].
  specialize (Hlaw (high - 1 - low) s ltac:(lia)).
  destruct (rk_interval (high - 1 - low) s) as [k s1]. simpl in Hlaw.
  intros Hr. inversion Hr; subst. lia.
Qed.

(** The loop only adds points of the box it samples from. *)
Lemma populate_while_in_box (remaining : nat) :
  interval_lawful RK ->
  forall attempts trees (s : S) trees' attempts' s',
    Forall (fun t => x <= fst (PopulatedTree.positionPx t) < x + w
                     /\ y <= snd (PopulatedTree.positionPx t) < y + h) trees ->
    loop remaining attempts trees s = (Ok (trees', attempts'), s') ->
    Forall (fun t => x <= fst (PopulatedTree.positionPx t) < x + w
                     /\ y <= snd (PopulatedTree.positionPx t) < y + h) trees'.
Proof.
  intros Hlaw.
  induction remaining as [|remaining IH]; intros attempts trees s trees' attempts' s'
    Hbox Hrun.
  - simpl in Hrun. apply ret_Ok in Hrun. destruct Hrun as [Heq _].
    inversion Heq; subst. exact Hbox.
  - simpl in Hrun.
    destruct (Z.of_nat (length trees) <? count).
    + bind_step Hrun test_x s1 Hx. bind_step Hrun test_y s2 Hy.
      apply (randint_in_range _ _ _ _ _ Hlaw) in Hx.
      apply (randint_in_range _ _ _ _ _ Hlaw) in Hy.
      destruct (cv2.pointPolygonTest contour (test_x, test_y) <? 0);
        [ eapply IH; eassumption | ].
      destruct (too_close spacing (test_x, test_y) trees);
        [ eapply IH; eassumption | ].
      bind_step Hrun diameter_m s3 Hd.
      eapply IH; [ | exact Hrun ].
      apply Forall_app. split; [ exact Hbox | ].
      constructor; [ simpl; lia | constructor ].
    + apply ret_Ok in Hrun. destruct Hrun as [Heq _]. inversion Heq; subst. exact Hbox.
Qed.

End Sampler.

(** X5: a cluster is under-filled only when the attempts are exhausted.  If
    the populator returns fewer trees than the target count, it made exactly
    ten attempts per target tree; if it stopped before that, the list holds
    exactly the target count. *)
Theorem under_filling_only_by_exhaustion :
  forall (S : Type) (RK : RandomKit S) (libm : LibM)
         (contour : Contour) (area_m2 scaleX scaleY minDiameterM maxDiameterM : float)
         (height : Z) (s s' : S) (trees : list PopulatedTree.t) (attempts targetCount : Z),
    populate_attempts contour area_m2 scaleX scaleY minDiameterM maxDiameterM height s
    = (Ok (trees, attempts), s') ->
    estimated_tree_count area_m2 minDiameterM maxDiameterM = Ok targetCount ->
    (Z.of_nat (length trees) < targetCount -> attempts = targetCount * 10)
    /\ (attempts < targetCount * 10 -> Z.of_nat (length trees) = targetCount).
Proof.
  intros S RK libm contour area_m2 scaleX scaleY minD maxD height s s' trees attempts
         targetCount Hrun Hcount.
  pose proof (populate_attempts_Ok _ _ _ _ _ _ _ _ _ _ _ Hrun)
    as (count & spacing & Hcount' & _ & _ & Hlen & Hatt).
  rewrite Hcount in Hcount'. inversion Hcount'; subst count. clear Hcount'.
  pose proof (estimated_tree_count_positive _ _ _ _ Hcount) as Hpos.
  assert (Hshort : Z.of_nat (length trees) < targetCount -> attempts = targetCount * 10).
  { intros Hlt. unfold populate_attempts in Hrun.
    destruct (cv2.boundingRect contour) as [[[x y] w] h].
    unfold bind, lift in Hrun. rewrite Hcount in Hrun.
    destruct (min_spacing_px scaleX scaleY minD) as [sp|e]; [ | discriminate ].
    apply populate_while_exhausts in Hrun; [ | exact Hlt ].
    rewrite Z2Nat.id in Hrun by lia. lia. }
  split; [ exact Hshort | ].
  intros Hearly.
  destruct (Z.lt_ge_cases (Z.of_nat (length trees)) targetCount) as [Hlt|Hge]; [ | lia ].
  apply Hshort in Hlt. lia.
Qed.

Lemma under_filling_lot_witness :
  exists trees attempts s',
    populate_attempts lot_square 81 1 1 3 3.1 10 seeded = (Ok (trees, attempts), s')
    /\ (Z.of_nat (length trees) < 11 -> attempts = 11 * 10).
Proof.
  eexists. eexists. eexists. split; [ vm_compute; reflexivity | ].
  apply (under_filling_only_by_exhaustion Z lcg rounded_square
                                          lot_square 81 1 1 3 3.1 10 seeded _ _ _ 11
           ltac:(vm_compute; reflexivity) ltac:(vm_compute; reflexivity)).
Defined.

(** X6: every populated tree lies in the bounding rectangle of its
    cluster's contour, whenever the generator keeps [randint] within its
    interval: [x <= px < x + w] and [y <= py < y + h]. *)
Theorem populated_positions_in_bounding_rect :
  forall (S : Type) (RK : RandomKit S) (libm : LibM)
         (contour : Contour) (area_m2 scaleX scaleY minDiameterM maxDiameterM : float)
         (height : Z) (s s' : S) (trees : list PopulatedTree.t),
    interval_lawful RK ->
    populate_cluster contour area_m2 scaleX scaleY minDiameterM maxDiameterM height s
    = (Ok trees, s') ->
    Forall (fun t => in_bounding_rect contour (PopulatedTree.positionPx t)) trees.
Proof.
  intros S RK libm contour area_m2 scaleX scaleY minD maxD height s s' trees Hlaw Hrun.
  apply populate_cluster_Ok in Hrun. destruct Hrun as (attempts & Hrun).
  unfold populate_attempts in Hrun. unfold in_bounding_rect.
  destruct (cv2.boundingRect contour) as [[[x y] w] h].
  bind_step Hrun count s1 Hcount. bind_step Hrun spacing s2 Hsp.
  eapply populate_while_in_box in Hrun; [ exact Hrun | exact Hlaw | constructor ].
Qed.

(** The reference generator is lawful. *)
Lemma lcg_interval_lawful : interval_lawful lcg.
Proof.
  intros max s Hmax. simpl. unfold reference.lcg_interval.
  destruct (Z.leb_spec max 0) as [Hle|Hgt]; simpl; [ lia | ].
  pose proof (Z.mod_pos_bound (reference.lcg_next s / 2 ^ 33) (max + 1) ltac:(lia)). lia.
Qed.

Lemma bounding_rect_lot_witness :
  exists trees s',
    populate_cluster lot_square 81 1 1 3 3.1 10 seeded = (Ok trees, s')
    /\ Forall (fun t => 0 <= fst (PopulatedTree.positionPx t) < 10
                        /\ 0 <= snd (PopulatedTree.positionPx t) < 10) trees.
Proof.
  eexists. eexists. split; [ vm_compute; reflexivity | ].
  apply (populated_positions_in_bounding_rect Z lcg rounded_square
                                              lot_square 81 1 1 3 3.1 10 seeded
           _ _ lcg_interval_lawful ltac:(vm_compute; reflexivity)).
Defined.

(** X7: a contour without points cannot be populated.  Its bounding
    rectangle is empty, so the first [np.random.randint(x, x + w)] has an
    empty range and raises [ValueError]; no draw has been made. *)
Theorem empty_contour_raises_ValueError :
  forall (S : Type) (RK : RandomKit S) (libm : LibM)
         (area_m2 scaleX scaleY minDiameterM maxDiameterM : float)
         (height : Z) (s : S) (targetCount : Z) (spacing : float),
    estimated_tree_count area_m2 minDiameterM maxDiameterM = Ok targetCount ->
    min_spacing_px scaleX scaleY minDiameterM = Ok spacing ->
    populate_cluster [] area_m2 scaleX scaleY minDiameterM maxDiameterM height s
    = (Raise ValueError, s).
Proof.
  intros S RK libm area_m2 scaleX scaleY minD maxD height s targetCount spacing
         Hcount Hsp.
  pose proof (estimated_tree_count_positive _ _ _ _ Hcount) as Hpos.
  unfold populate_cluster, populate_attempts. simpl cv2.boundingRect. cbv iota beta.
  unfold bind at 1. unfold bind at 1. unfold lift at 1. rewrite Hcount.
  unfold bind at 1. unfold lift at 1. rewrite Hsp.
  destruct (Z.to_nat (targetCount * 10)) as [|remaining] eqn:Hfuel; [ lia | ].
  simpl populate_while.
  destruct (Z.ltb_spec 0 targetCount) as [_|Hbad]; [ | lia ].
  reflexivity.
Qed.

Lemma empty_contour_witness :
  populate_cluster [] 81 1 1 3 3.1 10 seeded = (Raise ValueError, seeded).
Proof.
  apply (empty_contour_raises_ValueError Z lcg rounded_square
                                         81 1 1 3 3.1 10 seeded 11 3);
    vm_compute; reflexivity.
Defined.

(** ** The [/detect-trees] endpoint *)

(** X8: a parameter that is not a finite number never reaches the client.
    When one of the five float fields of the form is a NaN or an infinity, a
    decodable image is answered 500: either the detection raises, or its
    result echoes the field in the metadata and cannot be rendered as JSON. *)
Theorem non_finite_parameter_is_answered_500 :
  forall (S : Type) (RK : RandomKit S) (ops : ImageOps) (libm : LibM) (img : Image)
         (hue_min hue_max sat_min sat_max val_min val_max : Z)
         (min_diameter max_diameter cluster_threshold real_width real_height : float)
         (s : S),
    Py.is_finite min_diameter && Py.is_finite max_diameter
    && Py.is_finite cluster_threshold
    && Py.is_finite real_width && Py.is_finite real_height = false ->
    exists s',
      detect_trees (Some img) hue_min hue_max sat_min sat_max val_min val_max
        min_diameter max_diameter cluster_threshold real_width real_height s
      = (HTTPException 500, s').
Proof.
  intros S RK ops libm img hue_min hue_max sat_min sat_max val_min val_max
         min_d max_d cl_t real_w real_h s Hbad.
  unfold detect_trees.
  destruct (detect_trees_in_image _ _ _ _ s) as [[result|e] s'] eqn:Hrun;
    [ | exists s'; reflexivity ].
  exists s'.
  apply detect_trees_in_image_echo in Hrun. destruct Hrun as [Hdims Hparams].
  unfold json_compliant. rewrite Hdims, Hparams. simpl.
  destruct (Py.is_finite real_w), (Py.is_finite real_h),
    (finite_point (metersPerPixel (metadata result))),
    (Py.is_finite min_d), (Py.is_finite max_d), (Py.is_finite cl_t);
    simpl in *; try reflexivity; discriminate.
Qed.

Lemma non_finite_patch_witness :
  exists s',
    detect_trees (Some patch) 35 85 40 255 40 255 0.1 0.3 0.2 infinity 1 seeded
    = (HTTPException 500, s').
Proof.
  apply (non_finite_parameter_is_answered_500 Z lcg reference_ops rounded_square patch
           35 85 40 255 40 255 0.1 0.3 0.2 infinity 1 seeded).
  vm_compute. reflexivity.
Defined.

Lemma eqb_zero_class (x : float) :
  PrimFloat.eqb x 0 = true <-> exists s, Prim2SF x = S754_zero s.
Proof.
  rewrite eqb_spec. unfold SFeqb.
  change (Prim2SF 0) with (S754_zero false).
  destruct (Prim2SF x) as [s|s| |s m e]; simpl; split;
    try (intros [s' Hs]; discriminate); try discriminate; eauto.
  - destruct s; discriminate.
  - destruct s; discriminate.
Qed.

(** Zero divided by a number other than zero is zero. *)
Lemma div_zero_is_zero (a b : float) :
  PrimFloat.eqb a 0 = true -> PrimFloat.eqb b 0 = false -> Py.is_nan b = false ->
  PrimFloat.eqb (PrimFloat.div a b) 0 = true.
Proof.
  intros Ha Hb Hnan. apply eqb_zero_class in Ha. destruct Ha as [sa Ha].
  apply eqb_zero_class. rewrite div_spec, Ha.
  unfold Py.is_nan in Hnan. rewrite eqb_spec in Hnan, Hb.
  change (Prim2SF 0) with (S754_zero false) in Hb.
  destruct (Prim2SF b) as [s|s| |s m e]; simpl in *; eauto; discriminate.
Qed.

Lemma is_finite_class (x : float) :
  Py.is_finite x = false ->
  Prim2SF x = S754_nan \/ exists s, Prim2SF x = S754_infinity s.
Proof.
  unfold Py.is_finite. rewrite ltb_spec, abs_spec.
  change (Prim2SF infinity) with (S754_infinity false).
  destruct (Prim2SF x) as [s|s| |s m e]; simpl; eauto; discriminate.
Qed.

(** Zero times a finite number is zero. *)
Lemma mul_zero_finite (a b : float) :
  PrimFloat.eqb a 0 = true -> Py.is_finite b = true ->
  PrimFloat.eqb (PrimFloat.mul a b) 0 = true
  /\ PrimFloat.eqb (PrimFloat.mul b a) 0 = true.
Proof.
  intros Ha Hb. apply eqb_zero_class in Ha. destruct Ha as [sa Ha].
  unfold Py.is_finite in Hb. rewrite ltb_spec, abs_spec in Hb.
  change (Prim2SF infinity) with (S754_infinity false) in Hb.
  split; apply eqb_zero_class; rewrite mul_spec, Ha;
    destruct (Prim2SF b) as [s|s| |s m e]; simpl in *; eauto; discriminate.
Qed.

(** A result computed with a zero real dimension carries a scale factor that
    is not finite. *)
Lemma zero_dimension_scale {S : Type} {RK : RandomKit S}
    {ops : ImageOps} {libm : LibM}
    (img : Image) (hsv_thresholds : HsvThresholds)
    (detection_params : DetectionParams) (real_dimensions : RealDimensions)
    (s s' : S) (result : DetectionResult) :
  detect_trees_in_image img hsv_thresholds detection_params real_dimensions s
  = (Ok result, s') ->
  PrimFloat.eqb (real_width real_dimensions) 0 = true
  \/ PrimFloat.eqb (real_height real_dimensions) 0 = true ->
  finite_point (metersPerPixel (metadata result)) = false.
Proof.
  intros Hrun Hzero. apply detect_trees_in_image_Ok in Hrun.
  destruct Hrun as (mx & my & mask & min_area_px & cluster_area_m2 & individual_trees
                    & tree_clusters & Hmpp & _ & Hmin & _ & _ & ->).
  simpl. unfold shape in Hmpp. simpl in Hmpp.
  unfold meters_per_pixel in Hmpp.
  destruct (Py.truediv (real_width real_dimensions) _) as [qx|] eqn:Hqx;
    [ | discriminate ].
  destruct (Py.truediv (real_height real_dimensions) _) as [qy|] eqn:Hqy;
    [ | discriminate ].
  simpl in Hmpp. inversion Hmpp; subst qx qy. clear Hmpp.
  apply truediv_Ok in Hqx, Hqy. destruct Hqx as [Hw Hmx], Hqy as [Hh Hmy].
  unfold min_area_pixels in Hmin.
  destruct (circle_area _) as [min_area_m2|]; [ | discriminate ].
  simpl in Hmin. apply truediv_Ok in Hmin. destruct Hmin as [Hprod _].
  unfold finite_point. simpl.
  destruct Hzero as [Hz|Hz].
  - assert (Hzx : PrimFloat.eqb mx 0 = true).
    { rewrite Hmx. apply div_zero_is_zero; auto.
      apply (signed_not_nan false), float_of_int_signed. lia. }
    destruct (Py.is_finite my) eqn:Hfin; [ | apply andb_false_r ].
    destruct (mul_zero_finite mx my Hzx Hfin) as [Hp _]. congruence.
  - assert (Hzy : PrimFloat.eqb my 0 = true).
    { rewrite Hmy. apply div_zero_is_zero; auto.
      apply (signed_not_nan false), float_of_int_signed. lia. }
    destruct (Py.is_finite mx) eqn:Hfin; [ | reflexivity ].
    destruct (mul_zero_finite my mx Hzy Hfin) as [_ Hp]. congruence.
Qed.

(** X9: a real width or height of zero is answered 500, whatever the image.
    Either a division raises ([ZeroDivisionError] in the area threshold, as
    the product of the scale factors is zero), or the other scale factor is
    infinite or NaN and the result cannot be rendered as JSON. *)
Theorem zero_real_dimension_is_answered_500 :
  forall (S : Type) (RK : RandomKit S) (ops : ImageOps) (libm : LibM) (img : Image)
         (hue_min hue_max sat_min sat_max val_min val_max : Z)
         (min_diameter max_diameter cluster_threshold real_width real_height : float)
         (s : S),
    PrimFloat.eqb real_width 0 = true \/ PrimFloat.eqb real_height 0 = true ->
    exists s',
      detect_trees (Some img) hue_min hue_max sat_min sat_max val_min val_max
        min_diameter max_diameter cluster_threshold real_width real_height s
      = (HTTPException 500, s').
Proof.
  intros S RK ops libm img hue_min hue_max sat_min sat_max val_min val_max
         min_d max_d cl_t real_w real_h s Hzero.
  unfold detect_trees.
  destruct (detect_trees_in_image _ _ _ _ s) as [[result|e] s'] eqn:Hrun;
    [ | exists s'; reflexivity ].
  exists s'.
  apply zero_dimension_scale in Hrun; [ | exact Hzero ].
  unfold json_compliant. rewrite Hrun.
  rewrite !andb_false_r. reflexivity.
Qed.

Lemma zero_width_patch_witness :
  detect_trees (Some patch) 50 70 50 255 50 255 0.1 0.3 0.2 0 1 seeded
  = (HTTPException 500, seeded).
Proof.
  destruct (zero_real_dimension_is_answered_500 Z lcg reference_ops rounded_square patch
              50 70 50 255 50 255 0.1 0.3 0.2 0 1 seeded
              ltac:(left; vm_compute; reflexivity)) as [s' Hrun].
  vm_compute. reflexivity.
Defined.

(** ** The [/generate-model] endpoint *)

Lemma io_bind_Returned {W A B} (c : IO W A) (k : A -> IO W B) (w w' : W) (b : B) :
  io_bind c k w = (Returned b, w') ->
  exists a w1, c w = (Returned a, w1) /\ k a w1 = (Returned b, w').
Proof.
  unfold io_bind. destruct (c w) as [[a|e] w1]; [ | discriminate ].
  intros Hk. exists a, w1. auto.
Qed.

Lemma io_bind_Raised {W A B} (c : IO W A) (k : A -> IO W B) (w w' : W)
    (e : py_exception) :
  io_bind c k w = (Raised e, w') ->
  c w = (Raised e, w')
  \/ exists a w1, c w = (Returned a, w1) /\ k a w1 = (Raised e, w').
Proof.
  unfold io_bind. destruct (c w) as [[a|e1] w1]; intros Hk.
  - right. exists a, w1. auto.
  - left. inversion Hk. reflexivity.
Qed.

Lemma no_entries_falsy (d : Dict) (key : String.string) :
  no_entries d key -> get_truthy d key = false.
Proof.
  unfold no_entries, get_truthy. intros [-> | [-> | ->]]; reflexivity.
Qed.

Ltac io_step H a w Ha :=
  apply io_bind_Returned in H; destruct H as (a & w & Ha & H).

Section ModelProperties.

Context {W : Type} {backend : Backend W}.

Local Open Scope string_scope.

(** What the large-model branch returns, step by step. *)
Lemma generate_model_try_Saved (d : Dict) (w w' : W) (r : SavedModel) :
  generate_model_try d w = (Returned (Saved r), w') ->
  exists m w1 obj mtl w2 w3 w4 size,
    let downloads_dir := path_join (expanduser_home w2) "Downloads" in
    let obj_filepath := path_join downloads_dir (filename r) in
    generate_model_metadata d w = (Returned m, w1)
    /\ 20000 < totalTrees m <= 60000
    /\ generate_obj_content d w1 = (Returned (obj, mtl), w2)
    /\ makedirs downloads_dir w2 = (Returned tt, w3)
    /\ filename r
       = String.concat ""
           ["trees_model_"; str (totalTrees m); "trees_"; now_strftime w3; ".obj"]
    /\ write_text obj_filepath obj w3 = (Returned tt, w4)
    /\ getsize obj_filepath w4 = (Returned size, w')
    /\ total_trees r = totalTrees m
    /\ filesize_mb r
       = Py.round2 (PrimFloat.div (Py.float_of_int size) (Py.float_of_int 1048576))
    /\ filepath r = abspath w' obj_filepath.
Proof.
  unfold generate_model_try. intros Hrun.
  destruct (negb _ && negb _); [ discriminate | ].
  io_step Hrun m w1 Hm.
  destruct (Z.ltb_spec 60000 (totalTrees m)) as [Hbig|Hfit]; [ discriminate | ].
  destruct (Z.ltb_spec 20000 (totalTrees m)) as [Hlarge|Hsmall].
  - io_step Hrun contents w2 Hobj. destruct contents as [obj mtl].
    io_step Hrun hm w2' Hhome. unfold io_read in Hhome.
    inversion Hhome; subst hm w2'. clear Hhome.
    io_step Hrun u w3 Hmk. destruct u.
    io_step Hrun ts w3' Hts. unfold io_read in Hts.
    inversion Hts; subst ts w3'. clear Hts.
    io_step Hrun u w4 Hwr. destruct u.
    io_step Hrun size w5 Hsize.
    io_step Hrun absolute w5' Habs. unfold io_read in Habs.
    inversion Habs; subst absolute w5'. clear Habs.
    unfold io_ret in Hrun. inversion Hrun; subst. clear Hrun. simpl.
    exists m, w1, obj, mtl, w2, w3, w4, size. simpl.
    repeat split; auto; lia.
  - io_step Hrun contents w2 Hobj. unfold io_ret in Hrun. discriminate.
Qed.

Lemma generate_model_try_Inline (d : Dict) (w w' : W) (r : ObjDownload) :
  generate_model_try d w = (Returned (Inline r), w') ->
  exists m w1 mtl,
    (get_truthy d "individualTrees" = true \/ get_truthy d "treeClusters" = true)
    /\ generate_model_metadata d w = (Returned m, w1)
    /\ totalTrees m <= 20000
    /\ generate_obj_content d w1 = (Returned (content r, mtl), w')
    /\ media_type r = "model/obj"
    /\ content_disposition r = "attachment; filename=trees_model.obj".
Proof.
  unfold generate_model_try. intros Hrun.
  destruct (get_truthy d "individualTrees") eqn:Hind;
    destruct (get_truthy d "treeClusters") eqn:Hcl; simpl in Hrun;
    try discriminate.
  all: io_step Hrun m w1 Hm.
  all: destruct (Z.ltb_spec 60000 (totalTrees m)) as [Hbig|Hfit]; [ discriminate | ].
  all: destruct (Z.ltb_spec 20000 (totalTrees m)) as [Hlarge|Hsmall].
  all: try (io_step Hrun contents w2 Hobj; destruct contents as [obj mtl];
            unfold io_ret in Hrun; inversion Hrun; subst; simpl;
            exists m, w1, mtl; repeat split; auto; fail).
  all: exfalso.
  all: io_step Hrun contents w2 Hobj.
  all: io_step Hrun hm w2' Hhome.
  all: io_step Hrun u w3 Hmk.
  all: io_step Hrun ts w3' Hts.
  all: io_step Hrun u' w4 Hwr.
  all: io_step Hrun size w5 Hsize.
  all: io_step Hrun absolute w5' Habs.
  all: unfold io_ret in Hrun; discriminate.
Qed.

(** An [HTTPException] that leaves the [try] of a plain backend is one of the
    endpoint's own two. *)
Lemma generate_model_try_HTTPError (d : Dict) (w w' : W) (code : Z) :
  plain_backend backend ->
  generate_model_try d w = (Raised (HTTPError code), w') ->
  code = 400
  /\ ((get_truthy d "individualTrees" = false /\ get_truthy d "treeClusters" = false
       /\ w' = w)
      \/ exists m, generate_model_metadata d w = (Returned m, w')
                   /\ 60000 < totalTrees m).
Proof.
  intros (Hmeta & Hobj & Hmk & Hwr & Hsz). unfold generate_model_try. intros Hrun.
  destruct (get_truthy d "individualTrees") eqn:Hind;
    destruct (get_truthy d "treeClusters") eqn:Hcl; simpl in Hrun.
  4: { unfold io_raise in Hrun. inversion Hrun; subst. auto. }
  all: apply io_bind_Raised in Hrun;
    destruct Hrun as [Hrun | (m & w1 & Hm & Hrun)];
    [ apply Hmeta in Hrun; contradiction | ].
  all: destruct (Z.ltb_spec 60000 (totalTrees m)) as [Hbig|Hfit];
    [ unfold io_raise in Hrun; inversion Hrun; subst; split; [ reflexivity | ];
      right; exists m; auto | ].
  all: exfalso.
  all: destruct (20000 <? totalTrees m).
  all: apply io_bind_Raised in Hrun;
    destruct Hrun as [Hrun | (contents & w2 & Hc & Hrun)];
    [ apply Hobj in Hrun; contradiction | ].
  all: try (unfold io_ret in Hrun; discriminate).
  all: apply io_bind_Raised in Hrun;
    destruct Hrun as [Hrun | (hm & w2' & Hh & Hrun)];
    [ unfold io_read in Hrun; discriminate | ].
  all: apply io_bind_Raised in Hrun;
    destruct Hrun as [Hrun | (u & w3 & Hd & Hrun)];
    [ apply Hmk in Hrun; contradiction | ].
  all: apply io_bind_Raised in Hrun;
    destruct Hrun as [Hrun | (ts & w3' & Ht & Hrun)];
    [ unfold io_read in Hrun; discriminate | ].
  all: apply io_bind_Raised in Hrun;
    destruct Hrun as [Hrun | (u' & w4 & Hw & Hrun)];
    [ apply Hwr in Hrun; contradiction | ].
  all: apply io_bind_Raised in Hrun;
    destruct Hrun as [Hrun | (size & w5 & Hs & Hrun)];
    [ apply Hsz in Hrun; contradiction | ].
  all: apply io_bind_Raised in Hrun;
    destruct Hrun as [Hrun | (absolute & w5' & Ha & Hrun)];
    [ unfold io_read in Hrun; discriminate | ].
  all: unfold io_ret in Hrun; discriminate.
Qed.

End ModelProperties.

Lemma memory_backend_plain : plain_backend memory_backend.
Proof.
  unfold plain_backend, raises_no_HTTPException. simpl.
  repeat split; intros *.
  - unfold memory.metadata_of. discriminate.
  - unfold memory.obj_of. destruct (memory.read_file _ _); intros Hr; inversion Hr.
    exact I.
  - unfold memory.mkdir. discriminate.
  - unfold memory.write_file. discriminate.
  - unfold memory.size_of. destruct (memory.read_file _ _); intros Hr; inversion Hr.
    exact I.
Qed.

Section ModelAnswers.

Local Open Scope string_scope.

(** X10: detection data without trees is refused with 400 before anything
    else happens.  When both [individualTrees] and [treeClusters] are missing,
    [null] or empty, the answer is 400 whatever the backend would do: no
    metadata is computed, no model generated, no file written. *)
Theorem generate_model_refuses_data_without_trees :
  forall (W : Type) (backend : Backend W) (detection_data : Dict) (w : W),
    no_entries detection_data "individualTrees" ->
    no_entries detection_data "treeClusters" ->
    generate_model detection_data w = (ModelHTTPException 400, w).
Proof.
  intros W backend d w Hind Hcl.
  unfold generate_model, generate_model_try.
  rewrite (no_entries_falsy _ _ Hind), (no_entries_falsy _ _ Hcl). reflexivity.
Qed.

Lemma refuses_empty_witness :
  generate_model [("individualTrees"%string, JArray []); ("summary"%string, JNull)]
    installed
  = (ModelHTTPException 400, installed).
Proof.
  apply (generate_model_refuses_data_without_trees Disk memory_backend).
  - right. right. reflexivity.
  - left. reflexivity.
Defined.



(** X12: a model is saved to disk only between 20001 and 60000 trees, and
    the reply describes the file that was written.  Whenever the endpoint
    answers with the saved-model dictionary, the tree count of the metadata
    lies in that range, the model text was written to
    [~/Downloads/trees_model_<count>trees_<timestamp>.obj], and the reply
    carries that name, the count, the absolute path and the size of the file
    in MiB rounded to two decimals. *)
Theorem saved_model_reply_describes_the_written_file :
  forall (W : Type) (backend : Backend W) (detection_data : Dict) (w w' : W)
         (r : SavedModel),
    generate_model detection_data w = (ModelOK (Saved r), w') ->
    exists m w1 obj mtl w2 w3 w4 size,
      let downloads_dir := path_join (expanduser_home w2) "Downloads" in
      let obj_filepath := path_join downloads_dir (filename r) in
      generate_model_metadata detection_data w = (Returned m, w1)
      /\ 20000 < totalTrees m <= 60000
      /\ generate_obj_content detection_data w1 = (Returned (obj, mtl), w2)
      /\ makedirs downloads_dir w2 = (Returned tt, w3)
      /\ filename r
         = String.concat ""
             ["trees_model_"; str (totalTrees m); "trees_"; now_strftime w3; ".obj"]
      /\ write_text obj_filepath obj w3 = (Returned tt, w4)
      /\ getsize obj_filepath w4 = (Returned size, w')
      /\ total_trees r = totalTrees m
      /\ filesize_mb r
         = Py.round2 (PrimFloat.div (Py.float_of_int size) (Py.float_of_int 1048576))
      /\ filepath r = abspath w' obj_filepath.
Proof.
  intros W backend d w w' r Hrun. apply generate_model_try_Saved.
  unfold generate_model in Hrun.
  destruct (generate_model_try d w) as [[reply|[code| |]] w1];
    inversion Hrun; subst; reflexivity.
Qed.

Lemma saved_model_witness :
  exists r w',
    generate_model (forest 20001) installed = (ModelOK (Saved r), w')
    /\ filename r = "trees_model_20001trees_20240101_120000.obj"
    /\ total_trees r = 20001.
Proof.
  eexists. eexists. split; [ vm_compute; reflexivity | ].
  pose proof (saved_model_reply_describes_the_written_file Disk memory_backend
                (forest 20001) installed _ _ ltac:(vm_compute; reflexivity))
    as (m & w1 & obj & mtl & w2 & w3 & w4 & size & Hm & _ & _ & _ & Hname & _ & _
        & Htotal & _).
  vm_compute in Hm. inversion Hm; subst m w1. clear Hm.
  split; [ vm_compute; reflexivity | exact Htotal ].
Defined.

(** X13: a model is returned inline only up to 20000 trees, and then nothing
    but the two generator functions has run.  Whenever the endpoint answers
    with the OBJ response, the data had trees, the metadata counts at most
    20000, the content is the first component of what [generate_obj_content]
    returned, typed [model/obj], and the world is the one that call left: no
    directory is made and no file written. *)
Theorem inline_model_reply_is_the_generated_text :
  forall (W : Type) (backend : Backend W) (detection_data : Dict) (w w' : W)
         (r : ObjDownload),
    generate_model detection_data w = (ModelOK (Inline r), w') ->
    exists m w1 mtl,
      (get_truthy detection_data "individualTrees" = true
       \/ get_truthy detection_data "treeClusters" = true)
      /\ generate_model_metadata detection_data w = (Returned m, w1)
      /\ totalTrees m <= 20000
      /\ generate_obj_content detection_data w1 = (Returned (content r, mtl), w')
      /\ media_type r = "model/obj"
      /\ content_disposition r = "attachment; filename=trees_model.obj".
Proof.
  intros W backend d w w' r Hrun. apply generate_model_try_Inline.
  unfold generate_model in Hrun.
  destruct (generate_model_try d w) as [[reply|[code| |]] w1];
    inversion Hrun; subst; reflexivity.
Qed.

Lemma inline_model_witness :
  exists r,
    generate_model (forest 20000) installed = (ModelOK (Inline r), installed)
    /\ content r = "v 0 0 0 x20000".
Proof.
  eexists. split; [ vm_compute; reflexivity | ].
  pose proof (inline_model_reply_is_the_generated_text Disk memory_backend
                (forest 20000) installed _ _ ltac:(vm_compute; reflexivity))
    as (m & w1 & mtl & _ & _ & _ & _ & _ & _).
  vm_compute. reflexivity.
Defined.

(** X14: the error statuses of the endpoint and what each one means.  With a
    backend that raises no [HTTPException] of its own, a refusal is 400, 404
    or 500; 400 is answered only for data without trees (the world untouched)
    or for more than 60000 trees (right after the metadata); 404 only when a
    step raised [FileNotFoundError]; 500 for any other exception. *)
Theorem generate_model_error_statuses :
  forall (W : Type) (backend : Backend W) (detection_data : Dict) (w w' : W)
         (status_code : Z),
    plain_backend backend ->
    generate_model detection_data w = (ModelHTTPException status_code, w') ->
    (status_code = 400
     /\ ((get_truthy detection_data "individualTrees" = false
          /\ get_truthy detection_data "treeClusters" = false /\ w' = w)
         \/ exists m, generate_model_metadata detection_data w = (Returned m, w')
                      /\ 60000 < totalTrees m))
    \/ (status_code = 404
        /\ generate_model_try detection_data w = (Raised FileNotFoundError, w'))
    \/ (status_code = 500
        /\ generate_model_try detection_data w = (Raised OtherException, w')).
Proof.
  intros W backend d w w' status_code Hplain Hrun. unfold generate_model in Hrun.
  destruct (generate_model_try d w) as [[reply|[code| |]] w1] eqn:Htry;
    inversion Hrun; subst; clear Hrun.
  - left. eapply generate_model_try_HTTPError; eassumption.
  - right. left. auto.
  - right. right. auto.
Qed.

Lemma missing_template_witness :
  generate_model (forest 3) bare = (ModelHTTPException 404, bare)
  /\ generate_model_try (forest 3) bare = (Raised FileNotFoundError, bare).
Proof.
  pose proof (generate_model_error_statuses Disk memory_backend (forest 3) bare bare
                404 memory_backend_plain ltac:(vm_compute; reflexivity))
    as [(Hcode & _) | [(_ & Htry) | (Hcode & _)]];
    [ discriminate | | discriminate ].
  split; [ vm_compute; reflexivity | exact Htry ].
Defined.

(** X15: a missing tree template is 404 on both branches.  Whatever the
    size of the model, a [FileNotFoundError] of [generate_obj_content] is
    answered 404, in the world that call left: no directory is made and no
    file written. *)
Theorem missing_template_is_answered_404 :
  forall (W : Type) (backend : Backend W) (detection_data : Dict) (w w1 w2 : W)
         (m : ModelMetadata),
    get_truthy detection_data "individualTrees" = true
    \/ get_truthy detection_data "treeClusters" = true ->
    generate_model_metadata detection_data w = (Returned m, w1) ->
    totalTrees m <= 60000 ->
    generate_obj_content detection_data w1 = (Raised FileNotFoundError, w2) ->
    generate_model detection_data w = (ModelHTTPException 404, w2).
Proof.
  intros W backend d w w1 w2 m Hsome Hm Hfit Hobj.
  unfold generate_model, generate_model_try.
  assert (Hguard : negb (get_truthy d "individualTrees")
                   && negb (get_truthy d "treeClusters") = false).
  { destruct Hsome as [-> | ->]; simpl; [ reflexivity | apply andb_false_r ]. }
  rewrite Hguard. unfold io_bind at 1. rewrite Hm.
  destruct (Z.ltb_spec 60000 (totalTrees m)) as [Hbig|_]; [ lia | ].
  destruct (20000 <? totalTrees m); unfold io_bind at 1; rewrite Hobj; reflexivity.
Qed.

Lemma missing_template_large_witness :
  generate_model (forest 20001) bare = (ModelHTTPException 404, bare).
Proof.
  apply (missing_template_is_answered_404 Disk memory_backend (forest 20001)
           bare bare bare
           {| totalTrees := 20001; totalVertices := 160008; totalFaces := 240012 |}).
  - left. vm_compute. reflexivity.
  - vm_compute. reflexivity.
  - simpl. lia.
  - vm_compute. reflexivity.
Defined.

(** X16: the two endpoints composed.  The body of a 200 answer of
    [/detect-trees], posted to [/generate-model], is refused with 400 exactly
    when the detection found nothing: when both summary counts are zero the
    answer is 400 and the backend is not touched; when one of them is positive
    the metadata step runs, and what it raises is what the [try] raises. *)
Theorem generate_model_on_detection_result :
  forall (S : Type) (RK : RandomKit S) (ops : ImageOps) (libm : LibM)
         (W : Type) (backend : Backend W) (img : option Image)
         (hue_min hue_max sat_min sat_max val_min val_max : Z)
         (min_diameter max_diameter cluster_threshold real_width real_height : float)
         (s s' : S) (result : DetectionResult) (timestamp : String.string) (w : W),
    detect_trees img hue_min hue_max sat_min sat_max val_min val_max
      min_diameter max_diameter cluster_threshold real_width real_height s
    = (JSONResponse result, s') ->
    (individualTreesCount (summary result) = 0
     /\ treeClustersCount (summary result) = 0 ->
     generate_model (detection_json timestamp result) w = (ModelHTTPException 400, w))
    /\ (0 < individualTreesCount (summary result) + treeClustersCount (summary result) ->
        forall e w1,
          generate_model_metadata (detection_json timestamp result) w = (Raised e, w1) ->
          generate_model_try (detection_json timestamp result) w = (Raised e, w1)).
Proof.
  intros S RK ops libm W backend img hue_min hue_max sat_min sat_max val_min val_max
         min_d max_d cl_t real_w real_h s s' result timestamp w Hrun.
  unfold detect_trees in Hrun. destruct img as [img|]; [ | discriminate ].
  destruct (detect_trees_in_image _ _ _ _ s) as [[res|e] s1] eqn:Hdet;
    [ | discriminate ].
  destruct (json_compliant res); [ | discriminate ].
  inversion Hrun; subst res s1. clear Hrun.
  apply detect_trees_in_image_summary in Hdet. destruct Hdet as (Hn1 & Hn2 & _).
  rewrite Hn1, Hn2.
  assert (Hind : get_truthy (detection_json timestamp result) "individualTrees"
                 = negb (Nat.eqb (length (individualTrees result)) 0)).
  { unfold get_truthy. simpl. destruct (individualTrees result); reflexivity. }
  assert (Hcl : get_truthy (detection_json timestamp result) "treeClusters"
                = negb (Nat.eqb (length (treeClusters result)) 0)).
  { unfold get_truthy. simpl. destruct (treeClusters result); reflexivity. }
  split.
  - intros [Hz1 Hz2]. unfold generate_model, generate_model_try.
    rewrite Hind, Hcl.
    destruct (individualTrees result); [ | simpl in Hz1; lia ].
    destruct (treeClusters result); [ | simpl in Hz2; lia ].
    reflexivity.
  - intros Hpos e w1 Hm. unfold generate_model_try. rewrite Hind, Hcl.
    destruct (individualTrees result) as [|t ts];
      destruct (treeClusters result) as [|c cs]; simpl in Hpos; try lia; simpl.
    all: unfold io_bind; rewrite Hm; reflexivity.
Qed.

Lemma nothing_detected_witness :
  exists result s',
    detect_trees (Some asphalt) 35 85 40 255 40 255 1 3 5 10 10 seeded
    = (JSONResponse result, s')
    /\ generate_model (detection_json "2024-01-01T12:00:00" result) installed
       = (ModelHTTPException 400, installed).
Proof.
  eexists. eexists. split; [ vm_compute; reflexivity | ].
  apply (generate_model_on_detection_result Z lcg reference_ops rounded_square
                                            Disk memory_backend
           (Some asphalt) 35 85 40 255 40 255 1 3 5 10 10 seeded _ _
           "2024-01-01T12:00:00" installed ltac:(vm_compute; reflexivity)).
  split; reflexivity.
Defined.

End ModelAnswers.
